(** * School scoring: a shallow embedding of [scoring.py]

    The development follows [SchoolScorer] of [scoring.py]: the eight
    category scorers, the composite aggregator, the filter predicate and the
    ranking pipeline.

    School records are the Python objects that [json.load] yields, so they are
    embedded as an untyped tree [json]; every Python operation that can raise
    on a value of the wrong shape ([.get] on a non-dict, [len] of a number,
    arithmetic on a string, ...) returns in the error monad [result].

    Numbers: Python [int] and [float] are both embedded in [Q], and the
    arithmetic is exact.  On integers that is Python's own arithmetic.  On
    doubles it is an idealisation: where the exact value of a score falls
    on, or within a rounding error of, a halfway point of [round(x, 1)],
    the code can return the neighbouring tenth.  The theorems are therefore
    of three kinds: evaluations on integer data, where the two agree;
    statements about order, bounds, null scores, texts and exceptions, which
    do not rest on the last decimal; and values on the data where doubles
    are exact (whole minutes, ratings with one decimal).  The lemmas that
    equate a score with an exact formula ([academic_spec], [proximity_spec],
    [composite_average]) are about the exact arithmetic, and are steps of
    those proofs. *)

From Stdlib Require Import QArith Qround Qminmax ZArith Lia Lqa.
From Stdlib Require Import Bool List String Ascii.
From Stdlib Require Import Sorting.Sorted Sorting.Permutation.
Import ListNotations.

Open Scope string_scope.
Open Scope Q_scope.

Set Warnings "-register-all".

(** ** Exceptions and the error monad *)

Inductive exn : Type :=
| AttributeError
| TypeError
| KeyError
| ValueError.

Inductive result (A : Type) : Type :=
| Ok (a : A)
| Raise (e : exn).

Arguments Ok {A} a.
Arguments Raise {A} e.

Definition bind {A B : Type} (m : result A) (k : A -> result B) : result B :=
  match m with
  | Ok a => k a
  | Raise e => Raise e
  end.

Notation "x <- m ;; k" := (bind m (fun x => k))
  (at level 61, m at next level, right associativity).

(** ** Python values read from JSON *)

Inductive json : Type :=
| JNull
| JBool (b : bool)
| JNum (q : Q)
| JStr (s : string)
| JList (l : list json)
| JDict (d : list (string * json)).

Definition dict : Type := list (string * json).

(** Lookup of a key in a dict given by its items. *)
Fixpoint assoc {A : Type} (k : string) (d : list (string * A)) : option A :=
  match d with
  | [] => None
  | (k', v) :: d' => if String.eqb k k' then Some v else assoc k d'
  end.

(** Truth value of an object, as tested by [if x:] and [not x]. *)
Definition truthy (v : json) : bool :=
  match v with
  | JNull => false
  | JBool b => b
  | JNum q => negb (Qeq_bool q 0)
  | JStr s => negb (String.eqb s "")
  | JList l => match l with [] => false | _ :: _ => true end
  | JDict d => match d with [] => false | _ :: _ => true end
  end.

(** [v.get(k, default)] *)
Definition py_get (v : json) (k : string) (default : json) : result json :=
  match v with
  | JDict d => Ok (match assoc k d with Some x => x | None => default end)
  | _ => Raise AttributeError
  end.

(** [v.get(k)], whose default is [None]. *)
Definition py_get1 (v : json) (k : string) : result json := py_get v k JNull.

(** A value used as a number: [bool] is a subclass of [int]; arithmetic and
    ordering against a number raise [TypeError] on everything else. *)
Definition as_num (v : json) : result Q :=
  match v with
  | JNum q => Ok q
  | JBool b => Ok (if b then 1 else 0)
  | _ => Raise TypeError
  end.

Definition Qlt_bool (a b : Q) : bool := negb (Qle_bool b a).

(** [min(a, b)] and [max(a, b)] return the first argument on a tie. *)
Definition py_min (a b : Q) : Q := if Qlt_bool b a then b else a.
Definition py_max (a b : Q) : Q := if Qlt_bool a b then b else a.

(** The integer nearest to [t], the even one of the two when [t] is halfway. *)
Definition nearest_even (t : Q) : Z :=
  let n := Qfloor t in
  match ((t - inject_Z n) ?= (1 # 2))%Q with
  | Lt => n
  | Gt => (n + 1)%Z
  | Eq => if Z.even n then n else (n + 1)%Z
  end.

(** [round(x, 1)] on an exact value: the nearest multiple of 1/10, ties to
    the even one.  (On a double, Python rounds the binary value the double
    holds, which is this rounding except next to a tie.) *)
Definition round1 (x : Q) : Q := Qred (inject_Z (nearest_even (x * 10)) / 10).

(** [round(v, 1)] on an object. *)
Definition py_round1 (v : json) : result Q :=
  match v with
  | JNum q => Ok (round1 q)
  | JBool b => Ok (if b then 1 else 0)
  | _ => Raise TypeError
  end.

Definition Qsum (l : list Q) : Q := fold_left Qplus l 0.

(** [statistics.mean] *)
Definition mean (l : list Q) : Q := Qsum l / inject_Z (Z.of_nat (List.length l)).

Fixpoint mapM {A B : Type} (f : A -> result B) (l : list A) : result (list B) :=
  match l with
  | [] => Ok []
  | x :: l' => y <- f x ;; ys <- mapM f l' ;; Ok (y :: ys)
  end.

(** *** Strings *)

(** A Python [str] is embedded as the sequence of its characters, one
    [ascii] for each character, the [ascii] being the code point of the
    character (so the strings of the model are those whose code points are
    below 256, the Latin-1 range, which holds the accented letters of Dutch
    names).  [String.length] is then [len]. *)

(** [c.lower()] for a character of that range: the letters [A]-[Z] (code
    points 65-90) and the accented capitals (192-222, without the
    multiplication sign 215) move up by 32; nothing else changes. *)
Definition lower_ascii (c : ascii) : ascii :=
  let n := nat_of_ascii c in
  if ((Nat.leb 65 n && Nat.leb n 90)
      || (Nat.leb 192 n && Nat.leb n 222 && negb (Nat.eqb n 215)))%bool
  then ascii_of_nat (n + 32) else c.

(** [s.lower()] *)
Fixpoint lower (s : string) : string :=
  match s with
  | EmptyString => EmptyString
  | String c s' => String (lower_ascii c) (lower s')
  end.

(** [a in b] for two strings. *)
Fixpoint is_substring (a b : string) : bool :=
  if String.prefix a b then true
  else match b with
       | EmptyString => false
       | String _ b' => is_substring a b'
       end.

(** [s.replace('_', ' ')] *)
Fixpoint replace_underscore (s : string) : string :=
  match s with
  | EmptyString => EmptyString
  | String c s' =>
      String (if Ascii.eqb c "_"%char then " "%char else c) (replace_underscore s')
  end.

(** [sep.join(l)] *)
Definition join (sep : string) (l : list string) : string := String.concat sep l.

Fixpoint chars (s : string) : list string :=
  match s with
  | EmptyString => []
  | String c s' => String c EmptyString :: chars s'
  end.

Fixpoint repeat_string (s : string) (n : nat) : string :=
  match n with
  | O => EmptyString
  | S n' => s ++ repeat_string s n'
  end.

(** [len(v)] *)
Definition py_len (v : json) : result nat :=
  match v with
  | JStr s => Ok (String.length s)
  | JList l => Ok (List.length l)
  | JDict d => Ok (List.length d)
  | _ => Raise TypeError
  end.

Definition json_is_str (k : string) (v : json) : bool :=
  match v with
  | JStr s => String.eqb s k
  | _ => false
  end.

(** [k in c] for a string [k]: key of a dict, element of a list, substring
    of a string; the other objects are not iterable. *)
Definition py_in (k : string) (c : json) : result bool :=
  match c with
  | JDict d => Ok (match assoc k d with Some _ => true | None => false end)
  | JList l => Ok (existsb (json_is_str k) l)
  | JStr s => Ok (is_substring k s)
  | _ => Raise TypeError
  end.

(** [c[k]] for a string key [k]. *)
Definition py_getitem (c : json) (k : string) : result json :=
  match c with
  | JDict d => match assoc k d with Some v => Ok v | None => Raise KeyError end
  | _ => Raise TypeError
  end.

(** [v[0]] on a truthy [v]. *)
Definition py_first (v : json) : result json :=
  match v with
  | JList (x :: _) => Ok x
  | JStr (String c _) => Ok (JStr (String c EmptyString))
  | JDict _ => Raise KeyError
  | _ => Raise TypeError
  end.

(** [v * 10]: numbers multiply, sequences repeat. *)
Definition py_times10 (v : json) : result json :=
  match v with
  | JNum q => Ok (JNum (q * 10))
  | JBool b => Ok (JNum ((if b then 1 else 0) * 10))
  | JStr s => Ok (JStr (repeat_string s 10))
  | JList l => Ok (JList (List.concat (List.repeat l 10)))
  | _ => Raise TypeError
  end.

(** ** Formatted strings

    The [details] texts are f-strings.  Their literal parts are kept as text
    and the interpolated numbers as the numbers they print. *)

Inductive part : Type :=
| Text (s : string)     (* literal text, or an interpolated string *)
| Shown (v : json)      (* {v} *)
| Fixed1 (q : Q).       (* {q:.1f} *)

Definition details_t : Type := list part.

(** [f"{v:.1f}"] *)
Definition py_format1 (v : json) : result part :=
  match v with
  | JNum q => Ok (Fixed1 q)
  | JBool b => Ok (Fixed1 (if b then 1 else 0))
  | JStr _ => Raise ValueError
  | _ => Raise TypeError
  end.

(** The dict [{'score': ..., 'details': ...}] every scorer returns. *)
Record category_score : Type := mkScore {
  score : option Q;
  details : details_t
}.

Definition no_data (msg : string) : category_score :=
  {| score := None; details := [Text msg] |}.

(** ** The category scorers of [SchoolScorer] *)

Definition DEFAULT_WEIGHTS : list (string * Q) :=
  [ ("academic_performance", 30);
    ("proximity", 20);
    ("parent_satisfaction", 15);
    ("student_satisfaction", 10);
    ("facilities", 10);
    ("school_size", 5);
    ("extracurriculars", 5);
    ("special_programs", 5) ].

(** *** Academic performance *)

Definition level_weights : list (string * Q) :=
  [ ("vmbo", 7 # 10); ("havo", 1); ("vwo", 3 # 2) ].

Definition level_weight (level : string) : result Q :=
  match assoc level level_weights with
  | Some w => Ok w
  | None => Raise KeyError
  end.

(** The three accumulators of the loop over the levels. *)
Record level_scan : Type := mkScan {
  level_data : list (string * json);
  five_year_avgs : list json;
  candidate_counts : list json
}.

Definition scan_level (exam_scores : json) (st : level_scan) (level : string)
  : result level_scan :=
  present <- py_in level exam_scores ;;
  if present then
    entry <- py_getitem exam_scores level ;;
    rate <- py_get1 entry "pass_rate_2024_2025" ;;
    avg_5yr <- py_get1 entry "average_pass_rate_5yr" ;;
    candidates <- py_get1 entry "candidates_2024_2025" ;;
    Ok {| level_data :=
            if truthy rate then (level_data st ++ [(level, rate)])%list else level_data st;
          five_year_avgs :=
            if truthy avg_5yr then (five_year_avgs st ++ [avg_5yr])%list
            else five_year_avgs st;
          candidate_counts :=
            if truthy candidates then (candidate_counts st ++ [candidates])%list
            else candidate_counts st |}
  else Ok st.

Fixpoint foldM {A S : Type} (f : S -> A -> result S) (l : list A) (st : S) : result S :=
  match l with
  | [] => Ok st
  | x :: l' => st' <- f st x ;; foldM f l' st'
  end.

(** [rate * level_weights[level]] for one item of [level_data]. *)
Definition weighted_rate (item : string * json) : result Q :=
  rate <- as_num (snd item) ;;
  w <- level_weight (fst item) ;;
  Ok (rate * w).

(** The rate of the current year.  A rate that is not a number makes every
    later use of it raise [TypeError], so it is converted here. *)
Definition current_rate_of (data : list (string * json)) : result Q :=
  match data with
  | [(_, rate)] => as_num rate
  | _ =>
      products <- mapM weighted_rate data ;;
      ws <- mapM (fun item => level_weight (fst item)) data ;;
      Ok (Qsum products / Qsum ws)
  end.

Definition calculate_academic_score (school : json) : result category_score :=
  academic <- py_get school "academic_performance" (JDict []) ;;
  exam_scores <- py_get academic "exam_scores" (JDict []) ;;
  if negb (truthy exam_scores) then Ok (no_data "No exam data available")
  else
    st <- foldM (scan_level exam_scores) ["vmbo"; "havo"; "vwo"] (mkScan [] [] []) ;;
    match level_data st with
    | [] => Ok (no_data "No pass rate data")
    | _ :: _ =>
        current_rate <- current_rate_of (level_data st) ;;
        final_rate <-
          match five_year_avgs st with
          | [] => Ok current_rate
          | _ :: _ =>
              avgs <- mapM as_num (five_year_avgs st) ;;
              Ok (current_rate * (7 # 10) + mean avgs * (3 # 10))
          end ;;
        counts <- mapM as_num (candidate_counts st) ;;
        let total_candidates := Qsum counts in
        let reliability_bonus := py_min (total_candidates / 500 * 5) 5 in
        let sc := py_min (final_rate + reliability_bonus) 100 in
        Ok {| score := Some (round1 sc);
              details := [ Fixed1 final_rate; Text "% pass rate, ";
                           Shown (JNum total_candidates); Text " candidates" ] |}
    end.

(** *** Proximity *)

Definition proximity_points (primary_mins : Q) : Q :=
  if Qle_bool primary_mins 10 then 100 - primary_mins * 1
  else if Qle_bool primary_mins 30 then 90 - (primary_mins - 10) * 2
  else py_max (50 - (primary_mins - 30) * 1) 0.

Definition calculate_proximity_score (school : json) : result category_score :=
  location <- py_get school "location" (JDict []) ;;
  bike <- py_get location "bike_accessibility" (JDict []) ;;
  public_transport <- py_get location "public_transport" (JDict []) ;;
  transit <- py_get public_transport "commute_from_home" (JDict []) ;;
  bike_mins <- py_get1 bike "duration_minutes" ;;
  transit_mins <- py_get1 transit "duration_minutes" ;;
  if (negb (truthy bike_mins) && negb (truthy transit_mins))%bool
  then Ok (no_data "No commute data")
  else
    let primary_mins := if truthy bike_mins then bike_mins else transit_mins in
    mins <- as_num primary_mins ;;
    let method := if truthy bike_mins then "bike" else "transit" in
    Ok {| score := Some (round1 (proximity_points mins));
          details := [ Shown primary_mins; Text " mins by "; Text method ] |}.

(** *** Parent and student satisfaction *)

Definition calculate_parent_satisfaction_score (school : json) : result category_score :=
  reputation <- py_get school "reviews_reputation" (JDict []) ;;
  reviews <- py_get reputation "parent_reviews" (JList []) ;;
  if negb (truthy reviews) then Ok (no_data "No parent reviews")
  else
    latest <- py_first reviews ;;
    rating <- py_get1 latest "overall_rating" ;;
    if negb (truthy rating) then Ok (no_data "No rating available")
    else
      sc <- py_times10 rating ;;
      recommend <- py_get1 latest "would_recommend" ;;
      recommend_text <-
        (if truthy recommend
         then r <- py_format1 recommend ;; Ok [ Text ", "; r; Text "/10 recommend" ]
         else Ok []) ;;
      rounded <- py_round1 sc ;;
      shown <- py_format1 rating ;;
      Ok {| score := Some rounded;
            details := ([ shown; Text "/10 rating" ] ++ recommend_text)%list |}.

Definition calculate_student_satisfaction_score (school : json) : result category_score :=
  reputation <- py_get school "reviews_reputation" (JDict []) ;;
  reviews <- py_get reputation "student_reviews" (JList []) ;;
  if negb (truthy reviews) then Ok (no_data "No student reviews")
  else
    latest <- py_first reviews ;;
    rating <- py_get1 latest "overall_rating" ;;
    if negb (truthy rating) then Ok (no_data "No rating available")
    else
      sc <- py_times10 rating ;;
      voice_matters <- py_get1 latest "voice_matters" ;;
      voice_text <-
        (if truthy voice_matters
         then r <- py_format1 voice_matters ;; Ok [ Text ", "; r; Text "/10 voice matters" ]
         else Ok []) ;;
      rounded <- py_round1 sc ;;
      shown <- py_format1 rating ;;
      Ok {| score := Some rounded;
            details := ([ shown; Text "/10 rating" ] ++ voice_text)%list |}.

(** *** Facilities *)

(** [v and len(v) > n] *)
Definition truthy_and_longer (v : json) (n : nat) : result bool :=
  if truthy v then len <- py_len v ;; Ok (Nat.ltb n len) else Ok false.

Definition calculate_facilities_score (school : json) : result category_score :=
  facilities <- py_get school "facilities" (JDict []) ;;
  technology <- py_get facilities "technology" (JDict []) ;;
  description <- py_get1 technology "description" ;;
  let s1 := (50 + (if truthy description then 15 else 0))%Z in
  sports <- py_get facilities "sports_facilities" (JList []) ;;
  has_sports <- truthy_and_longer sports 0 ;;
  let s2 := (s1 + (if has_sports then 15 else 0))%Z in
  classrooms <- py_get facilities "classrooms_labs_quality" (JStr "") ;;
  long_text <- truthy_and_longer classrooms 50 ;;
  let s3 := (s2 + (if long_text then 10 else 0))%Z in
  library <- py_get facilities "library" (JDict []) ;;
  let s4 := (s3 + (if truthy library then 10 else 0))%Z in
  technology' <- py_get1 facilities "technology" ;;
  let details_parts :=
    ((if truthy technology' then ["technology"] else []) ++
     (if truthy sports then ["sports"] else []) ++
     (if truthy classrooms then ["specialized classrooms"] else []))%list in
  let text :=
    match details_parts with
    | [] => "Basic facilities"
    | _ :: _ => join ", " details_parts
    end in
  Ok {| score := Some (inject_Z (Z.min s4 100)); details := [Text text] |}.

(** *** School size *)

Definition size_category (enrollment : Q) : string :=
  if Qlt_bool 1500 enrollment then "very_large"
  else if Qlt_bool 1000 enrollment then "large"
  else if Qle_bool 500 enrollment then "medium"
  else "small".

Definition preference_scores : list (string * list (string * Q)) :=
  [ ("small",  [("small", 100); ("medium", 70);  ("large", 50);  ("very_large", 30)]);
    ("medium", [("small", 70);  ("medium", 100); ("large", 80);  ("very_large", 60)]);
    ("large",  [("small", 50);  ("medium", 80);  ("large", 100); ("very_large", 90)]);
    ("any",    [("small", 80);  ("medium", 80);  ("large", 80);  ("very_large", 80)]) ].

Definition any_row : list (string * Q) :=
  [("small", 80); ("medium", 80); ("large", 80); ("very_large", 80)].

Definition size_points (preferred_size category : string) : Q :=
  let row := match assoc preferred_size preference_scores with
             | Some r => r
             | None => any_row
             end in
  match assoc category row with
  | Some p => p
  | None => 80
  end.

Definition calculate_school_size_score (school : json) (preferred_size : string)
  : result category_score :=
  basic_info <- py_get school "basic_info" (JDict []) ;;
  enrollment_info <- py_get basic_info "enrollment" (JDict []) ;;
  enrollment <- py_get1 enrollment_info "total" ;;
  if negb (truthy enrollment) then Ok (no_data "No enrollment data")
  else
    n <- as_num enrollment ;;
    let category := size_category n in
    Ok {| score := Some (size_points preferred_size category);
          details := [ Shown enrollment; Text " students (";
                       Text (replace_underscore category); Text ")" ] |}.

(** *** Extracurricular activities *)

Definition calculate_extracurriculars_score (school : json) : result category_score :=
  academic <- py_get school "academic_performance" (JDict []) ;;
  activities <- py_get academic "extracurricular_activities" (JList []) ;;
  support <- py_get school "student_support" (JDict []) ;;
  after_school <- py_get support "after_school_programs" (JList []) ;;
  n1 <- py_len activities ;;
  n2 <- py_len after_school ;;
  let total_activities := (n1 + n2)%nat in
  if Nat.eqb total_activities 0
  then Ok {| score := Some 50; details := [Text "No data on activities"] |}
  else
    Ok {| score := Some (inject_Z (Z.min (50 + Z.of_nat total_activities * 5) 100));
          details := [ Shown (JNum (inject_Z (Z.of_nat total_activities)));
                       Text " activities listed" ] |}.

(** *** Special programs *)

Definition as_str (v : json) : result string :=
  match v with
  | JStr s => Ok s
  | _ => Raise TypeError
  end.

(** [', '.join(programs[:3])]: a list of strings is joined, a string is
    sliced and joined by its characters, and a dict cannot be sliced. *)
Definition join_first3 (programs : json) : result string :=
  match programs with
  | JList l => names <- mapM as_str (firstn 3 l) ;; Ok (join ", " names)
  | JStr s => Ok (join ", " (firstn 3 (chars s)))
  | _ => Raise TypeError
  end.

Definition calculate_special_programs_score (school : json) : result category_score :=
  academic <- py_get school "academic_performance" (JDict []) ;;
  programs <- py_get academic "special_programs" (JList []) ;;
  if negb (truthy programs)
  then Ok {| score := Some 50; details := [Text "No special programs listed"] |}
  else
    n <- py_len programs ;;
    let sc := Z.min (50 + Z.of_nat n * 10) 100 in
    program_list <- join_first3 programs ;;
    let more :=
      if Nat.ltb 3 n
      then [ Text ", +"; Shown (JNum (inject_Z (Z.of_nat (n - 3)))); Text " more" ]
      else [] in
    Ok {| score := Some (inject_Z sc); details := Text program_list :: more |}.

(** ** The composite score *)

(** The dict returned by [calculate_composite_score]. *)
Record composite : Type := mkComposite {
  composite_score : option Q;
  category_scores : list (string * category_score);
  weights_used : list (string * Q);
  total_weight : Q
}.

(** One turn of the loop over [weights.items()]; the accumulator is
    [(weighted_sum, total_weight)]. *)
Definition add_category (scores : list (string * category_score))
  (acc : Q * Q) (item : string * Q) : Q * Q :=
  let '(category, weight) := item in
  match assoc category scores with
  | Some score_data =>
      match score score_data with
      | Some sc => (fst acc + sc * weight, snd acc + weight)
      | None => acc
      end
  | None => acc
  end.

Definition calculate_composite_score (school : json)
  (weights : option (list (string * Q))) (preferences : option (list (string * string)))
  : result composite :=
  let weights := match weights with Some w => w | None => DEFAULT_WEIGHTS end in
  let preferences := match preferences with Some p => p | None => [] end in
  let preferred_size :=
    match assoc "school_size" preferences with Some p => p | None => "medium" end in
  academic <- calculate_academic_score school ;;
  proximity <- calculate_proximity_score school ;;
  parent <- calculate_parent_satisfaction_score school ;;
  student <- calculate_student_satisfaction_score school ;;
  facilities <- calculate_facilities_score school ;;
  size <- calculate_school_size_score school preferred_size ;;
  extracurriculars <- calculate_extracurriculars_score school ;;
  special <- calculate_special_programs_score school ;;
  let scores :=
    [ ("academic_performance", academic);
      ("proximity", proximity);
      ("parent_satisfaction", parent);
      ("student_satisfaction", student);
      ("facilities", facilities);
      ("school_size", size);
      ("extracurriculars", extracurriculars);
      ("special_programs", special) ] in
  let '(weighted_sum, total) := fold_left (add_category scores) weights (0, 0) in
  let raw := if Qlt_bool 0 total then Some (weighted_sum / total) else None in
  Ok {| composite_score :=
          match raw with
          | Some c => if negb (Qeq_bool c 0) then Some (round1 c) else None
          | None => None
          end;
        category_scores := scores;
        weights_used := weights;
        total_weight := total |}.

(** ** Filtering and ranking *)

(** The [filters] dict of [rank_schools]; a key that is absent is [None]. *)
Record filters : Type := mkFilters {
  school_type : option (list string);
  religious_affiliation : option string;
  max_commute_minutes : option Q;
  city : option string
}.

(** [any(f(t) for t in l)] *)
Fixpoint py_any (f : string -> result bool) (l : list string) : result bool :=
  match l with
  | [] => Ok false
  | t :: l' => b <- f t ;; if b then Ok true else py_any f l'
  end.

(** [v.lower()] *)
Definition py_lower (v : json) : result string :=
  match v with
  | JStr s => Ok (lower s)
  | _ => Raise AttributeError
  end.

Definition type_filter_ok (school : json) (f : filters) : result bool :=
  match school_type f with
  | Some (t :: ts) =>
      basic_info <- py_get school "basic_info" (JDict []) ;;
      school_types <- py_get basic_info "type" (JList []) ;;
      py_any (fun t => py_in t school_types) (t :: ts)
  | _ => Ok true
  end.

Definition religion_filter_ok (school : json) (f : filters) : result bool :=
  match religious_affiliation f with
  | Some wanted =>
      if String.eqb wanted "" then Ok true
      else
        basic_info <- py_get school "basic_info" (JDict []) ;;
        affiliation <- py_get basic_info "religious_affiliation" (JStr "") ;;
        have <- py_lower affiliation ;;
        Ok (is_substring (lower wanted) have)
  | None => Ok true
  end.

Definition commute_filter_ok (school : json) (f : filters) : result bool :=
  match max_commute_minutes f with
  | Some limit =>
      location <- py_get school "location" (JDict []) ;;
      bike <- py_get location "bike_accessibility" (JDict []) ;;
      bike_mins <- py_get1 bike "duration_minutes" ;;
      if truthy bike_mins
      then mins <- as_num bike_mins ;; Ok (negb (Qlt_bool limit mins))
      else Ok true
  | None => Ok true
  end.

Definition city_filter_ok (school : json) (f : filters) : result bool :=
  match city f with
  | Some wanted =>
      if String.eqb wanted "" then Ok true
      else
        basic_info <- py_get school "basic_info" (JDict []) ;;
        c <- py_get basic_info "city" (JStr "") ;;
        have <- py_lower c ;;
        Ok (String.eqb have (lower wanted))
  | None => Ok true
  end.

(** [_passes_filters]: the four tests in the order of the source, each one
    returning [False] at once when it fails. *)
Definition _passes_filters (school : json) (f : filters) : result bool :=
  ok1 <- type_filter_ok school f ;;
  if negb ok1 then Ok false
  else
    ok2 <- religion_filter_ok school f ;;
    if negb ok2 then Ok false
    else
      ok3 <- commute_filter_ok school f ;;
      if negb ok3 then Ok false
      else
        ok4 <- city_filter_ok school f ;;
        if negb ok4 then Ok false else Ok true.

(** Truth value of the [filters] argument: [None] and the empty dict are
    false. *)
Definition filters_given (f : option filters) : option filters :=
  match f with
  | Some (mkFilters None None None None) => None
  | other => other
  end.

(** One item of the ranking: [{'school': ..., 'score_data': ...}]. *)
Record ranked : Type := mkRanked {
  school : json;
  score_data : composite
}.

(** The loop of [rank_schools] that fills [results]. *)
Fixpoint collect_results (schools : list json)
  (weights : option (list (string * Q))) (preferences : option (list (string * string)))
  (f : option filters) : result (list ranked) :=
  match schools with
  | [] => Ok []
  | s :: rest =>
      keep <- match filters_given f with
              | Some fs => _passes_filters s fs
              | None => Ok true
              end ;;
      if negb keep then collect_results rest weights preferences f
      else
        data <- calculate_composite_score s weights preferences ;;
        later <- collect_results rest weights preferences f ;;
        match composite_score data with
        | Some _ => Ok (mkRanked s data :: later)
        | None => Ok later
        end
  end.

(** The sort key [x['score_data']['composite_score']].  The loop above keeps
    no item whose composite score is [None]. *)
Definition sort_key (x : ranked) : Q :=
  match composite_score (score_data x) with
  | Some c => c
  | None => 0
  end.

(** [list.sort(key=..., reverse=True)] is a stable sort: items come out by
    decreasing key, and items of equal key keep their order. *)
Fixpoint insert_desc {A : Type} (key : A -> Q) (x : A) (l : list A) : list A :=
  match l with
  | [] => [x]
  | y :: l' =>
      if Qlt_bool (key x) (key y) then y :: insert_desc key x l'
      else x :: y :: l'
  end.

Fixpoint sort_desc {A : Type} (key : A -> Q) (l : list A) : list A :=
  match l with
  | [] => []
  | x :: l' => insert_desc key x (sort_desc key l')
  end.

Definition rank_schools (schools : list json)
  (weights : option (list (string * Q))) (preferences : option (list (string * string)))
  (f : option filters) : result (list ranked) :=
  results <- collect_results schools weights preferences f ;;
  Ok (sort_desc sort_key results).

(** ** School records: navigation and the schema *)

(** The value reached from [v] by following [keys]; [None] when a key is
    missing on the way. *)
Fixpoint path (v : json) (keys : list string) : option json :=
  match keys with
  | [] => Some v
  | k :: ks =>
      match v with
      | JDict d => match assoc k d with Some x => path x ks | None => None end
      | _ => None
      end
  end.

(** An optional field: absent, or holding a value accepted by [ok]. *)
Definition optional (d : dict) (k : string) (ok : json -> bool) : bool :=
  match assoc k d with
  | Some v => ok v
  | None => true
  end.

(** A required field. *)
Definition required (d : dict) (k : string) (ok : json -> bool) : bool :=
  match assoc k d with
  | Some v => ok v
  | None => false
  end.

Definition object (ok : dict -> bool) (v : json) : bool :=
  match v with
  | JDict d => ok d
  | _ => false
  end.

Definition sequence (ok : json -> bool) (v : json) : bool :=
  match v with
  | JList l => forallb ok l
  | _ => false
  end.

Definition is_string (v : json) : bool :=
  match v with
  | JStr _ => true
  | _ => false
  end.

(** A numeric leaf; the data files also write [null] for a number that is
    not known. *)
Definition number_or_null (v : json) : bool :=
  match v with
  | JNum _ | JNull => true
  | _ => false
  end.

Definition anything (v : json) : bool := true.

Definition wf_level (d : dict) : bool :=
  optional d "pass_rate_2024_2025" number_or_null
  && optional d "average_pass_rate_5yr" number_or_null
  && optional d "candidates_2024_2025" number_or_null.

Definition wf_exam_scores (d : dict) : bool :=
  optional d "vmbo" (object wf_level)
  && optional d "havo" (object wf_level)
  && optional d "vwo" (object wf_level).

Definition wf_academic (d : dict) : bool :=
  optional d "exam_scores" (object wf_exam_scores)
  && optional d "special_programs" (sequence is_string)
  && optional d "extracurricular_activities" (sequence is_string).

Definition wf_basic_info (d : dict) : bool :=
  required d "name" is_string
  && optional d "city" is_string
  && optional d "type" (sequence is_string)
  && optional d "religious_affiliation" is_string
  && optional d "enrollment" (object (fun e => optional e "total" number_or_null)).

Definition wf_duration (d : dict) : bool :=
  optional d "duration_minutes" number_or_null.

Definition wf_location (d : dict) : bool :=
  optional d "bike_accessibility" (object wf_duration)
  && optional d "public_transport"
       (object (fun t => optional t "commute_from_home" (object wf_duration))).

Definition wf_facilities (d : dict) : bool :=
  optional d "technology" (object (fun t => optional t "description" anything))
  && optional d "sports_facilities" (sequence anything)
  && optional d "classrooms_labs_quality" is_string
  && optional d "library" anything.

Definition wf_review (d : dict) : bool :=
  optional d "overall_rating" number_or_null
  && optional d "would_recommend" number_or_null
  && optional d "voice_matters" number_or_null.

Definition wf_reviews (d : dict) : bool :=
  optional d "parent_reviews" (sequence (object wf_review))
  && optional d "student_reviews" (sequence (object wf_review)).

Definition wf_support (d : dict) : bool :=
  optional d "after_school_programs" (sequence anything).

(** A well-formed school record: [id] and [basic_info.name] are present, and
    every other consumed field is either absent or of the shape the data model
    gives it.  Keys that the scorer does not consume are unconstrained. *)
Definition well_formed (s : json) : bool :=
  object (fun d =>
    required d "id" is_string
    && required d "basic_info" (object wf_basic_info)
    && optional d "academic_performance" (object wf_academic)
    && optional d "location" (object wf_location)
    && optional d "facilities" (object wf_facilities)
    && optional d "student_support" (object wf_support)
    && optional d "reviews_reputation" (object wf_reviews)) s.

(** The smallest well-formed record. *)
Definition bare_school : json :=
  JDict [ ("id", JStr "s1"); ("basic_info", JDict [("name", JStr "School")]) ].

(** [bare_school] with further top-level sections. *)
Definition school_with (sections : dict) : json :=
  JDict (("id", JStr "s1") :: ("basic_info", JDict [("name", JStr "School")]) :: sections).

Definition with_bike (mins : Q) : json :=
  school_with
    [ ("location", JDict [("bike_accessibility", JDict [("duration_minutes", JNum mins)])]) ].

Definition with_enrollment (total : Q) : json :=
  JDict [ ("id", JStr "s1");
          ("basic_info", JDict [ ("name", JStr "School");
                                 ("enrollment", JDict [("total", JNum total)]) ]) ].

(** ** Reference definitions for the stated properties *)

(** *** Satisfaction: the two audiences *)

Inductive audience : Type := Parents | Students.

Definition reviews_key (a : audience) : string :=
  match a with
  | Parents => "parent_reviews"
  | Students => "student_reviews"
  end.

Definition satisfaction_score (a : audience) (s : json) : result category_score :=
  match a with
  | Parents => calculate_parent_satisfaction_score s
  | Students => calculate_student_satisfaction_score s
  end.

(** *** Academic performance as the design document words it *)

(** Two readings of "the value is present": a number is recorded, or a
    number other than zero is recorded. *)
Definition recorded (v : json) : option Q :=
  match v with
  | JNum q => Some q
  | _ => None
  end.

Definition nonzero (v : json) : option Q :=
  match v with
  | JNum q => if Qeq_bool q 0 then None else Some q
  | _ => None
  end.

(** The three numbers of one education level. *)
Record level_view : Type := mkLevel {
  rate : option Q;
  average : option Q;
  candidates : option Q
}.

Definition read_field (read : json -> option Q) (d : dict) (k : string) : option Q :=
  match assoc k d with
  | Some v => read v
  | None => None
  end.

Definition read_level (read : json -> option Q) (exam_scores : dict) (level : string)
  : option level_view :=
  match assoc level exam_scores with
  | Some (JDict e) =>
      Some {| rate := read_field read e "pass_rate_2024_2025";
              average := read_field read e "average_pass_rate_5yr";
              candidates := read_field read e "candidates_2024_2025" |}
  | _ => None
  end.

Definition exam_scores_of (s : json) : dict :=
  match path s ["academic_performance"; "exam_scores"] with
  | Some (JDict d) => d
  | _ => []
  end.

Definition seq_of {A : Type} (o : option A) : list A :=
  match o with
  | Some x => [x]
  | None => []
  end.

Definition level_field (f : level_view -> option Q) (v : option level_view) : list Q :=
  match v with
  | Some lv => seq_of (f lv)
  | None => []
  end.

(** Weighted mean of the present pass rates, blended with the mean of the
    present five-year averages, plus the reliability bonus, capped at 100 and
    rounded; [None] when no pass rate is present. *)
Definition spec_academic_score (vmbo havo vwo : option level_view) : option Q :=
  let weighted (w : Q) (v : option level_view) :=
    map (fun r => (r, w)) (level_field rate v) in
  let rates := (weighted (7 # 10) vmbo ++ weighted 1 havo ++ weighted (3 # 2) vwo)%list in
  match rates with
  | [] => None
  | _ :: _ =>
      let current :=
        Qsum (map (fun rw => fst rw * snd rw) rates) / Qsum (map snd rates) in
      let averages :=
        (level_field average vmbo ++ level_field average havo
           ++ level_field average vwo)%list in
      let final :=
        match averages with
        | [] => current
        | _ :: _ => (7 # 10) * current + (3 # 10) * mean averages
        end in
      let total_candidates :=
        Qsum (level_field candidates vmbo ++ level_field candidates havo
                ++ level_field candidates vwo)%list in
      let bonus := Qmin (total_candidates / 500 * 5) 5 in
      Some (round1 (Qmin (final + bonus) 100))
  end.

Definition academic_by (read : json -> option Q) (s : json) : option Q :=
  let es := exam_scores_of s in
  spec_academic_score (read_level read es "vmbo") (read_level read es "havo")
    (read_level read es "vwo").

(** *** School size as the design document tabulates it *)

Inductive bucket : Type := Small | Medium | Large | VeryLarge.
Inductive preference : Type := PreferSmall | PreferMedium | PreferLarge | PreferAny.

Definition size_table (p : preference) (b : bucket) : Q :=
  match p, b with
  | PreferSmall, Small => 100 | PreferSmall, Medium => 70
  | PreferSmall, Large => 50 | PreferSmall, VeryLarge => 30
  | PreferMedium, Small => 70 | PreferMedium, Medium => 100
  | PreferMedium, Large => 80 | PreferMedium, VeryLarge => 60
  | PreferLarge, Small => 50 | PreferLarge, Medium => 80
  | PreferLarge, Large => 100 | PreferLarge, VeryLarge => 90
  | PreferAny, _ => 80
  end.

(** An unknown preference reads as [any]. *)
Definition preference_of (name : string) : preference :=
  if String.eqb name "small" then PreferSmall
  else if String.eqb name "medium" then PreferMedium
  else if String.eqb name "large" then PreferLarge
  else PreferAny.

(** The buckets with 1000 counted as large: small (<500), medium (500-999),
    large (1000-1500), very large (>1500). *)
Definition bucket_1000_large (enrollment : Q) : bucket :=
  if Qlt_bool enrollment 500 then Small
  else if Qlt_bool enrollment 1000 then Medium
  else if Qle_bool enrollment 1500 then Large
  else VeryLarge.

(** The buckets with 1000 counted as medium: small (<500), medium (500-1000),
    large (above 1000, up to 1500), very large (>1500). *)
Definition bucket_1000_medium (enrollment : Q) : bucket :=
  if Qlt_bool enrollment 500 then Small
  else if Qle_bool enrollment 1000 then Medium
  else if Qle_bool enrollment 1500 then Large
  else VeryLarge.

(** *** The weighted average over the categories that contribute *)

Definition points_of (scores : list (string * category_score)) (category : string)
  : option Q :=
  match assoc category scores with
  | Some sd => score sd
  | None => None
  end.

(** The (score, weight) pairs of the weighted categories whose score is not
    null. *)
Definition contributing (scores : list (string * category_score))
  (weights : list (string * Q)) : list (Q * Q) :=
  flat_map (fun item => match points_of scores (fst item) with
                        | Some x => [(x, snd item)]
                        | None => []
                        end) weights.

Definition contributing_weight (scores : list (string * category_score))
  (weights : list (string * Q)) : Q :=
  Qsum (map snd (contributing scores weights)).

Definition weighted_average (scores : list (string * category_score))
  (weights : list (string * Q)) : Q :=
  Qsum (map (fun xw => fst xw * snd xw) (contributing scores weights))
  / contributing_weight scores weights.

(** *** Reporting of missing data *)

(** A null score comes with one of the explanatory texts. *)
Definition explained (sd : category_score) : Prop :=
  score sd = None -> exists msg, sd = no_data msg /\ msg <> "".

(** *** Ranking *)

(** A school is listed when it passes the filters and its composite score is
    not null. *)
Definition listed (weights : option (list (string * Q)))
  (preferences : option (list (string * string))) (f : option filters) (s : json) : bool :=
  match (match filters_given f with
         | Some fs => _passes_filters s fs
         | None => Ok true
         end) with
  | Ok true =>
      match calculate_composite_score s weights preferences with
      | Ok data => match composite_score data with Some _ => true | None => false end
      | Raise _ => false
      end
  | _ => false
  end.

Definition same_key {A : Type} (key : A -> Q) (c : Q) (x : A) : bool :=
  Qeq_bool (key x) c.

(** Decreasing order of the keys. *)
Definition descending {A : Type} (key : A -> Q) (l : list A) : Prop :=
  StronglySorted (fun x y => key y <= key x) l.

(** [x] comes before [y] somewhere in [l]. *)
Definition before {A : Type} (x y : A) (l : list A) : Prop :=
  exists l1 l2 l3, l = (l1 ++ x :: l2 ++ y :: l3)%list.

(** *** Sections of a record, as the scorers reach them *)

(** The object under key [k], the empty object when there is none. *)
Definition child (d : dict) (k : string) : dict :=
  match assoc k d with
  | Some (JDict x) => x
  | _ => []
  end.

(** The value under key [k], [None] when there is none. *)
Definition leaf (d : dict) (k : string) : json :=
  match assoc k d with
  | Some v => v
  | None => JNull
  end.

(** The sequence under key [k], the empty one when there is none. *)
Definition elems (d : dict) (k : string) : list json :=
  match assoc k d with
  | Some (JList l) => l
  | _ => []
  end.

(** The accumulators of the scan after one more level whose numbers are [v]. *)
Definition scanned (st : level_scan) (level : string) (v : option level_view)
  : level_scan :=
  {| level_data :=
       (level_data st ++ map (fun r => (level, JNum r)) (level_field rate v))%list;
     five_year_avgs := (five_year_avgs st ++ map JNum (level_field average v))%list;
     candidate_counts :=
       (candidate_counts st ++ map JNum (level_field candidates v))%list |}.

(** *** Proximity as the design document words it *)

Definition spec_proximity_points (m : Q) : Q :=
  if Qle_bool m 10 then 100 - m
  else if Qle_bool m 30 then 90 - 2 * (m - 10)
  else Qmax (50 - (m - 30)) 0.

(** The number at the end of [keys], under a reading of "present". *)
Definition read_at (read : json -> option Q) (s : json) (keys : list string) : option Q :=
  match path s keys with
  | Some v => read v
  | None => None
  end.

(** Primary commute minutes: the bike duration if present, else the transit
    duration.  The score is null when neither is present. *)
Definition primary_minutes (read : json -> option Q) (s : json) : option Q :=
  match read_at read s ["location"; "bike_accessibility"; "duration_minutes"] with
  | Some m => Some m
  | None =>
      read_at read s
        ["location"; "public_transport"; "commute_from_home"; "duration_minutes"]
  end.

Definition proximity_by (read : json -> option Q) (s : json) : option Q :=
  option_map (fun m => round1 (spec_proximity_points m)) (primary_minutes read s).

(** *** The arguments of the aggregator *)

(** The weights in force: the given ones, or the defaults. *)
Definition chosen_weights (weights : option (list (string * Q))) : list (string * Q) :=
  match weights with
  | Some w => w
  | None => DEFAULT_WEIGHTS
  end.

(** The size preference in force. *)
Definition chosen_size (preferences : option (list (string * string))) : string :=
  match assoc "school_size" (match preferences with Some p => p | None => [] end) with
  | Some p => p
  | None => "medium"
  end.

(** *** Example records *)

(** A record with data for every category but parent satisfaction. *)
Definition no_parent_reviews : json :=
  JDict
    [ ("id", JStr "s2");
      ("basic_info",
        JDict [ ("name", JStr "Lyceum"); ("city", JStr "Amsterdam");
                ("type", JList [JStr "VWO"]);
                ("enrollment", JDict [("total", JNum 800)]) ]);
      ("academic_performance",
        JDict [ ("exam_scores",
                  JDict [ ("vwo", JDict [ ("pass_rate_2024_2025", JNum 80);
                                          ("candidates_2024_2025", JNum 400) ]) ]) ]);
      ("location",
        JDict [ ("bike_accessibility", JDict [("duration_minutes", JNum 10)]) ]);
      ("reviews_reputation",
        JDict [ ("student_reviews", JList [JDict [("overall_rating", JNum 8)]]) ]) ].

(** A record whose only score-bearing datum is an 80 minute bike ride. *)
Definition far_away : json := with_bike 80.

(** All the weight on proximity; the sliders of the application allow it. *)
Definition proximity_only : list (string * Q) :=
  [ ("academic_performance", 0);
    ("proximity", 20);
    ("parent_satisfaction", 0);
    ("student_satisfaction", 0);
    ("facilities", 0);
    ("school_size", 0);
    ("extracurriculars", 0);
    ("special_programs", 0) ].

(** The sliders at 20 for proximity, 80 for parent satisfaction and 0 for
    the rest. *)
Definition proximity_and_parents : list (string * Q) :=
  [ ("academic_performance", 0);
    ("proximity", 20);
    ("parent_satisfaction", 80);
    ("student_satisfaction", 0);
    ("facilities", 0);
    ("school_size", 0);
    ("extracurriculars", 0);
    ("special_programs", 0) ].

(** A bike ride of [bike] minutes and a transit ride of [transit] minutes. *)
Definition with_bike_and_transit (bike transit : Q) : json :=
  school_with
    [ ("location",
        JDict [ ("bike_accessibility", JDict [("duration_minutes", JNum bike)]);
                ("public_transport",
                  JDict [ ("commute_from_home",
                            JDict [("duration_minutes", JNum transit)]) ]) ]) ].

(** Exam data of a single level. *)
Definition one_level (level : string) (numbers : dict) : json :=
  school_with
    [ ("academic_performance", JDict [ ("exam_scores", JDict [(level, JDict numbers)]) ]) ].

(** Only [vwo] data: pass rate 80, no five-year average, 400 candidates. *)
Definition only_vwo : json :=
  one_level "vwo" [ ("pass_rate_2024_2025", JNum 80); ("candidates_2024_2025", JNum 400) ].

(** A [havo] pass rate of 80 and a [vwo] pass rate of 0. *)
Definition havo_80_vwo_0 : json :=
  school_with
    [ ("academic_performance",
        JDict [ ("exam_scores",
                  JDict [ ("havo", JDict [("pass_rate_2024_2025", JNum 80)]);
                          ("vwo", JDict [("pass_rate_2024_2025", JNum 0)]) ]) ]) ].

(** Filters with a single key. *)
Definition only_city (c : string) : filters := mkFilters None None None (Some c).
Definition only_religion (r : string) : filters := mkFilters None (Some r) None None.
Definition only_types (ts : list string) : filters := mkFilters (Some ts) None None None.
Definition only_commute (m : Q) : filters := mkFilters None None (Some m) None.

(** The filters without their commute limit. *)
Definition without_commute (f : filters) : filters :=
  mkFilters (school_type f) (religious_affiliation f) None (city f).

(** A record whose first review, for audience [a], has an overall rating of
    [q]. *)
Definition first_rated (a : audience) (q : Q) : json :=
  school_with
    [ ("reviews_reputation",
        JDict [ (reviews_key a, JList [JDict [("overall_rating", JNum q)]]) ]) ].

(** A record named [id] with a bike ride of [mins] minutes. *)
Definition commuter (id : string) (mins : Q) : json :=
  JDict
    [ ("id", JStr id);
      ("basic_info", JDict [("name", JStr id)]);
      ("location", JDict [("bike_accessibility", JDict [("duration_minutes", JNum mins)])]) ].

(** Weights that count proximity alone. *)
Definition by_proximity : option (list (string * Q)) := Some [("proximity", 1)].

(** *** Further readers of a record *)

(** The value at the end of [keys], [None] when a key is missing. *)
Definition field_at (s : json) (keys : list string) : json :=
  match path s keys with
  | Some v => v
  | None => JNull
  end.

(** The number of characters of a text, 0 for anything else. *)
Definition text_length (v : json) : nat :=
  match v with
  | JStr t => String.length t
  | _ => 0
  end.

(** The number of items of a sequence, 0 for anything else. *)
Definition count_of (v : json) : nat :=
  match v with
  | JList l => List.length l
  | _ => 0
  end.

Definition points_if (b : bool) (points : Z) : Z := if b then points else 0%Z.

(** The facility points: a base of 50, 15 for a technology description, 15
    for a sports facility, 10 for a classroom text of more than 50 characters
    and 10 for a library. *)
Definition facility_points (s : json) : Z :=
  (50
   + points_if (truthy (field_at s ["facilities"; "technology"; "description"])) 15
   + points_if (truthy (field_at s ["facilities"; "sports_facilities"])) 15
   + points_if (Nat.ltb 50 (text_length (field_at s ["facilities"; "classrooms_labs_quality"]))) 10
   + points_if (truthy (field_at s ["facilities"; "library"])) 10)%Z.

(** The number of listed activities of both kinds. *)
Definition activity_count (s : json) : nat :=
  (count_of (field_at s ["academic_performance"; "extracurricular_activities"])
   + count_of (field_at s ["student_support"; "after_school_programs"]))%nat.

(** The names of the special programs. *)
Definition program_names (s : json) : list string :=
  match field_at s ["academic_performance"; "special_programs"] with
  | JList l => flat_map (fun v => match v with JStr n => [n] | _ => [] end) l
  | _ => []
  end.

(** The overall rating of the first review, under a reading of "present". *)
Definition first_rating (read : json -> option Q) (a : audience) (s : json) : option Q :=
  match path s ["reviews_reputation"; reviews_key a] with
  | Some (JList (JDict r :: _)) => read_field read r "overall_rating"
  | _ => None
  end.

(** *** Further example records *)

(** A record whose only facility is a library. *)
Definition library_only : json :=
  school_with [ ("facilities", JDict [ ("library", JDict [("books", JNum 5000)]) ]) ].

(** A record with [n] special programs, all named "Program". *)
Definition with_programs (n : nat) : json :=
  school_with
    [ ("academic_performance",
        JDict [ ("special_programs", JList (List.repeat (JStr "Program") n)) ]) ].

(** A record with the given activities at school and after school. *)
Definition with_activities (at_school after_school : list string) : json :=
  school_with
    [ ("academic_performance",
        JDict [ ("extracurricular_activities", JList (map JStr at_school)) ]);
      ("student_support",
        JDict [ ("after_school_programs", JList (map JStr after_school)) ]) ].

(** A record whose reviews, for audience [a], are [reviews]. *)
Definition with_reviews (a : audience) (reviews : list json) : json :=
  school_with [ ("reviews_reputation", JDict [ (reviews_key a, JList reviews) ]) ].

(** *** The value ranges of the data model *)

(** The number at the end of [keys], when one is recorded, is not negative. *)
Definition nonneg_at (s : json) (keys : list string) : bool :=
  match read_at recorded s keys with
  | Some q => Qle_bool 0 q
  | None => true
  end.

(** The overall rating of the first review, when one is recorded, is between
    0 and 10. *)
Definition rating_in_range (a : audience) (s : json) : bool :=
  match first_rating recorded a s with
  | Some q => Qle_bool 0 q && Qle_bool q 10
  | None => true
  end.

(** Pass rates, five-year averages, candidate counts and commute durations
    are not negative, and ratings are between 0 and 10. *)
Definition in_range (s : json) : bool :=
  forallb
    (fun level =>
       forallb (fun k => nonneg_at s ["academic_performance"; "exam_scores"; level; k])
         [ "pass_rate_2024_2025"; "average_pass_rate_5yr"; "candidates_2024_2025" ])
    [ "vmbo"; "havo"; "vwo" ]
  && nonneg_at s ["location"; "bike_accessibility"; "duration_minutes"]
  && nonneg_at s ["location"; "public_transport"; "commute_from_home"; "duration_minutes"]
  && rating_in_range Parents s
  && rating_in_range Students s.

(** No weight is negative. *)
Definition weights_nonneg (weights : list (string * Q)) : bool :=
  forallb (fun item => Qle_bool 0 (snd item)) weights.

(** *** Changes of the weights *)

(** The names of the eight categories. *)
Definition category_names : list string :=
  [ "academic_performance"; "proximity"; "parent_satisfaction"; "student_satisfaction";
    "facilities"; "school_size"; "extracurriculars"; "special_programs" ].

(** An entry of the weights counts when it names a category and its weight
    is not zero. *)
Definition counts (item : string * Q) : bool :=
  existsb (String.eqb (fst item)) category_names && negb (Qeq_bool (snd item) 0).

(** The weights that count proximity alone, as a list. *)
Definition by_proximity_list : list (string * Q) := [("proximity", 1)].

(** *** The filters, key by key *)

Definition type_part (f : filters) : filters := mkFilters (school_type f) None None None.
Definition religion_part (f : filters) : filters :=
  mkFilters None (religious_affiliation f) None None.
Definition commute_part (f : filters) : filters :=
  mkFilters None None (max_commute_minutes f) None.
Definition city_part (f : filters) : filters := mkFilters None None None (city f).

(** The text at the end of [keys], the empty text when there is none. *)
Definition text_at (s : json) (keys : list string) : string :=
  match field_at s keys with
  | JStr t => t
  | _ => ""
  end.

(** The names in the type list of a school. *)
Definition school_types_of (s : json) : list string :=
  match field_at s ["basic_info"; "type"] with
  | JList l => flat_map (fun v => match v with JStr n => [n] | _ => [] end) l
  | _ => []
  end.

(** The school passes the filters given to [rank_schools]. *)
Definition passes (f : option filters) (s : json) : bool :=
  match filters_given f with
  | Some fs =>
      match _passes_filters s fs with
      | Ok true => true
      | _ => false
      end
  | None => true
  end.

(** ** The pages of [app.py] that call the scorer *)

(** The double quote character. *)
Definition quote : string := String (ascii_of_nat 34) EmptyString.

(** A badge of the given class around the score printed with one decimal. *)
Definition badge (class : string) (x : Q) : list part :=
  [ Text ("<span class=" ++ quote ++ "score-badge " ++ class ++ quote ++ ">");
    Fixed1 x; Text "</span>" ].

Definition get_score_badge_html (sc : option Q) : list part :=
  match sc with
  | None =>
      [ Text ("<span class=" ++ quote ++ "score-badge" ++ quote ++ " style=" ++ quote
              ++ "background-color: #9ca3af;" ++ quote ++ ">N/A</span>") ]
  | Some x =>
      if Qle_bool 85 x then badge "score-excellent" x
      else if Qle_bool 70 x then badge "score-good" x
      else if Qle_bool 50 x then badge "score-fair" x
      else badge "score-poor" x
  end.

(** The comparison table: the column of one category,
    [[s[1]['category_scores'][cat]['score'] for s in school_data]]. *)
Definition comparison_column (cat : string) (school_data : list ranked)
  : result (list (option Q)) :=
  mapM (fun row => match assoc cat (category_scores (score_data row)) with
                   | Some sd => Ok (score sd)
                   | None => Raise KeyError
                   end) school_data.

(** The categories of the comparison table, in its order. *)
Definition comparison_categories : list string :=
  [ "academic_performance"; "proximity"; "parent_satisfaction"; "student_satisfaction";
    "facilities"; "school_size"; "extracurriculars"; "special_programs" ].

(** The loop of the comparison and favorites pages: every school with its
    composite score. *)
Fixpoint score_all (schools : list json) (weights : list (string * Q))
  (preferences : list (string * string)) : result (list ranked) :=
  match schools with
  | [] => Ok []
  | s :: rest =>
      data <- calculate_composite_score s (Some weights) (Some preferences) ;;
      later <- score_all rest weights preferences ;;
      Ok (mkRanked s data :: later)
  end.

(** [s['id'] in favorites], for the set of favorite ids, which are
    strings: a list or a dict cannot be looked up in a set. *)
Definition is_favorite (favorites : list string) (s : json) : result bool :=
  id <- py_getitem s "id" ;;
  match id with
  | JStr i => Ok (existsb (String.eqb i) favorites)
  | JList _ | JDict _ => Raise TypeError
  | _ => Ok false
  end.

(** [[s for s in scorer.schools if s['id'] in favorites]] *)
Fixpoint favorite_schools (schools : list json) (favorites : list string)
  : result (list json) :=
  match schools with
  | [] => Ok []
  | s :: rest =>
      fav <- is_favorite favorites s ;;
      later <- favorite_schools rest favorites ;;
      Ok (if fav then s :: later else later)
  end.

(** The sort key of the favorites page, [composite_score or 0]. *)
Definition favorite_key (x : ranked) : Q :=
  match composite_score (score_data x) with
  | Some c => if truthy (JNum c) then c else 0
  | None => 0
  end.

(** The favorites page: the favorite schools, scored and sorted. *)
Definition rank_favorites (schools : list json) (favorites : list string)
  (weights : list (string * Q)) (preferences : list (string * string))
  : result (list ranked) :=
  favs <- favorite_schools schools favorites ;;
  results <- score_all favs weights preferences ;;
  Ok (sort_desc favorite_key results).

(** The school has one of the favorite ids. *)
Definition favored (favorites : list string) (s : json) : bool :=
  match path s ["id"] with
  | Some (JStr i) => existsb (String.eqb i) favorites
  | _ => false
  end.

(** *** Sections and the scorers that read them *)

(** Each top-level section with a scorer that reads it through
    [school.get(section, {})]. *)
Definition section_readers (preferred_size : string)
  : list (string * (json -> result category_score)) :=
  [ ("academic_performance", calculate_academic_score);
    ("academic_performance", calculate_extracurriculars_score);
    ("academic_performance", calculate_special_programs_score);
    ("location", calculate_proximity_score);
    ("reviews_reputation", calculate_parent_satisfaction_score);
    ("reviews_reputation", calculate_student_satisfaction_score);
    ("facilities", calculate_facilities_score);
    ("basic_info", fun s => calculate_school_size_score s preferred_size) ].

Definition is_object (v : json) : bool :=
  match v with
  | JDict _ => true
  | _ => false
  end.

(** A record whose [location] section is [null]. *)
Definition null_location : json := school_with [("location", JNull)].

(** *** The text of the proximity score *)

Definition bike_minutes (s : json) : option Q :=
  read_at nonzero s ["location"; "bike_accessibility"; "duration_minutes"].

Definition transit_minutes (s : json) : option Q :=
  read_at nonzero s
    ["location"; "public_transport"; "commute_from_home"; "duration_minutes"].

(** The duration and the mode the proximity text names. *)
Definition commute_text (s : json) : list part :=
  match bike_minutes s, transit_minutes s with
  | Some b, _ => [ Shown (JNum b); Text " mins by "; Text "bike" ]
  | None, Some t => [ Shown (JNum t); Text " mins by "; Text "transit" ]
  | None, None => [ Text "No commute data" ]
  end.

(** A 25 minute bike ride and a 12 minute transit ride. *)
Definition bike_25_transit_12 : json := with_bike_and_transit 25 12.

(** *** Candidates of the academic score *)

(** The pass rates and the averages the academic scorer uses, level by level. *)
Definition rates_and_averages (s : json) : list (list Q * list Q) :=
  map (fun level =>
         let v := read_level nonzero (exam_scores_of s) level in
         (level_field rate v, level_field average v))
      ["vmbo"; "havo"; "vwo"].

(** The candidates the academic scorer adds up. *)
Definition candidate_total (s : json) : Q :=
  let es := exam_scores_of s in
  Qsum (level_field candidates (read_level nonzero es "vmbo")
          ++ level_field candidates (read_level nonzero es "havo")
          ++ level_field candidates (read_level nonzero es "vwo"))%list.

(** One score is at most the other; a null score only compares with a null
    score. *)
Definition score_le (a b : option Q) : Prop :=
  match a, b with
  | Some x, Some y => x <= y
  | None, None => True
  | _, _ => False
  end.

(** A [havo] pass rate of 80 with the given number of candidates. *)
Definition havo_80 (n : Q) : json :=
  one_level "havo" [ ("pass_rate_2024_2025", JNum 80); ("candidates_2024_2025", JNum n) ].

(** *** Pass rates *)

(** The pass rates of the three levels, under a reading of "present". *)
Definition pass_rates (read : json -> option Q) (s : json) : list Q :=
  let es := exam_scores_of s in
  (level_field rate (read_level read es "vmbo")
   ++ level_field rate (read_level read es "havo")
   ++ level_field rate (read_level read es "vwo"))%list.

(** *** Accented letters *)

(** A record of the given city. *)
Definition in_city (city : string) : json :=
  JDict [ ("id", JStr "s1");
          ("basic_info", JDict [ ("name", JStr "School"); ("city", JStr city) ]) ].

(** [ECOLE] and [ecole] with an acute accent on the first letter (code
    points 201 and 233). *)
Definition ecole_upper : string := String (ascii_of_nat 201) "COLE".
Definition ecole_lower : string := String (ascii_of_nat 233) "cole".

(** *** The size of the numbers *)

(** Python's integers have no bound, and one that no double can hold raises
    [OverflowError] where it meets a double (line 98 divides the candidate
    total by 500, and the aggregator adds products of scores and weights).
    The rationals of this model have no such limit, so a statement that the
    code returns is made for the records and weights in which no number
    exceeds [10^100] in size: there no integer is converted that a double
    cannot hold. *)
Definition size_limit : Q := inject_Z (10 ^ 100).

Definition moderate_number (q : Q) : bool :=
  Qle_bool (- size_limit) q && Qle_bool q size_limit.

Fixpoint moderate (v : json) : bool :=
  match v with
  | JNum q => moderate_number q
  | JList l => forallb moderate l
  | JDict d => forallb (fun item => moderate (snd item)) d
  | _ => true
  end.

Definition moderate_weights (weights : option (list (string * Q))) : bool :=
  forallb (fun item => moderate_number (snd item)) (chosen_weights weights).

(** A sparse record: a [havo] level with a candidate count and no pass rate,
    an empty list of parent reviews, and a student review without a rating. *)
Definition sparse_school : json :=
  school_with
    [ ("academic_performance",
        JDict [ ("exam_scores",
                  JDict [ ("havo", JDict [("candidates_2024_2025", JNum 120)]) ]) ]);
      ("reviews_reputation",
        JDict [ ("parent_reviews", JList []);
                ("student_reviews", JList [JDict [("voice_matters", JNum 4)]]) ]) ].

(** * Properties *)

Open Scope list_scope.

(** ** Arithmetic *)

Lemma Qlt_bool_iff (a b : Q) : Qlt_bool a b = true <-> a < b.
Proof.
  unfold Qlt_bool. rewrite negb_true_iff.
  split; intros H.
  - apply Qnot_le_lt. intros L. apply Qle_bool_iff in L. congruence.
  - destruct (Qle_bool b a) eqn:E; [|reflexivity].
    apply Qle_bool_iff in E. exfalso. apply (Qlt_not_le _ _ H E).
Qed.

Lemma Qlt_bool_false (a b : Q) : Qlt_bool a b = false <-> b <= a.
Proof.
  unfold Qlt_bool. rewrite negb_false_iff. apply Qle_bool_iff.
Qed.

Lemma Qle_bool_false (a b : Q) : Qle_bool a b = false <-> b < a.
Proof.
  rewrite <- Qlt_bool_iff. unfold Qlt_bool.
  destruct (Qle_bool a b); intuition discriminate.
Qed.

Lemma py_min_Qmin (a b : Q) : py_min a b == Qmin a b.
Proof.
  unfold py_min. destruct (Qlt_bool b a) eqn:E.
  - apply Qlt_bool_iff in E. symmetry. apply Q.min_r. now apply Qlt_le_weak.
  - apply Qlt_bool_false in E. symmetry. now apply Q.min_l.
Qed.

Lemma py_max_Qmax (a b : Q) : py_max a b == Qmax a b.
Proof.
  unfold py_max. destruct (Qlt_bool a b) eqn:E.
  - apply Qlt_bool_iff in E. symmetry. apply Q.max_r. now apply Qlt_le_weak.
  - apply Qlt_bool_false in E. symmetry. now apply Q.max_l.
Qed.

(** Rounding depends on the value only, and its result is in lowest terms. *)
Lemma nearest_even_comp (t u : Q) : t == u -> nearest_even t = nearest_even u.
Proof.
  intros E. unfold nearest_even.
  rewrite (Qfloor_comp _ _ E).
  assert (C : (t - inject_Z (Qfloor u) ?= 1 # 2) = (u - inject_Z (Qfloor u) ?= 1 # 2)).
  { apply Qcompare_comp; [rewrite E|]; reflexivity. }
  now rewrite C.
Qed.

Lemma round1_comp (x y : Q) : x == y -> round1 x = round1 y.
Proof.
  intros H. unfold round1.
  rewrite (nearest_even_comp (x * 10) (y * 10)); [reflexivity|].
  now rewrite H.
Qed.

Lemma fold_left_Qplus (l : list Q) (a : Q) : fold_left Qplus l a == a + Qsum l.
Proof.
  unfold Qsum. revert a.
  induction l as [|x l IH]; intros a; cbn [fold_left].
  - ring.
  - rewrite (IH (a + x)), (IH (0 + x)). ring.
Qed.

Lemma Qsum_cons (x : Q) (l : list Q) : Qsum (x :: l) == x + Qsum l.
Proof.
  unfold Qsum at 1. cbn [fold_left]. rewrite fold_left_Qplus. ring.
Qed.

Lemma Qsum_nil : Qsum [] = 0.
Proof. reflexivity. Qed.


(** ** The error monad and the readers of a record *)

Ltac bind_inv H :=
  match type of H with
  | bind ?m _ = Ok _ =>
      let E := fresh "E" in
      destruct m eqn:E; cbn [bind] in H; [|discriminate H]
  end.

Lemma mapM_as_num (l : list Q) : mapM as_num (map JNum l) = Ok l.
Proof.
  induction l as [|x l IH]; cbn [map mapM as_num bind]; [reflexivity|].
  now rewrite IH.
Qed.

Lemma truthy_zero (q : Q) : q == 0 -> truthy (JNum q) = false.
Proof.
  intros H. unfold truthy. apply Qeq_bool_iff in H. now rewrite H.
Qed.


Lemma get_child (d : dict) (k : string) (ok : dict -> bool) :
  optional d k (object ok) = true ->
  py_get (JDict d) k (JDict []) = Ok (JDict (child d k)).
Proof.
  unfold optional, py_get, child.
  destruct (assoc k d) as [[]|]; cbn [object]; intros H;
    try discriminate H; reflexivity.
Qed.

Lemma child_ok (d : dict) (k : string) (ok : dict -> bool) :
  optional d k (object ok) = true -> ok [] = true -> ok (child d k) = true.
Proof.
  unfold optional, child.
  destruct (assoc k d) as [[]|]; cbn [object]; intros H H0;
    try discriminate H; assumption.
Qed.

Lemma get_required_child (d : dict) (k : string) (ok : dict -> bool) (dflt : json) :
  required d k (object ok) = true ->
  py_get (JDict d) k dflt = Ok (JDict (child d k)) /\ ok (child d k) = true.
Proof.
  unfold required, py_get, child.
  destruct (assoc k d) as [[]|]; cbn [object]; intros H;
    try discriminate H; auto.
Qed.

Lemma get_leaf (d : dict) (k : string) : py_get1 (JDict d) k = Ok (leaf d k).
Proof. reflexivity. Qed.

Lemma leaf_number (d : dict) (k : string) :
  optional d k number_or_null = true ->
  leaf d k = JNull \/ exists q, leaf d k = JNum q.
Proof.
  unfold optional, leaf.
  destruct (assoc k d) as [[]|]; cbn [number_or_null]; intros H;
    try discriminate H; eauto.
Qed.

Lemma get_elems (d : dict) (k : string) (ok : json -> bool) :
  optional d k (sequence ok) = true ->
  py_get (JDict d) k (JList []) = Ok (JList (elems d k))
  /\ forallb ok (elems d k) = true.
Proof.
  unfold optional, py_get, elems.
  destruct (assoc k d) as [[]|]; cbn [sequence]; intros H;
    try discriminate H; auto.
Qed.


(** ** Academic performance *)

Lemma level_field_cases (f : level_view -> option Q) (v : option level_view) :
  level_field f v = [] \/ exists r, level_field f v = [r].
Proof.
  destruct v as [lv|]; cbn [level_field]; [|now left].
  destruct (f lv); cbn [seq_of]; eauto.
Qed.

Lemma leaf_nonzero (d : dict) (k : string) :
  optional d k number_or_null = true ->
  (if truthy (leaf d k) then [leaf d k] else [])
  = map JNum (seq_of (read_field nonzero d k)).
Proof.
  intros H. unfold read_field, leaf, optional in *.
  destruct (assoc k d) as [[]|]; cbn [number_or_null] in H; try discriminate H;
    cbn [truthy nonzero seq_of map]; try reflexivity.
  destruct (Qeq_bool q 0); reflexivity.
Qed.

Lemma if_app {A : Type} (b : bool) (l : list A) (x : A) :
  (if b then l ++ [x] else l) = l ++ (if b then [x] else []).
Proof.
  destruct b; [reflexivity|]. now rewrite app_nil_r.
Qed.

(** One turn of the loop over the levels adds the non-zero numbers of the
    level, when the level is recorded. *)
Lemma scan_level_spec (es : dict) (st : level_scan) (level : string) :
  optional es level (object wf_level) = true ->
  scan_level (JDict es) st level
  = Ok (scanned st level (read_level nonzero es level)).
Proof.
  intros H. unfold scan_level, scanned, read_level, optional in *.
  cbn [py_in py_getitem bind].
  destruct (assoc level es) as [v|] eqn:E; cbn [bind].
  - destruct v; cbn [object] in H; try discriminate H.
    unfold wf_level in H. apply andb_prop in H as [H H3]. apply andb_prop in H as [H1 H2].
    rewrite !get_leaf. cbn [bind level_field rate average candidates].
    rewrite !if_app.
    rewrite (leaf_nonzero _ _ H2), (leaf_nonzero _ _ H3).
    pose proof (leaf_nonzero _ _ H1) as L1.
    destruct (truthy (leaf d "pass_rate_2024_2025"));
      destruct (read_field nonzero d "pass_rate_2024_2025");
      cbn [seq_of map] in L1 |- *; try discriminate L1.
    + injection L1 as ->. reflexivity.
    + reflexivity.
  - cbn [level_field map]. rewrite !app_nil_r. now destruct st.
Qed.

Lemma scan_levels_spec (es : dict) :
  wf_exam_scores es = true ->
  foldM (scan_level (JDict es)) ["vmbo"; "havo"; "vwo"] (mkScan [] [] [])
  = Ok (scanned (scanned (scanned (mkScan [] [] []) "vmbo" (read_level nonzero es "vmbo"))
                   "havo" (read_level nonzero es "havo"))
          "vwo" (read_level nonzero es "vwo")).
Proof.
  unfold wf_exam_scores. intros H.
  apply andb_prop in H as [H H3]. apply andb_prop in H as [H1 H2].
  cbn [foldM].
  rewrite (scan_level_spec _ _ _ H1). cbn [bind].
  rewrite (scan_level_spec _ _ _ H2). cbn [bind].
  rewrite (scan_level_spec _ _ _ H3). reflexivity.
Qed.

Lemma Qmin_comp (a b c d : Q) : a == b -> c == d -> Qmin a c == Qmin b d.
Proof.
  intros H1 H2. now rewrite H1, H2.
Qed.

(** The score computed from the scanned numbers is the documented formula. *)
Lemma academic_from_views (v1 v2 v3 : option level_view) :
  let st := scanned (scanned (scanned (mkScan [] [] []) "vmbo" v1) "havo" v2) "vwo" v3 in
  exists sd,
    match level_data st with
    | [] => Ok (no_data "No pass rate data")
    | _ :: _ =>
        current_rate <- current_rate_of (level_data st) ;;
        final_rate <-
          match five_year_avgs st with
          | [] => Ok current_rate
          | _ :: _ =>
              avgs <- mapM as_num (five_year_avgs st) ;;
              Ok (current_rate * (7 # 10) + mean avgs * (3 # 10))
          end ;;
        counts <- mapM as_num (candidate_counts st) ;;
        let total_candidates := Qsum counts in
        let reliability_bonus := py_min (total_candidates / 500 * 5) 5 in
        let sc := py_min (final_rate + reliability_bonus) 100 in
        Ok {| score := Some (round1 sc);
              details := [ Fixed1 final_rate; Text "% pass rate, ";
                           Shown (JNum total_candidates); Text " candidates" ] |}
    end = Ok sd
    /\ score sd = spec_academic_score v1 v2 v3
    /\ explained sd.
Proof.
  intros st. subst st. unfold scanned, spec_academic_score.
  cbn [level_data five_year_avgs candidate_counts app].
  rewrite <- !map_app.
  set (A := (level_field average v1 ++ level_field average v2)
              ++ level_field average v3).
  set (C := (level_field candidates v1 ++ level_field candidates v2)
              ++ level_field candidates v3).
  assert (HA : level_field average v1 ++ level_field average v2
                 ++ level_field average v3 = A) by (subst A; now rewrite app_assoc).
  assert (HC : level_field candidates v1 ++ level_field candidates v2
                 ++ level_field candidates v3 = C) by (subst C; now rewrite app_assoc).
  rewrite HA, HC. clearbody A C. clear HA HC.
  rewrite !mapM_as_num.
  assert (Fin : forall cur cur' : Q, cur == cur' ->
     exists sd,
       (final_rate <-
          match map JNum A with
          | [] => Ok cur
          | _ :: _ => avgs <- Ok A ;; Ok (cur * (7 # 10) + mean avgs * (3 # 10))
          end ;;
        counts <- Ok C ;;
        Ok {| score := Some (round1 (py_min (final_rate
                                    + py_min (Qsum counts / 500 * 5) 5) 100));
              details := [ Fixed1 final_rate; Text "% pass rate, ";
                           Shown (JNum (Qsum counts)); Text " candidates" ] |}) = Ok sd
       /\ score sd
          = Some (round1 (Qmin (match A with
                                | [] => cur'
                                | _ :: _ => (7 # 10) * cur' + (3 # 10) * mean A
                                end + Qmin (Qsum C / 500 * 5) 5) 100))
       /\ explained sd).
  { intros cur cur' Hc.
    destruct A as [|a A]; cbn [map bind]; eexists; (split; [reflexivity|]);
      cbn [score]; (split; [|intros X; discriminate X]);
      f_equal; apply round1_comp; rewrite !py_min_Qmin;
      (apply Qmin_comp; [|reflexivity]); rewrite Hc; ring. }
  destruct (level_field_cases rate v1) as [E1|[r1 E1]];
    destruct (level_field_cases rate v2) as [E2|[r2 E2]];
    destruct (level_field_cases rate v3) as [E3|[r3 E3]];
    rewrite E1, E2, E3; cbn [map app].
  1: { eexists; split; [reflexivity|]; split; [reflexivity|].
       intros _. eexists; split; [reflexivity|discriminate]. }
  all: cbn [current_rate_of mapM weighted_rate as_num level_weight assoc
              String.eqb Ascii.eqb Bool.eqb level_weights fst snd bind];
    apply Fin; unfold Qsum; cbn [fold_left map fst snd]; field.
Qed.

Lemma exam_scores_of_child (d : dict) :
  exam_scores_of (JDict d) = child (child d "academic_performance") "exam_scores".
Proof.
  unfold exam_scores_of, child. cbn [path].
  destruct (assoc "academic_performance" d) as [[]|]; try reflexivity.
  destruct (assoc "exam_scores" d0) as [[]|]; reflexivity.
Qed.

(** On a well-formed record the academic scorer returns, and its score is
    the documented formula over the non-zero numbers. *)
Lemma academic_spec (d : dict) :
  optional d "academic_performance" (object wf_academic) = true ->
  exists sd,
    calculate_academic_score (JDict d) = Ok sd
    /\ score sd = academic_by nonzero (JDict d)
    /\ explained sd.
Proof.
  intros H. unfold calculate_academic_score, academic_by.
  rewrite exam_scores_of_child.
  rewrite (get_child _ _ _ H). cbn [bind].
  pose proof (child_ok _ _ _ H eq_refl) as Ha.
  unfold wf_academic in Ha.
  apply andb_prop in Ha as [Ha _]. apply andb_prop in Ha as [He _].
  rewrite (get_child _ _ _ He). cbn [bind].
  pose proof (child_ok _ _ _ He eq_refl) as Hes.
  set (es := child (child d "academic_performance") "exam_scores") in *.
  destruct es as [|item es'] eqn:Ees.
  - cbn [truthy negb]. eexists. split; [reflexivity|]. split; [reflexivity|].
    intros _. eexists. split; [reflexivity|discriminate].
  - cbn [truthy negb]. rewrite <- Ees in *.
    rewrite (scan_levels_spec _ Hes). cbn [bind].
    apply academic_from_views.
Qed.

(** ** Proximity *)

Lemma read_at_leaf3 (read : json -> option Q) (d : dict) (k1 k2 k3 : string) :
  read JNull = None ->
  read_at read (JDict d) [k1; k2; k3] = read (leaf (child (child d k1) k2) k3).
Proof.
  intros Hn. unfold read_at, child, leaf. cbn [path].
  destruct (assoc k1 d) as [[]|]; cbn [assoc]; auto.
  destruct (assoc k2 d0) as [[]|]; cbn [assoc]; auto.
  destruct (assoc k3 d1); auto.
Qed.

Lemma read_at_leaf4 (read : json -> option Q) (d : dict) (k1 k2 k3 k4 : string) :
  read JNull = None ->
  read_at read (JDict d) [k1; k2; k3; k4]
  = read (leaf (child (child (child d k1) k2) k3) k4).
Proof.
  intros Hn. unfold read_at, child, leaf. cbn [path].
  destruct (assoc k1 d) as [[]|]; cbn [assoc]; auto.
  destruct (assoc k2 d0) as [[]|]; cbn [assoc]; auto.
  destruct (assoc k3 d1) as [[]|]; cbn [assoc]; auto.
  destruct (assoc k4 d2); auto.
Qed.

Lemma proximity_points_spec (m : Q) : proximity_points m == spec_proximity_points m.
Proof.
  unfold proximity_points, spec_proximity_points.
  destruct (Qle_bool m 10); [ring|].
  destruct (Qle_bool m 30); [ring|].
  rewrite py_max_Qmax. apply Q.max_compat; [ring|reflexivity].
Qed.

Lemma number_cases (v : json) :
  v = JNull \/ (exists q, v = JNum q) -> 
  (truthy v = false /\ nonzero v = None)
  \/ (exists q, v = JNum q /\ truthy v = true /\ nonzero v = Some q).
Proof.
  intros [->|[q ->]]; [now left|].
  cbn [truthy nonzero]. destruct (Qeq_bool q 0); [now left|right; eauto].
Qed.

(** On a well-formed record the proximity scorer returns, and its score is
    the piecewise-linear function of the first non-zero duration. *)
Lemma proximity_spec (d : dict) :
  optional d "location" (object wf_location) = true ->
  exists sd,
    calculate_proximity_score (JDict d) = Ok sd
    /\ score sd = proximity_by nonzero (JDict d)
    /\ explained sd.
Proof.
  intros H. unfold calculate_proximity_score, proximity_by, primary_minutes.
  rewrite read_at_leaf3, read_at_leaf4 by reflexivity.
  rewrite (get_child _ _ _ H). cbn [bind].
  pose proof (child_ok _ _ _ H eq_refl) as Hl. unfold wf_location in Hl.
  apply andb_prop in Hl as [Hb Hp].
  rewrite (get_child _ _ _ Hb), (get_child _ _ _ Hp). cbn [bind].
  pose proof (child_ok _ _ _ Hb eq_refl) as Hb'.
  pose proof (child_ok _ _ _ Hp eq_refl) as Hp'. cbn beta in Hp'.
  rewrite (get_child _ _ _ Hp'). cbn [bind].
  pose proof (child_ok _ _ _ Hp' eq_refl) as Ht.
  rewrite !get_leaf. cbn [bind].
  destruct (number_cases _ (leaf_number _ _ Hb')) as [[Tb Nb]|(b & Eb & Tb & Nb)];
    rewrite Tb, Nb; cbn [negb andb].
  - destruct (number_cases _ (leaf_number _ _ Ht)) as [[Tt Nt]|(t & Et & Tt & Nt)];
      rewrite ?Tt, Nt; cbn [negb].
    + eexists. split; [reflexivity|]. split; [reflexivity|].
      intros _. eexists. split; [reflexivity|discriminate].
    + rewrite Et. cbn [as_num bind]. eexists. split; [reflexivity|].
      cbn [score option_map]. split; [|intros X; discriminate X].
      f_equal. apply round1_comp, proximity_points_spec.
  - rewrite Eb. cbn [as_num bind]. eexists. split; [reflexivity|].
    cbn [score option_map]. split; [|intros X; discriminate X].
    f_equal. apply round1_comp, proximity_points_spec.
Qed.

(** ** Satisfaction *)

Lemma satisfaction_ok (a : audience) (d : dict) :
  optional d "reviews_reputation" (object wf_reviews) = true ->
  exists sd, satisfaction_score a (JDict d) = Ok sd /\ explained sd.
Proof.
  intros H.
  pose proof (child_ok _ _ _ H eq_refl) as Hr. unfold wf_reviews in Hr.
  apply andb_prop in Hr as [Hp Hs].
  assert (Hk : optional (child d "reviews_reputation") (reviews_key a)
                 (sequence (object wf_review)) = true) by (destruct a; assumption).
  destruct (get_elems _ _ _ Hk) as [Hg Hall].
  destruct a; cbn [reviews_key] in *;
    unfold satisfaction_score, calculate_parent_satisfaction_score,
      calculate_student_satisfaction_score;
    rewrite (get_child _ _ _ H); cbn [bind]; rewrite Hg; cbn [bind];
    (match goal with
     | |- context [elems ?x ?k] => destruct (elems x k) as [|r rest]
     end;
     [ cbn [truthy negb]; eexists; split; [reflexivity|];
       intros _; eexists; split; [reflexivity|discriminate]
     | ]);
    cbn [truthy negb py_first bind];
    cbn [forallb] in Hall; apply andb_prop in Hall as [Hr _];
    (destruct r; cbn [object] in Hr; try discriminate Hr);
    unfold wf_review in Hr; apply andb_prop in Hr as [Hr Hv];
    apply andb_prop in Hr as [Ho Hw];
    rewrite get_leaf; cbn [bind];
    (destruct (number_cases _ (leaf_number _ _ Ho)) as [[To _]|(q & Eq0 & To & _)];
     rewrite To; cbn [negb];
     [ eexists; split; [reflexivity|];
       intros _; eexists; split; [reflexivity|discriminate]
     | ]);
    rewrite Eq0; cbn [py_times10 bind]; rewrite get_leaf; cbn [bind];
    [ destruct (number_cases _ (leaf_number _ _ Hw)) as [[Tx _]|(x & Ex & Tx & _)]
    | destruct (number_cases _ (leaf_number _ _ Hv)) as [[Tx _]|(x & Ex & Tx & _)] ];
    rewrite Tx; rewrite ?Ex; cbn [py_format1 py_round1 bind];
    (eexists; split; [reflexivity|]; intros X; discriminate X).
Qed.

(** ** Facilities *)

Lemma truthy_and_longer_seq (l : list json) (n : nat) :
  exists b, truthy_and_longer (JList l) n = Ok b.
Proof.
  unfold truthy_and_longer. destruct (truthy (JList l)); cbn [py_len bind]; eauto.
Qed.

Lemma truthy_and_longer_str (s : string) (n : nat) :
  exists b, truthy_and_longer (JStr s) n = Ok b.
Proof.
  unfold truthy_and_longer. destruct (truthy (JStr s)); cbn [py_len bind]; eauto.
Qed.

Lemma get_text (d : dict) (k : string) :
  optional d k is_string = true ->
  exists s, py_get (JDict d) k (JStr "") = Ok (JStr s).
Proof.
  unfold optional, py_get.
  destruct (assoc k d) as [[]|]; cbn [is_string]; intros H;
    try discriminate H; eauto.
Qed.

(** The facilities scorer returns on a well-formed record, and never with a
    null score. *)
Lemma facilities_ok (d : dict) :
  optional d "facilities" (object wf_facilities) = true ->
  exists sd x, calculate_facilities_score (JDict d) = Ok sd /\ score sd = Some x.
Proof.
  intros H. unfold calculate_facilities_score.
  rewrite (get_child _ _ _ H). cbn [bind].
  pose proof (child_ok _ _ _ H eq_refl) as Hf. unfold wf_facilities in Hf.
  apply andb_prop in Hf as [Hf _]. apply andb_prop in Hf as [Hf Hc].
  apply andb_prop in Hf as [Ht Hs].
  rewrite (get_child _ _ _ Ht). cbn [bind]. rewrite get_leaf. cbn [bind].
  destruct (get_elems _ _ _ Hs) as [-> _]. cbn [bind].
  destruct (truthy_and_longer_seq (elems (child d "facilities") "sports_facilities") 0)
    as [b1 ->]. cbn [bind].
  destruct (get_text _ _ Hc) as [txt ->]. cbn [bind].
  destruct (truthy_and_longer_str txt 50) as [b2 ->]. cbn [bind].
  unfold py_get at 1. cbn [bind]. rewrite get_leaf. cbn [bind].
  eexists. eexists. split; reflexivity.
Qed.

(** ** School size *)

Lemma size_spec (d : dict) (preferred_size : string) :
  required d "basic_info" (object wf_basic_info) = true ->
  exists sd,
    calculate_school_size_score (JDict d) preferred_size = Ok sd
    /\ score sd
       = option_map (fun e => size_points preferred_size (size_category e))
           (read_at nonzero (JDict d) ["basic_info"; "enrollment"; "total"])
    /\ explained sd.
Proof.
  intros H. unfold calculate_school_size_score.
  rewrite read_at_leaf3 by reflexivity.
  destruct (get_required_child _ _ _ (JDict []) H) as [-> Hb]. cbn [bind].
  unfold wf_basic_info in Hb. apply andb_prop in Hb as [_ He].
  rewrite (get_child _ _ _ He). cbn [bind].
  pose proof (child_ok _ _ _ He eq_refl) as Ht. cbn beta in Ht.
  rewrite get_leaf. cbn [bind].
  destruct (number_cases _ (leaf_number _ _ Ht)) as [[T N]|(e & Ee & T & N)];
    rewrite T, N; cbn [negb option_map].
  - eexists. split; [reflexivity|]. split; [reflexivity|].
    intros _. eexists. split; [reflexivity|discriminate].
  - rewrite Ee. cbn [as_num bind]. eexists. split; [reflexivity|].
    split; [reflexivity|]. intros X. discriminate X.
Qed.

(** ** Extracurricular activities and special programs *)

Lemma extracurriculars_ok (d : dict) :
  optional d "academic_performance" (object wf_academic) = true ->
  optional d "student_support" (object wf_support) = true ->
  exists sd x, calculate_extracurriculars_score (JDict d) = Ok sd /\ score sd = Some x.
Proof.
  intros Ha Hs. unfold calculate_extracurriculars_score.
  rewrite (get_child _ _ _ Ha). cbn [bind].
  pose proof (child_ok _ _ _ Ha eq_refl) as Ha'. unfold wf_academic in Ha'.
  apply andb_prop in Ha' as [_ He].
  destruct (get_elems _ _ _ He) as [-> _]. cbn [bind].
  rewrite (get_child _ _ _ Hs). cbn [bind].
  pose proof (child_ok _ _ _ Hs eq_refl) as Hs'. unfold wf_support in Hs'.
  destruct (get_elems _ _ _ Hs') as [-> _]. cbn [bind py_len].
  match goal with |- context [Nat.eqb ?n 0] => destruct (Nat.eqb n 0) end;
    eexists; eexists; split; reflexivity.
Qed.

Lemma mapM_as_str (l : list json) :
  forallb is_string l = true -> exists names, mapM as_str l = Ok names.
Proof.
  induction l as [|v l IH]; cbn [forallb mapM]; intros H; [eauto|].
  apply andb_prop in H as [Hv Hl].
  destruct v; cbn [is_string] in Hv; try discriminate Hv.
  destruct (IH Hl) as [names ->]. cbn [as_str bind]. eauto.
Qed.

Lemma forallb_firstn {A : Type} (f : A -> bool) (n : nat) (l : list A) :
  forallb f l = true -> forallb f (firstn n l) = true.
Proof.
  revert n. induction l as [|x l IH]; intros [|n] H; cbn [firstn forallb] in *; auto.
  apply andb_prop in H as [Hx Hl]. rewrite Hx. cbn [andb]. auto.
Qed.

Lemma special_programs_ok (d : dict) :
  optional d "academic_performance" (object wf_academic) = true ->
  exists sd x, calculate_special_programs_score (JDict d) = Ok sd /\ score sd = Some x.
Proof.
  intros Ha. unfold calculate_special_programs_score.
  rewrite (get_child _ _ _ Ha). cbn [bind].
  pose proof (child_ok _ _ _ Ha eq_refl) as Ha'. unfold wf_academic in Ha'.
  apply andb_prop in Ha' as [Ha' _]. apply andb_prop in Ha' as [_ Hp].
  destruct (get_elems _ _ _ Hp) as [-> Hall]. cbn [bind].
  destruct (truthy _); cbn [negb]; [|eexists; eexists; split; reflexivity].
  cbn [py_len bind join_first3].
  destruct (mapM_as_str _ (forallb_firstn _ 3 _ Hall)) as [names ->]. cbn [bind].
  eexists. eexists. split; reflexivity.
Qed.

(** ** The composite score *)

Lemma well_formed_sections (s : json) :
  well_formed s = true ->
  exists d,
    s = JDict d
    /\ required d "basic_info" (object wf_basic_info) = true
    /\ optional d "academic_performance" (object wf_academic) = true
    /\ optional d "location" (object wf_location) = true
    /\ optional d "facilities" (object wf_facilities) = true
    /\ optional d "student_support" (object wf_support) = true
    /\ optional d "reviews_reputation" (object wf_reviews) = true.
Proof.
  destruct s; cbn [well_formed object]; try discriminate.
  intros H. exists d.
  repeat (apply andb_prop in H as [H ?]). intuition.
Qed.

(** The loop over the weights sums over the contributing categories only. *)
Lemma aggregate_spec (scores : list (string * category_score))
  (weights : list (string * Q)) (acc : Q * Q) :
  fst (fold_left (add_category scores) weights acc)
  == fst acc + Qsum (map (fun xw => fst xw * snd xw) (contributing scores weights))
  /\ snd (fold_left (add_category scores) weights acc)
     == snd acc + Qsum (map snd (contributing scores weights)).
Proof.
  revert acc. unfold contributing.
  induction weights as [|[category weight] weights IH]; intros acc;
    cbn [fold_left flat_map map].
  - rewrite Qsum_nil. split; ring.
  - destruct (IH (add_category scores acc (category, weight))) as [I1 I2].
    rewrite I1, I2. unfold add_category, points_of. cbn [fst snd].
    destruct (assoc category scores) as [sd|]; [destruct (score sd) as [x|]|];
      cbn [app map fst snd]; rewrite ?Qsum_cons; split; ring.
Qed.

(** A category whose score is null leaves both running sums as they are. *)
Lemma null_category_skipped (scores : list (string * category_score))
  (acc : Q * Q) (category : string) (weight : Q) :
  points_of scores category = None ->
  add_category scores acc (category, weight) = acc.
Proof.
  unfold points_of, add_category.
  destruct (assoc category scores) as [sd|]; [|reflexivity].
  now intros ->.
Qed.

(** What a returned composite is made of. *)
Lemma composite_inv (s : json) (weights : option (list (string * Q)))
  (preferences : option (list (string * string))) (r : composite) :
  calculate_composite_score s weights preferences = Ok r ->
  exists academic proximity parent student facilities size extracurriculars special,
    calculate_academic_score s = Ok academic
    /\ calculate_proximity_score s = Ok proximity
    /\ calculate_parent_satisfaction_score s = Ok parent
    /\ calculate_student_satisfaction_score s = Ok student
    /\ calculate_facilities_score s = Ok facilities
    /\ calculate_school_size_score s (chosen_size preferences) = Ok size
    /\ calculate_extracurriculars_score s = Ok extracurriculars
    /\ calculate_special_programs_score s = Ok special
    /\ category_scores r =
         [ ("academic_performance", academic);
           ("proximity", proximity);
           ("parent_satisfaction", parent);
           ("student_satisfaction", student);
           ("facilities", facilities);
           ("school_size", size);
           ("extracurriculars", extracurriculars);
           ("special_programs", special) ]
    /\ weights_used r = chosen_weights weights
    /\ total_weight r
       = snd (fold_left (add_category (category_scores r)) (chosen_weights weights) (0, 0))
    /\ composite_score r
       = let ws := fst (fold_left (add_category (category_scores r))
                          (chosen_weights weights) (0, 0)) in
         if Qlt_bool 0 (total_weight r)
         then if negb (Qeq_bool (ws / total_weight r) 0)
              then Some (round1 (ws / total_weight r)) else None
         else None.
Proof.
  unfold calculate_composite_score. fold (chosen_weights weights).
  fold (chosen_size preferences). intros H.
  repeat bind_inv H.
  match type of H with
  | context [fold_left ?f ?w ?a] => destruct (fold_left f w a) as [ws tw] eqn:F
  end.
  injection H as <-. cbn [category_scores weights_used total_weight composite_score].
  do 8 eexists. repeat (split; [reflexivity|]).
  rewrite F. cbn [fst snd]. split; [reflexivity|].
  destruct (Qlt_bool 0 tw); reflexivity.
Qed.

(** The aggregator returns on every well-formed record. *)
Lemma composite_total (s : json) (weights : option (list (string * Q)))
  (preferences : option (list (string * string))) :
  well_formed s = true ->
  exists r, calculate_composite_score s weights preferences = Ok r.
Proof.
  intros H.
  destruct (well_formed_sections s H) as (d & -> & Hb & Ha & Hl & Hf & Hs & Hr).
  unfold calculate_composite_score. fold (chosen_weights weights).
  fold (chosen_size preferences).
  destruct (academic_spec d Ha) as (a1 & -> & _).
  destruct (proximity_spec d Hl) as (a2 & -> & _).
  destruct (satisfaction_ok Parents d Hr) as (a3 & E3 & _).
  destruct (satisfaction_ok Students d Hr) as (a4 & E4 & _).
  cbn [satisfaction_score] in E3, E4. rewrite E3, E4.
  destruct (facilities_ok d Hf) as (a5 & _ & -> & _).
  destruct (size_spec d (chosen_size preferences) Hb) as (a6 & -> & _).
  destruct (extracurriculars_ok d Ha Hs) as (a7 & _ & -> & _).
  destruct (special_programs_ok d Ha) as (a8 & _ & -> & _).
  cbn [bind].
  match goal with
  | |- context [fold_left ?f ?w ?a] => destruct (fold_left f w a) as [ws tw]
  end.
  eexists. reflexivity.
Qed.

Lemma composite_average (s : json) (weights : option (list (string * Q)))
  (preferences : option (list (string * string))) (r : composite) :
  calculate_composite_score s weights preferences = Ok r ->
  total_weight r == contributing_weight (category_scores r) (weights_used r)
  /\ (0 < contributing_weight (category_scores r) (weights_used r) ->
      ~ weighted_average (category_scores r) (weights_used r) == 0 ->
      composite_score r
      = Some (round1 (weighted_average (category_scores r) (weights_used r)))).
Proof.
  intros H.
  destruct (composite_inv _ _ _ _ H)
    as (a1 & a2 & a3 & a4 & a5 & a6 & a7 & a8 & _ & _ & _ & _ & _ & _ & _ & _
        & _ & Hw & Ht & Hc).
  rewrite Hw.
  destruct (aggregate_spec (category_scores r) (chosen_weights weights) (0, 0))
    as [S1 S2].
  cbn [fst snd] in S1, S2. rewrite <- Ht in S2.
  assert (T : total_weight r
              == contributing_weight (category_scores r) (chosen_weights weights)).
  { rewrite S2. unfold contributing_weight. ring. }
  split; [exact T|].
  intros Hpos Hnz. rewrite Hc. cbn zeta.
  set (ws := fst (fold_left (add_category (category_scores r))
                    (chosen_weights weights) (0, 0))) in *.
  assert (A : ws / total_weight r
              == weighted_average (category_scores r) (chosen_weights weights)).
  { unfold weighted_average. rewrite S1, T. field.
    intros Z. rewrite Z in Hpos. now apply Qlt_irrefl in Hpos. }
  assert (P : Qlt_bool 0 (total_weight r) = true).
  { apply Qlt_bool_iff. now rewrite T. }
  rewrite P.
  destruct (Qeq_bool (ws / total_weight r) 0) eqn:Z; cbn [negb].
  - apply Qeq_bool_iff in Z. rewrite A in Z. contradiction.
  - f_equal. now apply round1_comp.
Qed.

(** C1.  The renormalisation itself is done: with the default weights,
    [no_parent_reviews] has no parent satisfaction score, a total weight of
    85 rather than 100, and a composite score of 77.9, which is 6620/85
    rounded.  But [far_away], scored with the sliders at 20 for proximity and
    80 for parent satisfaction, has no parent satisfaction score, a proximity
    score of 0, a total weight of 20, and so a weighted average of 0 over its
    scored categories; and its composite score is null, not 0.0. *)
Theorem renormalized_average_of_zero_is_null :
  (exists r,
     calculate_composite_score no_parent_reviews None None = Ok r
     /\ points_of (category_scores r) "parent_satisfaction" = None
     /\ total_weight r == 85
     /\ weighted_average (category_scores r) (weights_used r) == 6620 # 85
     /\ composite_score r = Some (779 # 10))
  /\ (exists r,
        calculate_composite_score far_away (Some proximity_and_parents) None = Ok r
        /\ points_of (category_scores r) "parent_satisfaction" = None
        /\ points_of (category_scores r) "proximity" = Some 0
        /\ total_weight r == 20
        /\ Qlt_bool 0 (total_weight r) = true
        /\ weighted_average (category_scores r) (weights_used r) == 0
        /\ composite_score r = None).
Proof.
  split; eexists; (split; [vm_compute; reflexivity|]); repeat split.
Qed.

(** C2.  With all the weight on proximity and an 80 minute bike ride, the
    proximity score is 0, the total weight is 20, and the composite score is
    null rather than 0.0. *)
Theorem zero_average_gives_null_composite :
  exists r,
    calculate_composite_score far_away (Some proximity_only) None = Ok r
    /\ points_of (category_scores r) "proximity" = Some 0
    /\ total_weight r = 20
    /\ Qlt_bool 0 (total_weight r) = true
    /\ composite_score r = None.
Proof.
  eexists. split; [vm_compute; reflexivity|].
  repeat split.
Qed.

(** ** Proximity at the checkpoints *)

(** C3.  The proximity score of a bike ride of 0, 10, 30 and 60 minutes:
    null, 90, 50 and 20 (the claim has 100, 90, 70 and 50). *)
Theorem proximity_checkpoints :
  calculate_proximity_score (with_bike 0) = Ok (no_data "No commute data")
  /\ calculate_proximity_score (with_bike 10)
     = Ok {| score := Some 90;
             details := [Shown (JNum 10); Text " mins by "; Text "bike"] |}
  /\ calculate_proximity_score (with_bike 30)
     = Ok {| score := Some 50;
             details := [Shown (JNum 30); Text " mins by "; Text "bike"] |}
  /\ calculate_proximity_score (with_bike 60)
     = Ok {| score := Some 20;
             details := [Shown (JNum 60); Text " mins by "; Text "bike"] |}.
Proof.
  repeat split.
Qed.

(** C4.  A recorded bike duration of 0 minutes is not scored by the
    piecewise-linear function: alone it gives a null score (the function
    gives 100), and next to a transit duration of 20 minutes it gives the
    score of the transit duration, 70. *)
Theorem zero_minutes_not_scored :
  calculate_proximity_score (with_bike 0) = Ok (no_data "No commute data")
  /\ proximity_by recorded (with_bike 0) = Some 100
  /\ calculate_proximity_score (with_bike_and_transit 0 20)
     = Ok {| score := Some 70;
             details := [Shown (JNum 20); Text " mins by "; Text "transit"] |}
  /\ proximity_by recorded (with_bike_and_transit 0 20) = Some 100.
Proof.
  repeat split.
Qed.

(** ** Monotonicity of the proximity score *)

Lemma nearest_even_monotone (t u : Q) : t <= u -> (nearest_even t <= nearest_even u)%Z.
Proof.
  intros H. unfold nearest_even.
  pose proof (Qfloor_resp_le _ _ H) as F.
  pose proof (Qfloor_le t) as T1. pose proof (Qlt_floor t) as T2.
  pose proof (Qfloor_le u) as U1. pose proof (Qlt_floor u) as U2.
  set (n := Qfloor t) in *. set (k := Qfloor u) in *.
  destruct (Z.eq_dec n k) as [E|N].
  - rewrite <- E in *. clear E.
    destruct (Qcompare_spec (t - inject_Z n) (1 # 2)) as [A|A|A];
      destruct (Qcompare_spec (u - inject_Z n) (1 # 2)) as [B|B|B];
      try (destruct (Z.even n)); try lia; exfalso; lra.
  - assert (L : (n + 1 <= k)%Z) by lia.
    destruct (t - inject_Z n ?= 1 # 2); destruct (u - inject_Z k ?= 1 # 2);
      try (destruct (Z.even n)); try (destruct (Z.even k)); lia.
Qed.

Lemma round1_monotone (x y : Q) : x <= y -> round1 x <= round1 y.
Proof.
  intros H. unfold round1. rewrite !Qred_correct.
  assert (M : (nearest_even (x * 10) <= nearest_even (y * 10))%Z).
  { apply nearest_even_monotone. lra. }
  rewrite Zle_Qle in M. unfold Qdiv.
  apply Qmult_le_compat_r; [exact M|discriminate].
Qed.

Lemma proximity_points_non_increasing (m1 m2 : Q) :
  m1 <= m2 -> proximity_points m2 <= proximity_points m1.
Proof.
  intros H. rewrite !proximity_points_spec. unfold spec_proximity_points.
  destruct (Qle_bool m1 10) eqn:A1; destruct (Qle_bool m2 10) eqn:A2;
    destruct (Qle_bool m1 30) eqn:B1; destruct (Qle_bool m2 30) eqn:B2;
    rewrite ?Qle_bool_iff, ?Qle_bool_false in *;
    try lra;
    try (apply Q.max_lub; lra);
    try (apply Q.max_le_compat_r; lra).
Qed.

(** For non-zero durations the proximity score does not increase with the
    commute time. *)
Lemma proximity_non_increasing (s1 s2 : json) (m1 m2 : Q) :
  well_formed s1 = true -> well_formed s2 = true ->
  primary_minutes nonzero s1 = Some m1 ->
  primary_minutes nonzero s2 = Some m2 ->
  m1 <= m2 ->
  exists sd1 sd2 x1 x2,
    calculate_proximity_score s1 = Ok sd1 /\ score sd1 = Some x1
    /\ calculate_proximity_score s2 = Ok sd2 /\ score sd2 = Some x2
    /\ x2 <= x1.
Proof.
  intros W1 W2 P1 P2 H.
  destruct (well_formed_sections s1 W1) as (d1 & -> & _ & _ & L1 & _).
  destruct (well_formed_sections s2 W2) as (d2 & -> & _ & _ & L2 & _).
  destruct (proximity_spec d1 L1) as (sd1 & E1 & S1 & _).
  destruct (proximity_spec d2 L2) as (sd2 & E2 & S2 & _).
  unfold proximity_by in S1, S2. rewrite P1 in S1. rewrite P2 in S2.
  cbn [option_map] in S1, S2.
  exists sd1, sd2. do 2 eexists.
  repeat (split; [eassumption|]).
  apply round1_monotone. rewrite <- !proximity_points_spec.
  now apply proximity_points_non_increasing.
Qed.

(** ** Ratings of zero *)

(** C10.  When the first parent (resp. student) review has an overall
    rating of 0, the parent (resp. student) satisfaction scorer returns a null
    score with the text "No rating available". *)
Theorem zero_rating_reported_as_missing (a : audience) (s : json) (r : dict)
  (rest : list json) (q : Q) :
  path s ["reviews_reputation"; reviews_key a] = Some (JList (JDict r :: rest)) ->
  assoc "overall_rating" r = Some (JNum q) ->
  q == 0 ->
  satisfaction_score a s = Ok (no_data "No rating available").
Proof.
  intros Hp Hr Hq.
  destruct s as [| | | | |d]; cbn [path] in Hp; try discriminate Hp.
  destruct (assoc "reviews_reputation" d) as [[| | | | |reputation]|] eqn:E1;
    try discriminate Hp.
  destruct (assoc (reviews_key a) reputation) as [reviews|] eqn:E2;
    [|discriminate Hp].
  injection Hp as ->.
  destruct a; cbn [reviews_key] in E2;
    unfold satisfaction_score, calculate_parent_satisfaction_score,
      calculate_student_satisfaction_score;
    cbn [py_get bind]; rewrite E1; cbn [py_get bind]; rewrite E2;
    cbn [truthy negb py_first bind py_get1 py_get]; rewrite Hr;
    cbn [bind]; rewrite (truthy_zero q Hq); reflexivity.
Qed.

Lemma zero_rating_reported_as_missing_witness :
  path (first_rated Students 0) ["reviews_reputation"; reviews_key Students]
  = Some (JList [JDict [("overall_rating", JNum 0)]])
  /\ assoc "overall_rating" [("overall_rating", JNum 0)] = Some (JNum 0)
  /\ 0 == 0
  /\ satisfaction_score Students (first_rated Students 0)
     = Ok (no_data "No rating available").
Proof.
  split; [reflexivity|]. split; [reflexivity|]. split; [reflexivity|].
  apply (zero_rating_reported_as_missing Students (first_rated Students 0)
           [("overall_rating", JNum 0)] [] 0); reflexivity.
Defined.

(** ** School size *)

(** The nested lookup of the source is the table of the design document,
    with an enrollment of exactly 1000 in the medium bucket. *)
Lemma size_points_table (preferred_size : string) (e : Q) :
  size_points preferred_size (size_category e)
  = size_table (preference_of preferred_size) (bucket_1000_medium e).
Proof.
  assert (B : size_category e
              = match bucket_1000_medium e with
                | Small => "small" | Medium => "medium"
                | Large => "large" | VeryLarge => "very_large"
                end).
  { unfold size_category, bucket_1000_medium.
    destruct (Qlt_bool 1500 e) eqn:E1.
    - apply Qlt_bool_iff in E1.
      assert (X1 : Qlt_bool e 500 = false) by (apply Qlt_bool_false; lra).
      assert (X2 : Qle_bool e 1000 = false) by (apply Qle_bool_false; lra).
      assert (X3 : Qle_bool e 1500 = false) by (apply Qle_bool_false; lra).
      now rewrite X1, X2, X3.
    - apply Qlt_bool_false in E1.
      assert (X3 : Qle_bool e 1500 = true) by (now apply Qle_bool_iff).
      rewrite X3.
      destruct (Qlt_bool 1000 e) eqn:E2.
      + apply Qlt_bool_iff in E2.
        assert (X1 : Qlt_bool e 500 = false) by (apply Qlt_bool_false; lra).
        assert (X2 : Qle_bool e 1000 = false) by (apply Qle_bool_false; lra).
        now rewrite X1, X2.
      + apply Qlt_bool_false in E2.
        assert (X2 : Qle_bool e 1000 = true) by (now apply Qle_bool_iff).
        rewrite X2.
        destruct (Qle_bool 500 e) eqn:E3.
        * apply Qle_bool_iff in E3.
          assert (X1 : Qlt_bool e 500 = false) by (now apply Qlt_bool_false).
          now rewrite X1.
        * apply Qle_bool_false in E3.
          assert (X1 : Qlt_bool e 500 = true) by (now apply Qlt_bool_iff).
          now rewrite X1. }
  rewrite B. unfold size_points, preference_of, preference_scores.
  cbn [assoc].
  destruct (String.eqb preferred_size "small");
    [destruct (bucket_1000_medium e); reflexivity|].
  destruct (String.eqb preferred_size "medium");
    [destruct (bucket_1000_medium e); reflexivity|].
  destruct (String.eqb preferred_size "large");
    [destruct (bucket_1000_medium e); reflexivity|].
  destruct (String.eqb preferred_size "any");
    destruct (bucket_1000_medium e); reflexivity.
Qed.

Lemma nonzero_positive (e : Q) : 0 < e -> nonzero (JNum e) = Some e.
Proof.
  intros H. cbn [nonzero]. destruct (Qeq_bool e 0) eqn:E; [|reflexivity].
  apply Qeq_bool_iff in E. rewrite E in H. now apply Qlt_irrefl in H.
Qed.

Lemma read_at_positive (s : json) (keys : list string) (e : Q) :
  read_at recorded s keys = Some e -> 0 < e -> read_at nonzero s keys = Some e.
Proof.
  unfold read_at. destruct (path s keys) as [[]|]; cbn [recorded]; try discriminate.
  intros [= ->] H. now apply nonzero_positive.
Qed.

(** C5, the claim as stated, fails: an enrollment of 1000 under the
    preference [large] scores 80, the medium column, where the buckets of the
    claim give the large column, 100. *)
Lemma enrollment_1000_is_medium :
  calculate_school_size_score (with_enrollment 1000) "large"
  = Ok {| score := Some 80;
          details := [ Shown (JNum 1000); Text " students ("; Text "medium"; Text ")" ] |}
  /\ size_table (preference_of "large") (bucket_1000_large 1000) = 100.
Proof.
  split; reflexivity.
Qed.

(** C5 (as amended).  For every well-formed school with a positive
    enrollment total, the school-size scorer buckets the enrollment as small
    (below 500), medium (500 to 1000), large (above 1000, up to 1500) or very
    large (above 1500), and returns the entry of the preference-by-bucket
    table; an unknown preference uses the [any] row. *)
Theorem school_size_follows_table (s : json) (preferred_size : string) (e : Q) :
  well_formed s = true ->
  read_at recorded s ["basic_info"; "enrollment"; "total"] = Some e ->
  0 < e ->
  exists sd,
    calculate_school_size_score s preferred_size = Ok sd
    /\ score sd = Some (size_table (preference_of preferred_size) (bucket_1000_medium e)).
Proof.
  intros Hwf He Hpos.
  destruct (well_formed_sections s Hwf) as (d & -> & Hb & _).
  destruct (size_spec d preferred_size Hb) as (sd & Hsd & Hscore & _).
  exists sd. split; [exact Hsd|].
  rewrite Hscore, (read_at_positive _ _ _ He Hpos). cbn [option_map].
  f_equal. apply size_points_table.
Qed.

Lemma school_size_follows_table_witness :
  well_formed (with_enrollment 1200) = true
  /\ read_at recorded (with_enrollment 1200) ["basic_info"; "enrollment"; "total"]
     = Some 1200
  /\ 0 < 1200
  /\ exists sd,
       calculate_school_size_score (with_enrollment 1200) "small" = Ok sd
       /\ score sd = Some 50.
Proof.
  split; [reflexivity|]. split; [reflexivity|]. split; [reflexivity|].
  exact (school_size_follows_table (with_enrollment 1200) "small" 1200
           eq_refl eq_refl eq_refl).
Defined.

(** ** The academic score against its formula *)

(** C6.  The school with only [vwo] data, a pass rate of 80, no five-year
    average and 400 candidates scores 84.0, as the formula has it.  But a
    recorded pass rate of 0 is left out of the weighted mean: with a [havo]
    pass rate of 80 and a [vwo] pass rate of 0 the scorer returns 80.0, the
    [havo] rate alone, where the weighted mean of the two present pass
    rates, (80 x 1.0 + 0 x 1.5) / 2.5, gives 32.0. *)
Theorem zero_pass_rate_left_out :
  calculate_academic_score only_vwo
  = Ok {| score := Some 84;
          details := [ Fixed1 80; Text "% pass rate, "; Shown (JNum 400);
                       Text " candidates" ] |}
  /\ calculate_academic_score havo_80_vwo_0
     = Ok {| score := Some 80;
             details := [ Fixed1 80; Text "% pass rate, "; Shown (JNum 0);
                          Text " candidates" ] |}
  /\ pass_rates recorded havo_80_vwo_0 = [80; 0]
  /\ academic_by recorded havo_80_vwo_0 = Some 32.
Proof.
  repeat split.
Qed.

(** ** Filters *)

Lemma py_any_in_list (l : list json) (ts : list string) :
  exists b, py_any (fun t => py_in t (JList l)) ts = Ok b.
Proof.
  induction ts as [|t ts [b IH]]; cbn [py_any py_in bind]; [eauto|].
  destruct (existsb (json_is_str t) l); eauto.
Qed.

Lemma py_any_in_empty (ts : list string) :
  py_any (fun t => py_in t (JList [])) ts = Ok false.
Proof.
  induction ts as [|t ts IH]; cbn [py_any py_in bind existsb]; auto.
Qed.

Lemma type_filter_total (d : dict) (f : filters) :
  required d "basic_info" (object wf_basic_info) = true ->
  exists b, type_filter_ok (JDict d) f = Ok b.
Proof.
  intros H. unfold type_filter_ok.
  destruct (school_type f) as [[|t ts]|]; eauto.
  destruct (get_required_child _ _ _ (JDict []) H) as [-> Hb]. cbn [bind].
  unfold wf_basic_info in Hb. repeat (apply andb_prop in Hb as [Hb ?]).
  match goal with
  | X : optional _ "type" _ = true |- _ => destruct (get_elems _ _ _ X) as [-> _]
  end.
  cbn [bind]. apply py_any_in_list.
Qed.

Lemma religion_filter_total (d : dict) (f : filters) :
  required d "basic_info" (object wf_basic_info) = true ->
  exists b, religion_filter_ok (JDict d) f = Ok b.
Proof.
  intros H. unfold religion_filter_ok.
  destruct (religious_affiliation f) as [wanted|]; eauto.
  destruct (String.eqb wanted ""); eauto.
  destruct (get_required_child _ _ _ (JDict []) H) as [-> Hb]. cbn [bind].
  unfold wf_basic_info in Hb. repeat (apply andb_prop in Hb as [Hb ?]).
  match goal with
  | X : optional _ "religious_affiliation" _ = true |- _ =>
      destruct (get_text _ _ X) as [txt ->]
  end.
  cbn [bind py_lower]. eauto.
Qed.

Lemma commute_filter_total (d : dict) (f : filters) :
  optional d "location" (object wf_location) = true ->
  exists b, commute_filter_ok (JDict d) f = Ok b.
Proof.
  intros H. unfold commute_filter_ok.
  destruct (max_commute_minutes f) as [limit|]; eauto.
  rewrite (get_child _ _ _ H). cbn [bind].
  pose proof (child_ok _ _ _ H eq_refl) as Hl. unfold wf_location in Hl.
  apply andb_prop in Hl as [Hb _].
  rewrite (get_child _ _ _ Hb). cbn [bind]. rewrite get_leaf. cbn [bind].
  pose proof (child_ok _ _ _ Hb eq_refl) as Hb'.
  destruct (number_cases _ (leaf_number _ _ Hb')) as [[T _]|(q & E & T & _)];
    rewrite T; [eauto|].
  rewrite E. cbn [as_num bind]. eauto.
Qed.

Lemma city_filter_total (d : dict) (f : filters) :
  required d "basic_info" (object wf_basic_info) = true ->
  exists b, city_filter_ok (JDict d) f = Ok b.
Proof.
  intros H. unfold city_filter_ok.
  destruct (city f) as [wanted|]; eauto.
  destruct (String.eqb wanted ""); eauto.
  destruct (get_required_child _ _ _ (JDict []) H) as [-> Hb]. cbn [bind].
  unfold wf_basic_info in Hb. repeat (apply andb_prop in Hb as [Hb ?]).
  match goal with
  | X : optional _ "city" _ = true |- _ => destruct (get_text _ _ X) as [txt ->]
  end.
  cbn [bind py_lower]. eauto.
Qed.

(** The filter predicate returns on every well-formed record. *)
Lemma passes_filters_total (s : json) (f : filters) :
  well_formed s = true -> exists b, _passes_filters s f = Ok b.
Proof.
  intros H.
  destruct (well_formed_sections s H) as (d & -> & Hb & _ & Hl & _).
  unfold _passes_filters.
  destruct (type_filter_total d f Hb) as [b1 ->].
  destruct (religion_filter_total d f Hb) as [b2 ->].
  destruct (commute_filter_total d f Hl) as [b3 ->].
  destruct (city_filter_total d f Hb) as [b4 ->].
  cbn [bind]. destruct b1, b2, b3, b4; cbn [negb]; eauto.
Qed.

Lemma lower_empty (s : string) : lower s = "" -> s = "".
Proof.
  destruct s; [reflexivity|discriminate].
Qed.

Lemma nothing_in_empty (a : string) : a <> "" -> is_substring a "" = false.
Proof.
  destruct a; [congruence|reflexivity].
Qed.

Lemma eqb_empty_false (s : string) : s <> "" -> String.eqb s "" = false.
Proof.
  intros H. now apply String.eqb_neq.
Qed.

Lemma missing_text (d : dict) (k1 k2 : string) :
  path (JDict d) [k1; k2] = None ->
  required d k1 (object wf_basic_info) = true ->
  assoc k2 (child d k1) = None.
Proof.
  cbn [path]. unfold required, child.
  destruct (assoc k1 d) as [[]|]; cbn [object]; try discriminate.
  destruct (assoc k2 d0); [discriminate|reflexivity].
Qed.

Lemma city_filter_missing (d : dict) (f : filters) (c : string) :
  required d "basic_info" (object wf_basic_info) = true ->
  city f = Some c -> c <> "" ->
  path (JDict d) ["basic_info"; "city"] = None ->
  city_filter_ok (JDict d) f = Ok false.
Proof.
  intros H Hc Hne Hp. unfold city_filter_ok. rewrite Hc, (eqb_empty_false _ Hne).
  destruct (get_required_child _ _ _ (JDict []) H) as [-> _]. cbn [bind].
  unfold py_get. rewrite (missing_text _ _ _ Hp H). cbn [bind py_lower lower].
  f_equal. apply String.eqb_neq. intros E. symmetry in E.
  apply lower_empty in E. contradiction.
Qed.

Lemma religion_filter_missing (d : dict) (f : filters) (r : string) :
  required d "basic_info" (object wf_basic_info) = true ->
  religious_affiliation f = Some r -> r <> "" ->
  path (JDict d) ["basic_info"; "religious_affiliation"] = None ->
  religion_filter_ok (JDict d) f = Ok false.
Proof.
  intros H Hr Hne Hp. unfold religion_filter_ok. rewrite Hr, (eqb_empty_false _ Hne).
  destruct (get_required_child _ _ _ (JDict []) H) as [-> _]. cbn [bind].
  unfold py_get. rewrite (missing_text _ _ _ Hp H). cbn [bind py_lower lower].
  f_equal. apply nothing_in_empty. intros E. apply lower_empty in E. contradiction.
Qed.

Lemma type_filter_missing (d : dict) (f : filters) (t : string) (ts : list string) :
  required d "basic_info" (object wf_basic_info) = true ->
  school_type f = Some (t :: ts) ->
  path (JDict d) ["basic_info"; "type"] = None ->
  type_filter_ok (JDict d) f = Ok false.
Proof.
  intros H Ht Hp. unfold type_filter_ok. rewrite Ht.
  destruct (get_required_child _ _ _ (JDict []) H) as [-> _]. cbn [bind].
  unfold py_get. rewrite (missing_text _ _ _ Hp H). cbn [bind].
  apply py_any_in_empty.
Qed.

Lemma commute_filter_missing (d : dict) (f : filters) :
  optional d "location" (object wf_location) = true ->
  read_at recorded (JDict d) ["location"; "bike_accessibility"; "duration_minutes"]
  = None ->
  commute_filter_ok (JDict d) f = Ok true.
Proof.
  intros H Hr. unfold commute_filter_ok.
  destruct (max_commute_minutes f) as [limit|]; [|reflexivity].
  rewrite read_at_leaf3 in Hr by reflexivity.
  rewrite (get_child _ _ _ H). cbn [bind].
  pose proof (child_ok _ _ _ H eq_refl) as Hl. unfold wf_location in Hl.
  apply andb_prop in Hl as [Hb _].
  rewrite (get_child _ _ _ Hb). cbn [bind]. rewrite get_leaf. cbn [bind].
  pose proof (child_ok _ _ _ Hb eq_refl) as Hb'.
  destruct (leaf_number _ _ Hb') as [E|[q E]]; rewrite E in *; [reflexivity|].
  discriminate Hr.
Qed.

(** C7, the claim as stated, fails: a school with no city does not pass a
    city filter, and a school with no religious affiliation does not pass a
    religious-affiliation filter. *)
Lemma missing_city_fails_city_filter :
  path bare_school ["basic_info"; "city"] = None
  /\ _passes_filters bare_school (only_city "Amsterdam") = Ok false
  /\ path bare_school ["basic_info"; "religious_affiliation"] = None
  /\ _passes_filters bare_school (only_religion "catholic") = Ok false.
Proof.
  repeat split.
Qed.

(** C7 (as amended).  On a well-formed school, only the commute filter is
    permissive about a missing field: a school with no bike duration passes
    as it would without the [max_commute_minutes] key.  A school with no
    [basic_info.city] fails every non-empty city filter, a school with no
    religious affiliation fails every non-empty religious-affiliation filter,
    and a school with no type list fails every non-empty school-type
    filter. *)
Theorem only_commute_filter_is_permissive (s : json) (f : filters) :
  well_formed s = true ->
  (read_at recorded s ["location"; "bike_accessibility"; "duration_minutes"] = None ->
   _passes_filters s f = _passes_filters s (without_commute f)
   /\ forall m, _passes_filters s (only_commute m) = Ok true)
  /\ (forall c, city f = Some c -> c <> "" ->
      path s ["basic_info"; "city"] = None -> _passes_filters s f = Ok false)
  /\ (forall r, religious_affiliation f = Some r -> r <> "" ->
      path s ["basic_info"; "religious_affiliation"] = None ->
      _passes_filters s f = Ok false)
  /\ (forall t ts, school_type f = Some (t :: ts) ->
      path s ["basic_info"; "type"] = None -> _passes_filters s f = Ok false).
Proof.
  intros H.
  destruct (well_formed_sections s H) as (d & -> & Hb & _ & Hl & _).
  destruct (type_filter_total d f Hb) as [b1 E1].
  destruct (religion_filter_total d f Hb) as [b2 E2].
  destruct (commute_filter_total d f Hl) as [b3 E3].
  destruct (city_filter_total d f Hb) as [b4 E4].
  split; [intros Hm; split|split; [|split]].
  - unfold _passes_filters.
    rewrite (commute_filter_missing d f Hl Hm).
    rewrite (commute_filter_missing d (without_commute f) Hl Hm).
    reflexivity.
  - intros m. unfold _passes_filters.
    rewrite (commute_filter_missing d (only_commute m) Hl Hm). reflexivity.
  - intros c Hc Hne Hp. unfold _passes_filters.
    rewrite E1, E2, E3, (city_filter_missing d f c Hb Hc Hne Hp). cbn [bind].
    destruct b1, b2, b3; reflexivity.
  - intros r Hr Hne Hp. unfold _passes_filters.
    rewrite E1, (religion_filter_missing d f r Hb Hr Hne Hp). cbn [bind].
    destruct b1; reflexivity.
  - intros t ts Ht Hp. unfold _passes_filters.
    rewrite (type_filter_missing d f t ts Hb Ht Hp). reflexivity.
Qed.

Lemma only_commute_filter_is_permissive_witness :
  well_formed bare_school = true
  /\ _passes_filters bare_school (only_commute 20) = Ok true
  /\ _passes_filters bare_school (only_city "Amsterdam") = Ok false
  /\ _passes_filters bare_school (only_religion "catholic") = Ok false
  /\ _passes_filters bare_school (only_types ["VWO"]) = Ok false.
Proof.
  split; [reflexivity|].
  destruct (only_commute_filter_is_permissive bare_school (only_city "Amsterdam") eq_refl)
    as (C & Hc & _).
  destruct (only_commute_filter_is_permissive bare_school (only_religion "catholic") eq_refl)
    as (_ & _ & Hr & _).
  destruct (only_commute_filter_is_permissive bare_school (only_types ["VWO"]) eq_refl)
    as (_ & _ & _ & Ht).
  split; [apply (C eq_refl)|].
  split; [apply (Hc "Amsterdam"); [reflexivity|discriminate|reflexivity]|].
  split; [apply (Hr "catholic"); [reflexivity|discriminate|reflexivity]|].
  apply (Ht "VWO" []); reflexivity.
Defined.

(** ** Absent and zero data *)

Lemma nonzero_recorded (v : json) : recorded v = None -> nonzero v = None.
Proof.
  destruct v; cbn [recorded nonzero]; congruence.
Qed.

Lemma read_at_nonzero_recorded (s : json) (keys : list string) :
  read_at recorded s keys = None -> read_at nonzero s keys = None.
Proof.
  unfold read_at. destruct (path s keys); [apply nonzero_recorded|reflexivity].
Qed.

Lemma primary_minutes_absent (s : json) :
  primary_minutes recorded s = None -> primary_minutes nonzero s = None.
Proof.
  unfold primary_minutes.
  destruct (read_at recorded s ["location"; "bike_accessibility"; "duration_minutes"])
    eqn:E; [discriminate|].
  intros H. now rewrite (read_at_nonzero_recorded _ _ E), (read_at_nonzero_recorded _ _ H).
Qed.

(** ** Ranking *)

Section StableSort.

Context {A : Type} (key : A -> Q).

Lemma insert_desc_perm (x : A) (l : list A) :
  Permutation (x :: l) (insert_desc key x l).
Proof.
  induction l as [|y l IH]; cbn [insert_desc]; [reflexivity|].
  destruct (Qlt_bool (key x) (key y)); [|reflexivity].
  rewrite perm_swap. now apply perm_skip.
Qed.

Lemma sort_desc_perm (l : list A) : Permutation l (sort_desc key l).
Proof.
  induction l as [|x l IH]; cbn [sort_desc]; [reflexivity|].
  rewrite <- insert_desc_perm. now apply perm_skip.
Qed.

Lemma insert_desc_sorted (x : A) (l : list A) :
  descending key l -> descending key (insert_desc key x l).
Proof.
  unfold descending. intros S.
  induction S as [|y l S IH F]; cbn [insert_desc].
  - repeat constructor.
  - destruct (Qlt_bool (key x) (key y)) eqn:E.
    + apply Qlt_bool_iff in E. constructor; [exact IH|].
      apply (Permutation_Forall (insert_desc_perm x l)).
      constructor; [now apply Qlt_le_weak|exact F].
    + apply Qlt_bool_false in E. constructor; [now constructor|].
      constructor; [exact E|].
      apply (Forall_impl _ (P := fun z => key z <= key y)); [|exact F].
      intros z Hz. now apply Qle_trans with (key y).
Qed.

Lemma sort_desc_sorted (l : list A) : descending key (sort_desc key l).
Proof.
  induction l as [|x l IH]; cbn [sort_desc].
  - constructor.
  - now apply insert_desc_sorted.
Qed.

(** Insertion passes only items of a strictly larger key, so it keeps the
    order among the items of any one key. *)
Lemma filter_insert_desc (c : Q) (x : A) (l : list A) :
  filter (same_key key c) (insert_desc key x l)
  = filter (same_key key c) (x :: l).
Proof.
  induction l as [|y l IH]; cbn [insert_desc]; [reflexivity|].
  destruct (Qlt_bool (key x) (key y)) eqn:E; [|reflexivity].
  apply Qlt_bool_iff in E.
  cbn [filter] in IH |- *. rewrite IH.
  destruct (same_key key c x) eqn:Ex; [|reflexivity].
  destruct (same_key key c y) eqn:Ey; [|reflexivity].
  unfold same_key in Ex, Ey. apply Qeq_bool_iff in Ex, Ey.
  rewrite Ex, Ey in E. now apply Qlt_irrefl in E.
Qed.

Lemma sort_desc_stable (c : Q) (l : list A) :
  filter (same_key key c) (sort_desc key l) = filter (same_key key c) l.
Proof.
  induction l as [|x l IH]; cbn [sort_desc]; [reflexivity|].
  rewrite filter_insert_desc. cbn [filter]. now rewrite IH.
Qed.

Lemma before_filter (p : A -> bool) (x y : A) (l : list A) :
  before x y l -> p x = true -> p y = true -> before x y (filter p l).
Proof.
  intros (l1 & l2 & l3 & ->) Hx Hy.
  exists (filter p l1), (filter p l2), (filter p l3).
  rewrite filter_app. cbn [filter]. rewrite Hx, filter_app. cbn [filter].
  now rewrite Hy.
Qed.

Lemma filter_eq_cons (p : A -> bool) (l : list A) (x : A) (r : list A) :
  filter p l = x :: r ->
  exists l1 l2, l = l1 ++ x :: l2 /\ filter p l2 = r.
Proof.
  induction l as [|z l IH]; cbn [filter]; [discriminate|].
  destruct (p z) eqn:E.
  - intros [= -> <-]. now exists [], l.
  - intros H. destruct (IH H) as (l1 & l2 & -> & Hr).
    now exists (z :: l1), l2.
Qed.

Lemma filter_eq_app_cons (p : A -> bool) (l : list A) (f1 : list A) (x : A) (r : list A) :
  filter p l = f1 ++ x :: r ->
  exists l1 l2, l = l1 ++ x :: l2 /\ filter p l2 = r.
Proof.
  revert l. induction f1 as [|z f1 IH]; intros l H; cbn [app] in H.
  - now apply filter_eq_cons.
  - destruct (filter_eq_cons _ _ _ _ H) as (l1 & l2 & -> & H2).
    destruct (IH _ H2) as (m1 & m2 & -> & H3).
    exists (l1 ++ z :: m1), m2. split; [|exact H3].
    now rewrite <- app_assoc.
Qed.

Lemma before_unfilter (p : A -> bool) (x y : A) (l : list A) :
  before x y (filter p l) -> before x y l.
Proof.
  intros (f1 & f2 & f3 & H).
  destruct (filter_eq_app_cons _ _ _ _ _ H) as (l1 & l2 & -> & H2).
  destruct (filter_eq_app_cons _ _ _ _ _ H2) as (m1 & m2 & -> & _).
  now exists l1, m1, m2.
Qed.

(** Two items of equal key come out in the order they went in. *)
Lemma sort_desc_keeps_ties (x y : A) (l : list A) :
  before x y l -> key x == key y -> before x y (sort_desc key l).
Proof.
  intros B E.
  apply (before_unfilter (same_key key (key x))).
  rewrite sort_desc_stable.
  apply before_filter; [exact B| |]; unfold same_key; apply Qeq_bool_iff;
    [reflexivity|now symmetry].
Qed.

End StableSort.

(** The loop of [rank_schools] keeps the listed schools, in their order,
    each with its composite score. *)
Lemma collect_results_spec (schools : list json)
  (weights : option (list (string * Q))) (preferences : option (list (string * string)))
  (f : option filters) :
  Forall (fun s => well_formed s = true) schools ->
  exists results,
    collect_results schools weights preferences f = Ok results
    /\ map school results = filter (listed weights preferences f) schools
    /\ Forall (fun x =>
                 calculate_composite_score (school x) weights preferences
                 = Ok (score_data x)
                 /\ composite_score (score_data x) = Some (sort_key x)) results.
Proof.
  induction 1 as [|s schools Hs _ (results & E & M & F)]; cbn [collect_results].
  - exists []. repeat split. constructor.
  - cbn [filter].
    assert (K : exists keep,
               match filters_given f with
               | Some fs => _passes_filters s fs
               | None => Ok true
               end = Ok keep).
    { destruct (filters_given f) as [fs|]; [|eauto].
      apply passes_filters_total, Hs. }
    destruct K as [keep Ek].
    destruct (composite_total s weights preferences Hs) as [r Er].
    assert (L : listed weights preferences f s
                = (keep && match composite_score r with
                           | Some _ => true
                           | None => false
                           end)%bool).
    { unfold listed. rewrite Ek, Er. now destruct keep. }
    rewrite L, Ek. cbn [bind].
    destruct keep; cbn [negb andb]; [|now exists results].
    rewrite Er, E. cbn [bind].
    destruct (composite_score r) as [c|] eqn:Ec; [|now exists results].
    exists (mkRanked s r :: results). split; [reflexivity|].
    split; [cbn [map school]; now rewrite M|].
    constructor; [|exact F]. cbn [school score_data]. split; [exact Er|].
    unfold sort_key. cbn [score_data]. now rewrite Ec.
Qed.

(** C8.  On well-formed schools [rank_schools] returns.  Its output holds
    the schools that pass the filters and have a non-null composite score,
    each with its score; it is ordered by decreasing composite score; and the
    sort is stable: the items of any one score, and so any two items of equal
    score, keep the order they have in the input. *)
Theorem ranking_is_sorted_and_stable (schools : list json)
  (weights : option (list (string * Q))) (preferences : option (list (string * string)))
  (f : option filters) :
  Forall (fun s => well_formed s = true) schools ->
  exists results out,
    rank_schools schools weights preferences f = Ok out
    /\ map school results = filter (listed weights preferences f) schools
    /\ Forall (fun x =>
                 calculate_composite_score (school x) weights preferences
                 = Ok (score_data x)
                 /\ composite_score (score_data x) = Some (sort_key x)) results
    /\ Permutation results out
    /\ descending sort_key out
    /\ (forall c, filter (same_key sort_key c) out = filter (same_key sort_key c) results)
    /\ (forall x y, before x y results -> sort_key x == sort_key y -> before x y out).
Proof.
  intros H.
  destruct (collect_results_spec schools weights preferences f H) as (results & E & M & F).
  exists results, (sort_desc sort_key results).
  unfold rank_schools. rewrite E. cbn [bind].
  split; [reflexivity|]. split; [exact M|]. split; [exact F|].
  split; [apply sort_desc_perm|]. split; [apply sort_desc_sorted|].
  split; [intros c; apply sort_desc_stable|].
  intros x y. apply sort_desc_keeps_ties.
Qed.

Lemma ranking_is_sorted_and_stable_witness :
  Forall (fun s => well_formed s = true)
    [ commuter "a" (35 # 2); commuter "c" 10; commuter "b" (35 # 2) ]
  /\ exists out,
       rank_schools [ commuter "a" (35 # 2); commuter "c" 10; commuter "b" (35 # 2) ]
         by_proximity None None = Ok out
       /\ map school out = [ commuter "c" 10; commuter "a" (35 # 2); commuter "b" (35 # 2) ]
       /\ map sort_key out = [ 90; 75; 75 ].
Proof.
  assert (W : Forall (fun s => well_formed s = true)
                [ commuter "a" (35 # 2); commuter "c" 10; commuter "b" (35 # 2) ])
    by (repeat constructor).
  split; [exact W|].
  destruct (ranking_is_sorted_and_stable _ by_proximity None None W)
    as (results & out & E & _).
  exists out. split; [exact E|].
  vm_compute in E. injection E as <-. split; reflexivity.
Defined.

(** * Further properties of the scorers *)

Lemma field_at_leaf2 (d : dict) (k1 k2 : string) :
  field_at (JDict d) [k1; k2] = leaf (child d k1) k2.
Proof.
  unfold field_at, child, leaf. cbn [path].
  destruct (assoc k1 d) as [[]|]; cbn [assoc]; auto.
  destruct (assoc k2 d0); auto.
Qed.

Lemma field_at_leaf3 (d : dict) (k1 k2 k3 : string) :
  field_at (JDict d) [k1; k2; k3] = leaf (child (child d k1) k2) k3.
Proof.
  unfold field_at, child, leaf. cbn [path].
  destruct (assoc k1 d) as [[]|]; cbn [assoc]; auto.
  destruct (assoc k2 d0) as [[]|]; cbn [assoc]; auto.
  destruct (assoc k3 d1); auto.
Qed.

Lemma get_sequence (d : dict) (k : string) (ok : json -> bool) :
  optional d k (sequence ok) = true ->
  exists l,
    py_get (JDict d) k (JList []) = Ok (JList l)
    /\ forallb ok l = true
    /\ truthy (leaf d k) = truthy (JList l)
    /\ count_of (leaf d k) = List.length l
    /\ (leaf d k = JList l \/ (leaf d k = JNull /\ l = [])).
Proof.
  unfold optional, py_get, leaf.
  destruct (assoc k d) as [[]|]; cbn [sequence]; intros H; try discriminate H.
  - exists l. repeat split; auto.
  - exists []. repeat split; auto.
Qed.

Lemma get_string (d : dict) (k : string) :
  optional d k is_string = true ->
  exists txt,
    py_get (JDict d) k (JStr "") = Ok (JStr txt)
    /\ truthy (leaf d k) = truthy (JStr txt)
    /\ text_length (leaf d k) = String.length txt.
Proof.
  unfold optional, py_get, leaf.
  destruct (assoc k d) as [[]|]; cbn [is_string]; intros H; try discriminate H.
  - exists s. repeat split.
  - exists "". repeat split.
Qed.

Lemma get_or_empty_object (d : dict) (k : string) :
  exists v, py_get (JDict d) k (JDict []) = Ok v /\ truthy v = truthy (leaf d k).
Proof.
  unfold py_get, leaf. destruct (assoc k d); eauto.
Qed.

Lemma truthy_and_longer_list (l : list json) :
  truthy_and_longer (JList l) 0 = Ok (truthy (JList l)).
Proof.
  destruct l; reflexivity.
Qed.

Lemma truthy_and_longer_text (txt : string) (n : nat) :
  truthy_and_longer (JStr txt) n = Ok (Nat.ltb n (String.length txt)).
Proof.
  destruct txt; [|reflexivity].
  cbn. now destruct n.
Qed.

(** ** Facilities *)

Lemma facilities_points_returned (s : json) :
  well_formed s = true ->
  exists sd,
    calculate_facilities_score s = Ok sd
    /\ score sd = Some (inject_Z (facility_points s))
    /\ (50 <= facility_points s <= 100)%Z.
Proof.
  intros Hwf.
  destruct (well_formed_sections s Hwf) as (d & -> & _ & _ & _ & H & _).
  unfold calculate_facilities_score, facility_points.
  rewrite field_at_leaf3, !field_at_leaf2.
  rewrite (get_child _ _ _ H). cbn [bind].
  pose proof (child_ok _ _ _ H eq_refl) as Hf. unfold wf_facilities in Hf.
  apply andb_prop in Hf as [Hf _]. apply andb_prop in Hf as [Hf Hc].
  apply andb_prop in Hf as [Ht Hs].
  set (f := child d "facilities") in *.
  rewrite (get_child _ _ _ Ht). cbn [bind]. rewrite get_leaf. cbn [bind].
  destruct (get_sequence _ _ _ Hs) as (l & -> & _ & -> & _). cbn [bind].
  rewrite truthy_and_longer_list. cbn [bind].
  destruct (get_string _ _ Hc) as (txt & -> & _ & ->). cbn [bind].
  rewrite truthy_and_longer_text. cbn [bind].
  destruct (get_or_empty_object f "library") as (lib & -> & <-). cbn [bind].
  rewrite get_leaf. cbn [bind].
  eexists. split; [reflexivity|]. cbn [score].
  destruct (truthy (leaf (child f "technology") "description"));
    destruct (truthy (JList l)); destruct (Nat.ltb 50 (String.length txt));
    destruct (truthy lib); cbn [points_if]; split; try reflexivity; lia.
Qed.

Lemma inject_Z_bounds (z lo hi : Z) :
  (lo <= z <= hi)%Z -> inject_Z lo <= inject_Z z <= inject_Z hi.
Proof.
  intros [L H]. split; now rewrite <- Zle_Qle.
Qed.

(** The facilities scorer, on a well-formed record, returns the base of 50
    plus the points of each amenity that is there; the score is never null
    and lies between 50 and 100. *)
Theorem facilities_score_is_sum (s : json) :
  well_formed s = true ->
  exists sd x,
    calculate_facilities_score s = Ok sd
    /\ score sd = Some x
    /\ x = inject_Z (facility_points s)
    /\ 50 <= x <= 100.
Proof.
  intros Hwf.
  destruct (facilities_points_returned s Hwf) as (sd & E & S & B).
  exists sd, (inject_Z (facility_points s)).
  repeat split; auto; now apply (inject_Z_bounds _ 50 100).
Qed.

Lemma facilities_score_is_sum_witness :
  well_formed bare_school = true
  /\ exists sd,
       calculate_facilities_score bare_school = Ok sd /\ score sd = Some 50.
Proof.
  split; [reflexivity|].
  destruct (facilities_score_is_sum bare_school eq_refl) as (sd & x & E & S & X & _).
  exists sd. split; [exact E|]. rewrite S, X. reflexivity.
Defined.

Lemma facilities_text_returned (s : json) :
  well_formed s = true ->
  exists sd,
    calculate_facilities_score s = Ok sd
    /\ (details sd = [Text "Basic facilities"] <->
        truthy (field_at s ["facilities"; "technology"]) = false
        /\ truthy (field_at s ["facilities"; "sports_facilities"]) = false
        /\ truthy (field_at s ["facilities"; "classrooms_labs_quality"]) = false).
Proof.
  intros Hwf.
  destruct (well_formed_sections s Hwf) as (d & -> & _ & _ & _ & H & _).
  unfold calculate_facilities_score.
  rewrite !field_at_leaf2.
  rewrite (get_child _ _ _ H). cbn [bind].
  pose proof (child_ok _ _ _ H eq_refl) as Hf. unfold wf_facilities in Hf.
  apply andb_prop in Hf as [Hf _]. apply andb_prop in Hf as [Hf Hc].
  apply andb_prop in Hf as [Ht Hs].
  set (f := child d "facilities") in *.
  rewrite (get_child _ _ _ Ht). cbn [bind]. rewrite get_leaf. cbn [bind].
  destruct (get_sequence _ _ _ Hs) as (l & -> & _ & -> & _). cbn [bind].
  rewrite truthy_and_longer_list. cbn [bind].
  destruct (get_string _ _ Hc) as (txt & -> & -> & _). cbn [bind].
  rewrite truthy_and_longer_text. cbn [bind].
  destruct (get_or_empty_object f "library") as (lib & -> & _). cbn [bind].
  rewrite get_leaf. cbn [bind].
  eexists. split; [reflexivity|]. cbn [details].
  destruct (truthy (leaf f "technology")); destruct (truthy (JList l));
    destruct (truthy (JStr txt)); cbn; split;
    try (intros X; discriminate X); try (intros (X1 & X2 & X3); discriminate);
    auto.
Qed.

(** The text of the facilities score names the technology entry, the sports
    list and the classroom text when they are there, and never the library:
    it reads "Basic facilities" exactly when all three are empty or missing,
    so also for a school that has a library and scores 60. *)
Theorem facilities_text_ignores_library (s : json) :
  well_formed s = true ->
  truthy (field_at s ["facilities"; "technology"]) = false ->
  truthy (field_at s ["facilities"; "sports_facilities"]) = false ->
  truthy (field_at s ["facilities"; "classrooms_labs_quality"]) = false ->
  exists sd,
    calculate_facilities_score s = Ok sd
    /\ details sd = [Text "Basic facilities"]
    /\ score sd
       = Some (inject_Z (50 + points_if (truthy (field_at s ["facilities"; "library"])) 10)).
Proof.
  intros Hwf T1 T2 T3.
  destruct (facilities_text_returned s Hwf) as (sd & E & D).
  destruct (facilities_points_returned s Hwf) as (sd' & E' & S & _).
  rewrite E in E'. injection E' as <-.
  exists sd. split; [exact E|]. split; [now apply D|].
  rewrite S. unfold facility_points.
  assert (T0 : truthy (field_at s ["facilities"; "technology"; "description"]) = false).
  { destruct (well_formed_sections s Hwf) as (d & -> & _).
    rewrite field_at_leaf3. rewrite field_at_leaf2 in T1.
    unfold child at 1. unfold leaf in T1.
    destruct (assoc "technology" (child d "facilities")) as [[]|]; try reflexivity.
    cbn [truthy] in T1. now destruct d0. }
  rewrite T0, T2.
  assert (L : text_length (field_at s ["facilities"; "classrooms_labs_quality"]) = 0%nat).
  { destruct (field_at s ["facilities"; "classrooms_labs_quality"]); try reflexivity.
    cbn [truthy] in T3. apply negb_false_iff, String.eqb_eq in T3. now subst. }
  rewrite L. cbn [Nat.ltb Nat.leb points_if].
  destruct (truthy (field_at s ["facilities"; "library"])); reflexivity.
Qed.

Lemma facilities_text_ignores_library_witness :
  well_formed library_only = true
  /\ exists sd,
       calculate_facilities_score library_only = Ok sd
       /\ score sd = Some 60
       /\ details sd = [Text "Basic facilities"].
Proof.
  split; [reflexivity|].
  destruct (facilities_text_ignores_library library_only eq_refl eq_refl eq_refl eq_refl)
    as (sd & E & D & S).
  exists sd. split; [exact E|]. split; [rewrite S; reflexivity|exact D].
Defined.

(** ** Extracurricular activities *)

Lemma extracurriculars_points_returned (s : json) :
  well_formed s = true ->
  exists sd,
    calculate_extracurriculars_score s = Ok sd
    /\ score sd = Some (inject_Z (Z.min (50 + 5 * Z.of_nat (activity_count s)) 100))
    /\ (activity_count s = 0%nat <-> details sd = [Text "No data on activities"]).
Proof.
  intros Hwf.
  destruct (well_formed_sections s Hwf) as (d & -> & _ & Ha & _ & _ & Hs & _).
  unfold calculate_extracurriculars_score, activity_count.
  rewrite !field_at_leaf2.
  rewrite (get_child _ _ _ Ha). cbn [bind].
  pose proof (child_ok _ _ _ Ha eq_refl) as Ha'. unfold wf_academic in Ha'.
  apply andb_prop in Ha' as [_ He].
  destruct (get_sequence _ _ _ He) as (l1 & -> & _ & _ & -> & _). cbn [bind].
  rewrite (get_child _ _ _ Hs). cbn [bind].
  pose proof (child_ok _ _ _ Hs eq_refl) as Hs'. unfold wf_support in Hs'.
  destruct (get_sequence _ _ _ Hs') as (l2 & -> & _ & _ & -> & _). cbn [bind py_len].
  set (n := (List.length l1 + List.length l2)%nat).
  destruct (Nat.eqb n 0) eqn:E.
  - apply Nat.eqb_eq in E. rewrite E. eexists. split; [reflexivity|].
    cbn [score details]. repeat split; auto.
  - apply Nat.eqb_neq in E. eexists. split; [reflexivity|]. cbn [score details].
    split; [do 2 f_equal; lia|].
    split; [contradiction|discriminate].
Qed.

(** The extracurriculars scorer counts the activities at school and after
    school together: 50 points plus 5 for each, capped at 100, so ten
    activities or more give 100.  With no activity the score is 50, not
    null, and the text says that there is no data. *)
Theorem extracurriculars_count_both_lists (s : json) :
  well_formed s = true ->
  exists sd x,
    calculate_extracurriculars_score s = Ok sd
    /\ score sd = Some x
    /\ x = inject_Z (Z.min (50 + 5 * Z.of_nat (activity_count s)) 100)
    /\ 50 <= x <= 100
    /\ (activity_count s = 0%nat <->
        x == 50 /\ details sd = [Text "No data on activities"])
    /\ ((10 <= activity_count s)%nat <-> x == 100).
Proof.
  intros Hwf.
  destruct (extracurriculars_points_returned s Hwf) as (sd & E & S & D).
  eexists sd, _. split; [exact E|]. split; [exact S|]. split; [reflexivity|].
  split; [apply (inject_Z_bounds _ 50 100); lia|].
  split.
  - rewrite <- D. split.
    + intros ->. split; reflexivity.
    + intros [_ Z]. exact Z.
  - change 100 with (inject_Z 100). rewrite inject_Z_injective. lia.
Qed.

Lemma extracurriculars_count_both_lists_witness :
  well_formed (with_activities ["chess"; "choir"] ["homework club"]) = true
  /\ exists sd,
       calculate_extracurriculars_score
         (with_activities ["chess"; "choir"] ["homework club"]) = Ok sd
       /\ score sd = Some 65.
Proof.
  split; [reflexivity|].
  destruct (extracurriculars_count_both_lists
              (with_activities ["chess"; "choir"] ["homework club"]) eq_refl)
    as (sd & x & E & S & X & _).
  exists sd. split; [exact E|]. rewrite S, X. reflexivity.
Defined.

(** ** Special programs *)

Lemma mapM_as_str_names (l : list json) :
  forallb is_string l = true ->
  mapM as_str l = Ok (flat_map (fun v => match v with JStr n => [n] | _ => [] end) l).
Proof.
  induction l as [|v l IH]; cbn [forallb mapM flat_map]; intros H; [reflexivity|].
  apply andb_prop in H as [Hv Hl].
  destruct v; cbn [is_string] in Hv; try discriminate Hv.
  rewrite (IH Hl). reflexivity.
Qed.

Lemma names_firstn (n : nat) (l : list json) :
  forallb is_string l = true ->
  flat_map (fun v => match v with JStr x => [x] | _ => [] end) (firstn n l)
  = firstn n (flat_map (fun v => match v with JStr x => [x] | _ => [] end) l).
Proof.
  revert n. induction l as [|v l IH]; intros [|n] H; cbn [firstn flat_map forallb] in *;
    try reflexivity.
  apply andb_prop in H as [Hv Hl].
  destruct v; cbn [is_string] in Hv; try discriminate Hv.
  cbn [app firstn]. now rewrite IH.
Qed.

Lemma names_length (l : list json) :
  forallb is_string l = true ->
  List.length (flat_map (fun v => match v with JStr x => [x] | _ => [] end) l)
  = List.length l.
Proof.
  induction l as [|v l IH]; cbn [forallb flat_map List.length]; intros H; [reflexivity|].
  apply andb_prop in H as [Hv Hl].
  destruct v; cbn [is_string] in Hv; try discriminate Hv.
  cbn [app List.length]. now rewrite IH.
Qed.

Lemma special_programs_returned (s : json) :
  well_formed s = true ->
  let names := program_names s in
  let n := List.length names in
  exists sd,
    calculate_special_programs_score s = Ok sd
    /\ score sd = Some (inject_Z (Z.min (50 + 10 * Z.of_nat n) 100))
    /\ details sd
       = match names with
         | [] => [Text "No special programs listed"]
         | _ :: _ =>
             Text (join ", " (firstn 3 names))
             :: (if Nat.ltb 3 n
                 then [ Text ", +"; Shown (JNum (inject_Z (Z.of_nat (n - 3))));
                        Text " more" ]
                 else [])
         end.
Proof.
  intros Hwf names n. subst n names.
  destruct (well_formed_sections s Hwf) as (d & -> & _ & Ha & _).
  unfold calculate_special_programs_score, program_names.
  rewrite field_at_leaf2.
  rewrite (get_child _ _ _ Ha). cbn [bind].
  pose proof (child_ok _ _ _ Ha eq_refl) as Ha'. unfold wf_academic in Ha'.
  apply andb_prop in Ha' as [Ha' _]. apply andb_prop in Ha' as [_ Hp].
  destruct (get_sequence _ _ _ Hp) as (l & -> & Hall & _ & _ & [->|[-> ->]]);
    cbn [bind].
  - destruct l as [|v l].
    + cbn. eexists. split; [reflexivity|]. split; reflexivity.
    + cbn [truthy negb py_len bind join_first3].
      rewrite (mapM_as_str_names _ (forallb_firstn _ 3 _ Hall)). cbn [bind].
      rewrite (names_firstn 3 _ Hall), (names_length _ Hall).
      eexists. split; [reflexivity|]. cbn [score details].
      split; [do 2 f_equal; lia|].
      cbn [forallb] in Hall. apply andb_prop in Hall as [Hv _].
      destruct v; cbn [is_string] in Hv; try discriminate Hv.
      reflexivity.
  - cbn. eexists. split; [reflexivity|]. split; reflexivity.
Qed.

(** The special-programs scorer gives 50 points plus 10 for each program,
    capped at 100, so five programs or more give 100; with no program the
    score is 50, not null.  The text lists the first three names, and counts
    the others. *)
Theorem special_programs_count_and_text (s : json) :
  well_formed s = true ->
  let names := program_names s in
  let n := List.length names in
  exists sd x,
    calculate_special_programs_score s = Ok sd
    /\ score sd = Some x
    /\ x = inject_Z (Z.min (50 + 10 * Z.of_nat n) 100)
    /\ 50 <= x <= 100
    /\ ((5 <= n)%nat <-> x == 100)
    /\ details sd
       = match names with
         | [] => [Text "No special programs listed"]
         | _ :: _ =>
             Text (join ", " (firstn 3 names))
             :: (if Nat.ltb 3 n
                 then [ Text ", +"; Shown (JNum (inject_Z (Z.of_nat (n - 3))));
                        Text " more" ]
                 else [])
         end.
Proof.
  intros Hwf names n.
  destruct (special_programs_returned s Hwf) as (sd & E & S & D).
  fold names in S, D. fold n in S, D.
  eexists sd, _. split; [exact E|]. split; [exact S|]. split; [reflexivity|].
  split; [apply (inject_Z_bounds _ 50 100); lia|].
  split; [|exact D].
  change 100 with (inject_Z 100). rewrite inject_Z_injective. lia.
Qed.

Lemma special_programs_count_and_text_witness :
  well_formed (with_programs 4) = true
  /\ exists sd,
       calculate_special_programs_score (with_programs 4) = Ok sd
       /\ score sd = Some 90
       /\ details sd = [ Text "Program, Program, Program"; Text ", +";
                         Shown (JNum 1); Text " more" ].
Proof.
  split; [reflexivity|].
  destruct (special_programs_count_and_text (with_programs 4) eq_refl)
    as (sd & x & E & S & X & _ & _ & D).
  exists sd. split; [exact E|]. split; [rewrite S, X|rewrite D]; reflexivity.
Defined.

(** ** Satisfaction *)

Lemma first_rating_elems (read : json -> option Q) (a : audience) (d : dict) :
  first_rating read a (JDict d)
  = match elems (child d "reviews_reputation") (reviews_key a) with
    | JDict r :: _ => read_field read r "overall_rating"
    | _ => None
    end.
Proof.
  unfold first_rating, elems, child. cbn [path].
  destruct (assoc "reviews_reputation" d) as [[]|]; cbn [assoc]; try reflexivity.
  destruct (assoc (reviews_key a) d0) as [[]|]; reflexivity.
Qed.

Lemma read_field_leaf (read : json -> option Q) (d : dict) (k : string) :
  read JNull = None -> read_field read d k = read (leaf d k).
Proof.
  intros H. unfold read_field, leaf. now destruct (assoc k d).
Qed.

Lemma satisfaction_formula (a : audience) (s : json) :
  well_formed s = true ->
  exists sd,
    satisfaction_score a s = Ok sd
    /\ score sd = option_map (fun q => round1 (q * 10)) (first_rating nonzero a s).
Proof.
  intros Hwf.
  destruct (well_formed_sections s Hwf) as (d & -> & _ & _ & _ & _ & _ & H).
  rewrite first_rating_elems.
  pose proof (child_ok _ _ _ H eq_refl) as Hr. unfold wf_reviews in Hr.
  apply andb_prop in Hr as [Hp Hs].
  assert (Hk : optional (child d "reviews_reputation") (reviews_key a)
                 (sequence (object wf_review)) = true) by (destruct a; assumption).
  destruct (get_elems _ _ _ Hk) as [Hg Hall].
  destruct a; cbn [reviews_key] in *;
    unfold satisfaction_score, calculate_parent_satisfaction_score,
      calculate_student_satisfaction_score;
    rewrite (get_child _ _ _ H); cbn [bind]; rewrite Hg; cbn [bind];
    (match goal with
     | |- context [elems ?x ?k] => destruct (elems x k) as [|r rest]
     end;
     [ cbn [truthy negb]; eexists; split; reflexivity | ]);
    cbn [truthy negb py_first bind];
    cbn [forallb] in Hall; apply andb_prop in Hall as [Hr _];
    (destruct r; cbn [object] in Hr; try discriminate Hr);
    unfold wf_review in Hr; apply andb_prop in Hr as [Hr Hv];
    apply andb_prop in Hr as [Ho Hw];
    rewrite get_leaf; cbn [bind];
    rewrite (read_field_leaf nonzero _ _ eq_refl);
    (destruct (number_cases _ (leaf_number _ _ Ho)) as [[To No]|(q & Eq0 & To & No)];
     rewrite To, No; cbn [negb option_map];
     [ eexists; split; reflexivity | ]);
    rewrite Eq0; cbn [py_times10 bind]; rewrite get_leaf; cbn [bind];
    [ destruct (number_cases _ (leaf_number _ _ Hw)) as [[Tx _]|(x & Ex & Tx & _)]
    | destruct (number_cases _ (leaf_number _ _ Hv)) as [[Tx _]|(x & Ex & Tx & _)] ];
    rewrite Tx; rewrite ?Ex; cbn [py_format1 py_round1 bind];
    (eexists; split; reflexivity).
Qed.

(** Rounding leaves the integers as they are. *)
Lemma nearest_even_integer (n : Z) : nearest_even (inject_Z n) = n.
Proof.
  unfold nearest_even. rewrite Qfloor_Z.
  assert (C : (inject_Z n - inject_Z n ?= 1 # 2) = (0 ?= 1 # 2)).
  { apply Qcompare_comp; [ring|reflexivity]. }
  now rewrite C.
Qed.

Lemma Qred_inject_Z (n : Z) : Qred (inject_Z n) = inject_Z n.
Proof.
  unfold Qred, inject_Z. cbn [Qnum Qden].
  pose proof (Z.ggcd_gcd n 1) as G.
  pose proof (Z.ggcd_correct_divisors n 1) as D.
  destruct (Z.ggcd n 1) as [g [a b]]. cbn [fst snd] in *.
  rewrite Z.gcd_1_r in G. subst g. destruct D as [Da Db].
  rewrite Z.mul_1_l in Da, Db. subst. reflexivity.
Qed.

Lemma round1_integer (x : Q) (n : Z) : x == inject_Z n -> round1 x = inject_Z n.
Proof.
  intros E. unfold round1.
  assert (T : x * 10 == inject_Z (n * 10)) by (rewrite inject_Z_mult, E; reflexivity).
  rewrite (nearest_even_comp _ _ T), nearest_even_integer.
  assert (R : inject_Z (n * 10) / 10 == inject_Z n) by (rewrite inject_Z_mult; field).
  rewrite (Qred_complete _ _ R). apply Qred_inject_Z.
Qed.

(** Only the first review counts.  On a well-formed record the parent
    (resp. student) satisfaction score is null exactly when the first review
    is missing or its overall rating is missing or zero; a rating of the 0-10
    scale with one decimal gives ten times the rating; and two records with
    the same first rating have the same score, whatever their later reviews
    say. *)
Theorem satisfaction_uses_first_review (a : audience) (s : json) :
  well_formed s = true ->
  exists sd,
    satisfaction_score a s = Ok sd
    /\ (score sd = None <-> first_rating nonzero a s = None)
    /\ (forall (q : Q) (tenths : Z),
          first_rating nonzero a s = Some q ->
          q * 10 == inject_Z tenths ->
          (0 <= tenths <= 100)%Z ->
          score sd = Some (inject_Z tenths))
    /\ (forall s' sd',
          well_formed s' = true ->
          first_rating nonzero a s' = first_rating nonzero a s ->
          satisfaction_score a s' = Ok sd' ->
          score sd' = score sd).
Proof.
  intros Hwf.
  destruct (satisfaction_formula a s Hwf) as (sd & E & S).
  exists sd. split; [exact E|]. split; [|split].
  - rewrite S. destruct (first_rating nonzero a s); cbn [option_map];
      split; intros X; try discriminate X; reflexivity.
  - intros q tenths Hq Ht _. rewrite S, Hq. cbn [option_map].
    f_equal. now apply round1_integer.
  - intros s' sd' Hwf' Hsame E'.
    destruct (satisfaction_formula a s' Hwf') as (sd'' & E'' & S'').
    rewrite E' in E''. injection E'' as <-.
    now rewrite S'', S, Hsame.
Qed.

Lemma satisfaction_uses_first_review_witness :
  well_formed
    (with_reviews Parents
       [ JDict [("overall_rating", JNum (73 # 10))]; JDict [("overall_rating", JNum 2)] ])
  = true
  /\ exists sd,
       satisfaction_score Parents
         (with_reviews Parents
            [ JDict [("overall_rating", JNum (73 # 10))];
              JDict [("overall_rating", JNum 2)] ]) = Ok sd
       /\ score sd = Some 73.
Proof.
  split; [reflexivity|].
  destruct (satisfaction_uses_first_review Parents
              (with_reviews Parents
                 [ JDict [("overall_rating", JNum (73 # 10))];
                   JDict [("overall_rating", JNum 2)] ]) eq_refl) as (sd & E & _ & T & _).
  exists sd. split; [exact E|].
  apply (T (73 # 10) 73%Z); [reflexivity|reflexivity|lia].
Defined.

(** ** Academic performance of a single level *)

Lemma single_level_scores (v : level_view) :
  spec_academic_score (Some v) None None = spec_academic_score None (Some v) None
  /\ spec_academic_score None (Some v) None = spec_academic_score None None (Some v).
Proof.
  unfold spec_academic_score.
  destruct v as [[r|] [a|] c];
    cbn [level_field rate average candidates seq_of map app];
    try (split; reflexivity);
    rewrite ?app_nil_r;
    split; f_equal; apply round1_comp;
    (apply Qmin_comp; [|reflexivity]);
    (apply Qplus_comp; [|reflexivity]);
    unfold Qsum; cbn [fold_left map fst snd]; field.
Qed.

Lemma one_level_well_formed (level : string) (numbers : dict) :
  In level ["vmbo"; "havo"; "vwo"] ->
  wf_level numbers = true ->
  well_formed (one_level level numbers) = true.
Proof.
  intros [<-|[<-|[<-|[]]]] H; cbn -[wf_level];
    unfold wf_academic, wf_exam_scores; cbn -[wf_level]; rewrite H; reflexivity.
Qed.

Lemma one_level_score (level : string) (numbers : dict) :
  In level ["vmbo"; "havo"; "vwo"] ->
  academic_by nonzero (one_level level numbers)
  = spec_academic_score
      (Some {| rate := read_field nonzero numbers "pass_rate_2024_2025";
               average := read_field nonzero numbers "average_pass_rate_5yr";
               candidates := read_field nonzero numbers "candidates_2024_2025" |})
      None None.
Proof.
  intros [<-|[<-|[<-|[]]]]; unfold academic_by, exam_scores_of, one_level, school_with;
    cbn [path assoc String.eqb Ascii.eqb Bool.eqb read_level].
  - reflexivity.
  - symmetry. apply single_level_scores.
  - symmetry. etransitivity; apply single_level_scores.
Qed.

(** The level weights play no part when a single level has exam data: the
    same numbers give the same academic score under [vmbo], [havo] or
    [vwo]. *)
Theorem single_level_weight_is_irrelevant (level1 level2 : string) (numbers : dict) :
  In level1 ["vmbo"; "havo"; "vwo"] ->
  In level2 ["vmbo"; "havo"; "vwo"] ->
  wf_level numbers = true ->
  exists sd1 sd2,
    calculate_academic_score (one_level level1 numbers) = Ok sd1
    /\ calculate_academic_score (one_level level2 numbers) = Ok sd2
    /\ score sd1 = score sd2.
Proof.
  intros H1 H2 Hn.
  pose proof (one_level_well_formed _ _ H1 Hn) as W1.
  pose proof (one_level_well_formed _ _ H2 Hn) as W2.
  destruct (well_formed_sections _ W1) as (d1 & E1 & _ & A1 & _).
  destruct (well_formed_sections _ W2) as (d2 & E2 & _ & A2 & _).
  destruct (academic_spec d1 A1) as (sd1 & R1 & S1 & _).
  destruct (academic_spec d2 A2) as (sd2 & R2 & S2 & _).
  rewrite <- E1 in R1, S1. rewrite <- E2 in R2, S2.
  exists sd1, sd2. repeat split; auto.
  now rewrite S1, S2, !one_level_score.
Qed.

Lemma single_level_weight_is_irrelevant_witness :
  In "vmbo" ["vmbo"; "havo"; "vwo"]
  /\ In "vwo" ["vmbo"; "havo"; "vwo"]
  /\ wf_level [ ("pass_rate_2024_2025", JNum 80); ("candidates_2024_2025", JNum 400) ] = true
  /\ exists sd1 sd2,
       calculate_academic_score
         (one_level "vmbo"
            [ ("pass_rate_2024_2025", JNum 80); ("candidates_2024_2025", JNum 400) ])
       = Ok sd1
       /\ calculate_academic_score only_vwo = Ok sd2
       /\ score sd1 = score sd2.
Proof.
  assert (I1 : In "vmbo" ["vmbo"; "havo"; "vwo"]) by (left; reflexivity).
  assert (I2 : In "vwo" ["vmbo"; "havo"; "vwo"]) by (right; right; left; reflexivity).
  split; [exact I1|]. split; [exact I2|]. split; [reflexivity|].
  exact (single_level_weight_is_irrelevant "vmbo" "vwo"
           [ ("pass_rate_2024_2025", JNum 80); ("candidates_2024_2025", JNum 400) ]
           I1 I2 eq_refl).
Defined.

(** ** Bounds of the composite score *)

Lemma contributing_in (scores : list (string * category_score))
  (weights : list (string * Q)) (x w : Q) :
  In (x, w) (contributing scores weights) ->
  exists c, In (c, w) weights /\ points_of scores c = Some x.
Proof.
  unfold contributing. intros H. apply in_flat_map in H as ([c w'] & Hin & Hx).
  cbn [fst snd] in Hx. destruct (points_of scores c) as [y|] eqn:E; [|contradiction].
  destruct Hx as [[= <- <-]|[]]. now exists c.
Qed.

Lemma weighted_sum_bounds (lo hi : Q) (l : list (Q * Q)) :
  Forall (fun xw => lo <= fst xw <= hi /\ 0 <= snd xw) l ->
  lo * Qsum (map snd l) <= Qsum (map (fun xw => fst xw * snd xw) l)
  /\ Qsum (map (fun xw => fst xw * snd xw) l) <= hi * Qsum (map snd l).
Proof.
  induction 1 as [|[x w] l [[Hlo Hhi] Hw] _ [IH1 IH2]]; cbn [map fst snd] in *.
  - rewrite Qsum_nil. split; lra.
  - rewrite !Qsum_cons.
    assert (A : lo * w <= x * w) by (now apply Qmult_le_compat_r).
    assert (B : x * w <= hi * w) by (now apply Qmult_le_compat_r).
    split; lra.
Qed.

Lemma weighted_average_bounds (scores : list (string * category_score))
  (weights : list (string * Q)) (lo hi : Q) :
  weights_nonneg weights = true ->
  (forall category x, points_of scores category = Some x -> lo <= x <= hi) ->
  0 < contributing_weight scores weights ->
  lo <= weighted_average scores weights <= hi.
Proof.
  intros Hw Hb P.
  assert (F : Forall (fun xw => lo <= fst xw <= hi /\ 0 <= snd xw)
                (contributing scores weights)).
  { apply Forall_forall. intros [x w] Hin.
    destruct (contributing_in _ _ _ _ Hin) as (cat & Hcat & Hx). cbn [fst snd].
    split; [now apply (Hb cat)|].
    unfold weights_nonneg in Hw. rewrite forallb_forall in Hw.
    apply Qle_bool_iff. exact (Hw _ Hcat). }
  destruct (weighted_sum_bounds lo hi _ F) as [B1 B2].
  fold (contributing_weight scores weights) in B1, B2.
  unfold weighted_average. split.
  - apply Qle_shift_div_l; [exact P|exact B1].
  - apply Qle_shift_div_r; [exact P|exact B2].
Qed.

(** A composite score that is not null is the rounded weighted average, and
    the contributing weight is positive. *)
Lemma composite_some (s : json) (weights : option (list (string * Q)))
  (preferences : option (list (string * string))) (r : composite) (c : Q) :
  calculate_composite_score s weights preferences = Ok r ->
  composite_score r = Some c ->
  0 < contributing_weight (category_scores r) (weights_used r)
  /\ c = round1 (weighted_average (category_scores r) (weights_used r)).
Proof.
  intros Hr Hc.
  destruct (composite_average _ _ _ _ Hr) as [T _].
  destruct (composite_inv _ _ _ _ Hr)
    as (a1 & a2 & a3 & a4 & a5 & a6 & a7 & a8 & _ & _ & _ & _ & _ & _ & _ & _
        & _ & Hu & Ht & Hcs).
  rewrite Hc in Hcs. cbn zeta in Hcs.
  destruct (Qlt_bool 0 (total_weight r)) eqn:P; [|discriminate Hcs].
  apply Qlt_bool_iff in P.
  set (ws := fst (fold_left (add_category (category_scores r))
                    (chosen_weights weights) (0, 0))) in *.
  destruct (negb (Qeq_bool (ws / total_weight r) 0)); [|discriminate Hcs].
  injection Hcs as ->.
  destruct (aggregate_spec (category_scores r) (chosen_weights weights) (0, 0))
    as [S1 _].
  cbn [fst] in S1. fold ws in S1. rewrite <- Hu in *.
  split; [now rewrite <- T|].
  apply round1_comp. unfold weighted_average. rewrite S1, T. field.
  intros Z. rewrite T, Z in P. now apply Qlt_irrefl in P.
Qed.

(** With weights that are not negative, a composite score that is not null
    lies between the bounds of the contributing category scores (rounded as
    the composite is). *)
Theorem composite_between_category_bounds (s : json)
  (weights : option (list (string * Q))) (preferences : option (list (string * string)))
  (r : composite) (lo hi c : Q) :
  calculate_composite_score s weights preferences = Ok r ->
  weights_nonneg (weights_used r) = true ->
  (forall category x,
     points_of (category_scores r) category = Some x -> lo <= x <= hi) ->
  composite_score r = Some c ->
  round1 lo <= c <= round1 hi.
Proof.
  intros Hr Hw Hb Hc.
  destruct (composite_some _ _ _ _ _ Hr Hc) as [P ->].
  destruct (weighted_average_bounds _ _ lo hi Hw Hb P) as [B1 B2].
  split; now apply round1_monotone.
Qed.

Lemma composite_between_category_bounds_witness :
  exists r,
    calculate_composite_score no_parent_reviews None None = Ok r
    /\ weights_nonneg (weights_used r) = true
    /\ (forall category x,
          points_of (category_scores r) category = Some x -> 50 <= x <= 100)
    /\ composite_score r = Some (779 # 10)
    /\ round1 50 <= 779 # 10 <= round1 100.
Proof.
  eexists. split; [vm_compute; reflexivity|].
  assert (B : forall category x,
            points_of
              (category_scores
                 {| composite_score := Some (779 # 10);
                    category_scores :=
                      [ ("academic_performance",
                          {| score := Some 84;
                             details := [ Fixed1 80; Text "% pass rate, ";
                                          Shown (JNum 400); Text " candidates" ] |});
                        ("proximity",
                          {| score := Some 90;
                             details := [ Shown (JNum 10); Text " mins by ";
                                          Text "bike" ] |});
                        ("parent_satisfaction", no_data "No parent reviews");
                        ("student_satisfaction",
                          {| score := Some 80;
                             details := [ Fixed1 8; Text "/10 rating" ] |});
                        ("facilities",
                          {| score := Some 50; details := [Text "Basic facilities"] |});
                        ("school_size",
                          {| score := Some 100;
                             details := [ Shown (JNum 800); Text " students (";
                                          Text "medium"; Text ")" ] |});
                        ("extracurriculars",
                          {| score := Some 50;
                             details := [Text "No data on activities"] |});
                        ("special_programs",
                          {| score := Some 50;
                             details := [Text "No special programs listed"] |}) ];
                    weights_used := DEFAULT_WEIGHTS;
                    total_weight := 85 |}) category = Some x ->
            50 <= x <= 100).
  { intros category x. unfold points_of. cbn [category_scores assoc].
    repeat match goal with
           | |- context [String.eqb category ?k] =>
               destruct (String.eqb category k);
               [cbn [score]; intros [= <-]; split; discriminate|]
           end.
    discriminate. }
  split; [reflexivity|]. split; [exact B|]. split; [reflexivity|].
  exact (composite_between_category_bounds no_parent_reviews None None _ 50 100
           (779 # 10) eq_refl eq_refl B eq_refl).
Defined.

(** ** Every score is between 0 and 100 *)

Lemma Qsum_nonneg (l : list Q) : Forall (Qle 0) l -> 0 <= Qsum l.
Proof.
  induction 1 as [|x l Hx _ IH]; [rewrite Qsum_nil; lra|].
  rewrite Qsum_cons. lra.
Qed.

Lemma Qdiv_nonneg (a b : Q) : 0 <= a -> 0 <= b -> 0 <= a / b.
Proof.
  intros Ha Hb. unfold Qdiv. apply Qmult_le_0_compat; [exact Ha|].
  now apply Qinv_le_0_compat.
Qed.

Lemma mean_nonneg (l : list Q) : Forall (Qle 0) l -> 0 <= mean l.
Proof.
  intros H. unfold mean. apply Qdiv_nonneg; [now apply Qsum_nonneg|].
  change 0 with (inject_Z 0). rewrite <- Zle_Qle. lia.
Qed.

Lemma round1_within (x lo hi : Q) :
  lo <= x <= hi -> round1 lo <= round1 x <= round1 hi.
Proof.
  intros [L H]. split; now apply round1_monotone.
Qed.

(** The academic formula stays between 0 and 100 on numbers that are not
    negative. *)
Lemma spec_academic_bounds (v1 v2 v3 : option level_view) (x : Q) :
  Forall (Qle 0) (level_field rate v1 ++ level_field rate v2 ++ level_field rate v3) ->
  Forall (Qle 0)
    (level_field average v1 ++ level_field average v2 ++ level_field average v3) ->
  Forall (Qle 0)
    (level_field candidates v1 ++ level_field candidates v2
       ++ level_field candidates v3) ->
  spec_academic_score v1 v2 v3 = Some x ->
  0 <= x <= 100.
Proof.
  intros HR HA HC. unfold spec_academic_score.
  set (R := map (fun r => (r, 7 # 10)) (level_field rate v1)
            ++ map (fun r => (r, 1)) (level_field rate v2)
            ++ map (fun r => (r, 3 # 2)) (level_field rate v3)).
  assert (FR : Forall (fun rw => 0 <= fst rw /\ 0 <= snd rw) R).
  { apply Forall_app in HR as [H1 HR]. apply Forall_app in HR as [H2 H3].
    subst R. repeat (apply Forall_app; split);
      apply Forall_map; eapply Forall_impl; try eassumption;
      cbn [fst snd]; intros r Hr; split; try exact Hr; discriminate. }
  clearbody R.
  set (A := level_field average v1 ++ level_field average v2
            ++ level_field average v3) in *.
  set (C := level_field candidates v1 ++ level_field candidates v2
            ++ level_field candidates v3) in *.
  clearbody A C.
  destruct R as [|rw R]; [discriminate|].
  intros [= <-].
  change 0 with (round1 0). change 100 with (round1 100).
  apply round1_within.
  set (current := Qsum (map (fun rw0 => fst rw0 * snd rw0) (rw :: R))
                  / Qsum (map snd (rw :: R))).
  assert (Hcur : 0 <= current).
  { apply Qdiv_nonneg; apply Qsum_nonneg; apply Forall_map;
      (eapply Forall_impl; [|exact FR]); cbn beta; intros [r w] [Hr Hw];
      cbn [fst snd] in *; [now apply Qmult_le_0_compat|exact Hw]. }
  assert (Hfin : 0 <= match A with
                      | [] => current
                      | _ :: _ => (7 # 10) * current + (3 # 10) * mean A
                      end).
  { destruct A as [|a A]; [exact Hcur|].
    pose proof (mean_nonneg _ HA). lra. }
  assert (Hbonus : 0 <= Qmin (Qsum C / 500 * 5) 5).
  { apply Q.min_glb; [|discriminate].
    pose proof (Qsum_nonneg _ HC) as S.
    assert (Y : 0 <= Qsum C / 500) by (apply Qdiv_nonneg; [exact S|discriminate]).
    set (y := Qsum C / 500) in *. clearbody y. lra. }
  split.
  - apply Q.min_glb; [|discriminate].
    rewrite <- (Qplus_0_r 0). now apply Qplus_le_compat.
  - apply Q.le_min_r.
Qed.

Lemma spec_proximity_bounds (m : Q) :
  0 <= m -> 0 <= spec_proximity_points m <= 100.
Proof.
  intros H. unfold spec_proximity_points.
  destruct (Qle_bool m 10) eqn:A; [apply Qle_bool_iff in A; split; lra|].
  apply Qle_bool_false in A.
  destruct (Qle_bool m 30) eqn:B; [apply Qle_bool_iff in B; split; lra|].
  apply Qle_bool_false in B. split.
  - apply Q.le_max_r.
  - apply Q.max_lub; lra.
Qed.

Lemma size_table_bounds (p : preference) (b : bucket) : 30 <= size_table p b <= 100.
Proof.
  destruct p, b; split; discriminate.
Qed.

Lemma recorded_nonzero (v : json) (q : Q) : nonzero v = Some q -> recorded v = Some q.
Proof.
  destruct v; cbn [nonzero recorded]; try discriminate.
  destruct (Qeq_bool q0 0); [discriminate|auto].
Qed.

Lemma read_at_recorded_nonzero (s : json) (keys : list string) (q : Q) :
  read_at nonzero s keys = Some q -> read_at recorded s keys = Some q.
Proof.
  unfold read_at. destruct (path s keys); [apply recorded_nonzero|discriminate].
Qed.

Lemma nonneg_at_nonzero (s : json) (keys : list string) (q : Q) :
  nonneg_at s keys = true -> read_at nonzero s keys = Some q -> 0 <= q.
Proof.
  unfold nonneg_at. intros H E. rewrite (read_at_recorded_nonzero _ _ _ E) in H.
  now apply Qle_bool_iff.
Qed.

(** The numbers of one level, in a record whose numbers are in range. *)
Lemma level_field_nonneg (d : dict) (level k : string) (f : level_view -> option Q) :
  (forall e, f {| rate := read_field nonzero e "pass_rate_2024_2025";
                  average := read_field nonzero e "average_pass_rate_5yr";
                  candidates := read_field nonzero e "candidates_2024_2025" |}
             = read_field nonzero e k) ->
  nonneg_at (JDict d) ["academic_performance"; "exam_scores"; level; k] = true ->
  Forall (Qle 0) (level_field f (read_level nonzero (exam_scores_of (JDict d)) level)).
Proof.
  intros Hf H. unfold read_level.
  destruct (assoc level (exam_scores_of (JDict d))) as [[]|] eqn:E;
    cbn [level_field]; try constructor.
  rewrite Hf.
  destruct (read_field nonzero d0 k) as [q|] eqn:Eq0; cbn [seq_of]; constructor;
    [|constructor].
  apply (nonneg_at_nonzero _ _ _ H).
  unfold read_at, read_field in *. unfold exam_scores_of in E. cbn [path] in *.
  destruct (assoc "academic_performance" d) as [[]|]; cbn [assoc] in E;
    try discriminate E.
  destruct (assoc "exam_scores" d1) as [[]|]; cbn [assoc] in E; try discriminate E.
  rewrite E. destruct (assoc k d0); [exact Eq0|discriminate Eq0].
Qed.

Lemma in_range_parts (s : json) :
  in_range s = true ->
  (forall level k,
     In level ["vmbo"; "havo"; "vwo"] ->
     In k ["pass_rate_2024_2025"; "average_pass_rate_5yr"; "candidates_2024_2025"] ->
     nonneg_at s ["academic_performance"; "exam_scores"; level; k] = true)
  /\ nonneg_at s ["location"; "bike_accessibility"; "duration_minutes"] = true
  /\ nonneg_at s ["location"; "public_transport"; "commute_from_home"; "duration_minutes"]
     = true
  /\ (forall a, rating_in_range a s = true).
Proof.
  unfold in_range. intros H.
  do 4 (apply andb_prop in H as [H ?]).
  split; [|split; [assumption|split; [assumption|intros []; assumption]]].
  intros level k Hl Hk. rewrite forallb_forall in H.
  specialize (H level Hl). rewrite forallb_forall in H. exact (H k Hk).
Qed.

Lemma academic_in_range (d : dict) (x : Q) :
  in_range (JDict d) = true ->
  academic_by nonzero (JDict d) = Some x -> 0 <= x <= 100.
Proof.
  intros H. destruct (in_range_parts _ H) as (Hn & _).
  unfold academic_by.
  assert (K : forall k f,
            In k ["pass_rate_2024_2025"; "average_pass_rate_5yr"; "candidates_2024_2025"] ->
            (forall e, f {| rate := read_field nonzero e "pass_rate_2024_2025";
                            average := read_field nonzero e "average_pass_rate_5yr";
                            candidates := read_field nonzero e "candidates_2024_2025" |}
                       = read_field nonzero e k) ->
            Forall (Qle 0)
              (level_field f (read_level nonzero (exam_scores_of (JDict d)) "vmbo")
               ++ level_field f (read_level nonzero (exam_scores_of (JDict d)) "havo")
               ++ level_field f (read_level nonzero (exam_scores_of (JDict d)) "vwo"))).
  { intros k f Hk Hf.
    repeat (apply Forall_app; split);
      apply (level_field_nonneg d _ k f Hf); apply Hn; cbn; auto. }
  apply spec_academic_bounds.
  - apply (K "pass_rate_2024_2025"); [cbn; auto|reflexivity].
  - apply (K "average_pass_rate_5yr"); [cbn; auto|reflexivity].
  - apply (K "candidates_2024_2025"); [cbn; auto|reflexivity].
Qed.

Lemma proximity_in_range (s : json) (x : Q) :
  in_range s = true -> proximity_by nonzero s = Some x -> 0 <= x <= 100.
Proof.
  intros H. destruct (in_range_parts _ H) as (_ & Hb & Ht & _).
  unfold proximity_by, primary_minutes.
  destruct (read_at nonzero s ["location"; "bike_accessibility"; "duration_minutes"])
    as [m|] eqn:Eb.
  - cbn [option_map]. intros [= <-].
    change 0 with (round1 0). change 100 with (round1 100).
    apply round1_within, spec_proximity_bounds, (nonneg_at_nonzero _ _ _ Hb Eb).
  - destruct (read_at nonzero s
                ["location"; "public_transport"; "commute_from_home"; "duration_minutes"])
      as [m|] eqn:Et; cbn [option_map]; [|discriminate].
    intros [= <-].
    change 0 with (round1 0). change 100 with (round1 100).
    apply round1_within, spec_proximity_bounds, (nonneg_at_nonzero _ _ _ Ht Et).
Qed.

Lemma first_rating_recorded (a : audience) (s : json) (q : Q) :
  first_rating nonzero a s = Some q -> first_rating recorded a s = Some q.
Proof.
  unfold first_rating, read_field.
  destruct (path s ["reviews_reputation"; reviews_key a]) as [[| | | |[|[] rest]|]|];
    try discriminate.
  destruct (assoc "overall_rating" d); [apply recorded_nonzero|discriminate].
Qed.

Lemma satisfaction_in_range (a : audience) (s : json) (x : Q) :
  in_range s = true ->
  option_map (fun q => round1 (q * 10)) (first_rating nonzero a s) = Some x ->
  0 <= x <= 100.
Proof.
  intros H. destruct (in_range_parts _ H) as (_ & _ & _ & Hr).
  specialize (Hr a). unfold rating_in_range in Hr.
  destruct (first_rating nonzero a s) as [q|] eqn:E; cbn [option_map]; [|discriminate].
  rewrite (first_rating_recorded _ _ _ E) in Hr.
  apply andb_prop in Hr as [L U]. apply Qle_bool_iff in L, U.
  intros [= <-].
  change 0 with (round1 0). change 100 with (round1 100).
  apply round1_within. split; lra.
Qed.

Lemma zero_to_hundred (lo x : Q) : 0 <= lo -> lo <= x <= 100 -> 0 <= x <= 100.
Proof.
  intros H [L U]. split; [now apply Qle_trans with lo|exact U].
Qed.

(** From [Some t = Some x], replace [x] by [t] as it is written. *)
Ltac some_eq X :=
  match type of X with
  | Some ?t = Some ?x =>
      let E := fresh "E" in
      assert (E : t = x) by congruence; rewrite <- E; clear E X
  end.

(** On a well-formed record whose numbers are in the ranges of the data
    model, every category score that is not null lies between 0 and 100, and
    so does, under weights that are not negative, a composite score that is
    not null. *)
Theorem scores_within_0_100 (s : json)
  (weights : option (list (string * Q))) (preferences : option (list (string * string))) :
  well_formed s = true ->
  in_range s = true ->
  exists r,
    calculate_composite_score s weights preferences = Ok r
    /\ (forall category x,
          points_of (category_scores r) category = Some x -> 0 <= x <= 100)
    /\ (weights_nonneg (weights_used r) = true ->
        forall c, composite_score r = Some c -> 0 <= c <= 100).
Proof.
  intros Hwf Hin.
  destruct (composite_total s weights preferences Hwf) as [r Hr].
  exists r. split; [exact Hr|].
  assert (B : forall category x,
            points_of (category_scores r) category = Some x -> 0 <= x <= 100).
  { destruct (composite_inv _ _ _ _ Hr)
      as (a1 & a2 & a3 & a4 & a5 & a6 & a7 & a8 & E1 & E2 & E3 & E4 & E5 & E6 & E7 & E8
          & Hs & _).
    destruct (well_formed_sections s Hwf) as (d & -> & Hb & Ha & Hl & _).
    destruct (academic_spec d Ha) as (b1 & F1 & S1 & _).
    destruct (proximity_spec d Hl) as (b2 & F2 & S2 & _).
    destruct (satisfaction_formula Parents _ Hwf) as (b3 & F3 & S3).
    destruct (satisfaction_formula Students _ Hwf) as (b4 & F4 & S4).
    destruct (facilities_points_returned _ Hwf) as (b5 & F5 & S5 & B5).
    destruct (size_spec d (chosen_size preferences) Hb) as (b6 & F6 & S6 & _).
    destruct (extracurriculars_points_returned _ Hwf) as (b7 & F7 & S7 & _).
    destruct (special_programs_returned _ Hwf) as (b8 & F8 & S8 & _).
    cbn [satisfaction_score] in F3, F4.
    rewrite E1 in F1. rewrite E2 in F2. rewrite E3 in F3. rewrite E4 in F4.
    rewrite E5 in F5. rewrite E6 in F6. rewrite E7 in F7. rewrite E8 in F8.
    injection F1 as <-. injection F2 as <-. injection F3 as <-. injection F4 as <-.
    injection F5 as <-. injection F6 as <-. injection F7 as <-. injection F8 as <-.
    intros category x. unfold points_of. rewrite Hs. cbn [assoc].
    destruct (String.eqb category "academic_performance").
    { rewrite S1. now apply academic_in_range. }
    destruct (String.eqb category "proximity").
    { rewrite S2. now apply proximity_in_range. }
    destruct (String.eqb category "parent_satisfaction").
    { rewrite S3. now apply satisfaction_in_range. }
    destruct (String.eqb category "student_satisfaction").
    { rewrite S4. now apply satisfaction_in_range. }
    destruct (String.eqb category "facilities").
    { rewrite S5. intros X. some_eq X. apply (zero_to_hundred 50); [discriminate|].
      now apply (inject_Z_bounds _ 50 100). }
    destruct (String.eqb category "school_size").
    { rewrite S6.
      destruct (read_at nonzero (JDict d) ["basic_info"; "enrollment"; "total"]);
        cbn [option_map]; [|discriminate].
      intros [= <-]. rewrite size_points_table.
      apply (zero_to_hundred 30); [discriminate|apply size_table_bounds]. }
    destruct (String.eqb category "extracurriculars").
    { rewrite S7. intros X. some_eq X. apply (zero_to_hundred 50); [discriminate|].
      apply (inject_Z_bounds _ 50 100). lia. }
    destruct (String.eqb category "special_programs"); [|discriminate].
    rewrite S8. intros X. some_eq X. apply (zero_to_hundred 50); [discriminate|].
    apply (inject_Z_bounds _ 50 100). lia. }
  split; [exact B|].
  intros Hw c Hc.
  destruct (composite_some _ _ _ _ _ Hr Hc) as [P ->].
  change 0 with (round1 0). change 100 with (round1 100).
  apply round1_within. now apply weighted_average_bounds.
Qed.

Lemma scores_within_0_100_witness :
  well_formed no_parent_reviews = true
  /\ in_range no_parent_reviews = true
  /\ exists r,
       calculate_composite_score no_parent_reviews None None = Ok r
       /\ composite_score r = Some (779 # 10)
       /\ 0 <= 779 # 10 <= 100.
Proof.
  split; [reflexivity|]. split; [reflexivity|].
  destruct (scores_within_0_100 no_parent_reviews None None eq_refl eq_refl)
    as (r & Hr & _ & C).
  exists r. split; [exact Hr|].
  assert (S : composite_score r = Some (779 # 10))
    by (vm_compute in Hr; now injection Hr as <-).
  split; [exact S|]. apply C; [|exact S].
  vm_compute in Hr. now injection Hr as <-.
Defined.

(** ** The composite score under changes of the weights *)

(** The scorers do not look at the weights: when the aggregator returns for
    some weights it returns for any others, with the same category scores. *)
Lemma composite_with_other_weights (s : json)
  (weights weights' : option (list (string * Q)))
  (preferences : option (list (string * string))) (r : composite) :
  calculate_composite_score s weights preferences = Ok r ->
  exists r',
    calculate_composite_score s weights' preferences = Ok r'
    /\ category_scores r' = category_scores r.
Proof.
  intros Hr.
  destruct (composite_inv _ _ _ _ Hr)
    as (a1 & a2 & a3 & a4 & a5 & a6 & a7 & a8 & E1 & E2 & E3 & E4 & E5 & E6 & E7 & E8
        & Hs & _).
  unfold calculate_composite_score. fold (chosen_size preferences).
  rewrite E1, E2, E3, E4, E5, E6, E7, E8. cbn [bind].
  match goal with
  | |- context [fold_left ?f ?w ?a] => destruct (fold_left f w a) as [ws tw]
  end.
  eexists. split; [reflexivity|]. cbn [category_scores]. now rewrite Hs.
Qed.

(** The composite score depends on the weights only through the two sums
    over the contributing categories. *)
Lemma composite_from_sums (s : json) (w w' : list (string * Q))
  (preferences : option (list (string * string))) (r : composite) :
  calculate_composite_score s (Some w) preferences = Ok r ->
  Qsum (map (fun xw => fst xw * snd xw) (contributing (category_scores r) w'))
  == Qsum (map (fun xw => fst xw * snd xw) (contributing (category_scores r) w)) ->
  Qsum (map snd (contributing (category_scores r) w'))
  == Qsum (map snd (contributing (category_scores r) w)) ->
  exists r',
    calculate_composite_score s (Some w') preferences = Ok r'
    /\ category_scores r' = category_scores r
    /\ total_weight r' == total_weight r
    /\ composite_score r' = composite_score r.
Proof.
  intros Hr K1 K2.
  destruct (composite_with_other_weights s (Some w) (Some w') preferences r Hr)
    as (r' & Hr' & Hs').
  exists r'. split; [exact Hr'|]. split; [exact Hs'|].
  destruct (composite_inv _ _ _ _ Hr) as (? & ? & ? & ? & ? & ? & ? & ? & _ & _ & _ & _
    & _ & _ & _ & _ & _ & _ & Ht & Hc).
  destruct (composite_inv _ _ _ _ Hr') as (? & ? & ? & ? & ? & ? & ? & ? & _ & _ & _ & _
    & _ & _ & _ & _ & _ & _ & Ht' & Hc').
  cbn [chosen_weights] in *. rewrite Hs' in *.
  destruct (aggregate_spec (category_scores r) w (0, 0)) as [S1 S2].
  destruct (aggregate_spec (category_scores r) w' (0, 0)) as [S1' S2'].
  cbn [fst snd] in S1, S2, S1', S2'.
  rewrite <- Ht in S2. rewrite <- Ht' in S2'.
  set (ws := fst (fold_left (add_category (category_scores r)) w (0, 0))) in *.
  set (ws' := fst (fold_left (add_category (category_scores r)) w' (0, 0))) in *.
  assert (T : total_weight r' == total_weight r).
  { rewrite S2', S2, K2. reflexivity. }
  assert (W : ws' == ws).
  { rewrite S1', S1, K1. reflexivity. }
  split; [exact T|].
  rewrite Hc, Hc'. cbn zeta.
  assert (A : ws' / total_weight r' == ws / total_weight r).
  { now rewrite W, T. }
  destruct (Qlt_bool 0 (total_weight r)) eqn:P.
  - apply Qlt_bool_iff in P.
    assert (P' : Qlt_bool 0 (total_weight r') = true).
    { apply Qlt_bool_iff. now rewrite T. }
    rewrite P'.
    rewrite (round1_comp _ _ A).
    replace (Qeq_bool (ws' / total_weight r') 0)
      with (Qeq_bool (ws / total_weight r) 0); [reflexivity|].
    destruct (Qeq_bool (ws / total_weight r) 0) eqn:Z; symmetry.
    + apply Qeq_bool_iff. rewrite A. now apply Qeq_bool_iff.
    + destruct (Qeq_bool (ws' / total_weight r') 0) eqn:Z'; [|reflexivity].
      apply Qeq_bool_iff in Z'. rewrite A in Z'. apply Qeq_bool_iff in Z'. congruence.
  - apply Qlt_bool_false in P.
    assert (P' : Qlt_bool 0 (total_weight r') = false).
    { apply Qlt_bool_false. now rewrite T. }
    now rewrite P'.
Qed.

Lemma Qsum_app' (l1 l2 : list Q) : Qsum (l1 ++ l2) == Qsum l1 + Qsum l2.
Proof.
  induction l1 as [|x l1 IH]; cbn [app].
  - rewrite Qsum_nil. ring.
  - rewrite !Qsum_cons, IH. ring.
Qed.

Lemma unknown_category_unscored (s : json) (weights : option (list (string * Q)))
  (preferences : option (list (string * string))) (r : composite) (c : string) :
  calculate_composite_score s weights preferences = Ok r ->
  existsb (String.eqb c) category_names = false ->
  points_of (category_scores r) c = None.
Proof.
  intros Hr H.
  destruct (composite_inv _ _ _ _ Hr) as (? & ? & ? & ? & ? & ? & ? & ? & _ & _ & _ & _
    & _ & _ & _ & _ & Hs & _).
  unfold points_of. rewrite Hs. cbn [existsb category_names] in H.
  repeat (apply orb_false_elim in H as [? H]).
  cbn [assoc].
  repeat match goal with
         | E : String.eqb c ?k = false |- _ => rewrite E; clear E
         end.
  reflexivity.
Qed.

Lemma sums_of_counting_entries (scores : list (string * category_score))
  (w : list (string * Q)) :
  (forall c, existsb (String.eqb c) category_names = false -> points_of scores c = None) ->
  Qsum (map (fun xw => fst xw * snd xw) (contributing scores (filter counts w)))
  == Qsum (map (fun xw => fst xw * snd xw) (contributing scores w))
  /\ Qsum (map snd (contributing scores (filter counts w)))
     == Qsum (map snd (contributing scores w)).
Proof.
  intros Hu. unfold contributing.
  induction w as [|[c x] w [IH1 IH2]]; cbn [filter flat_map]; [split; reflexivity|].
  destruct (counts (c, x)) eqn:Ecx; cbn [flat_map fst snd].
  - rewrite !map_app. split; rewrite !Qsum_app'; [rewrite IH1|rewrite IH2];
      reflexivity.
  - unfold counts in Ecx. cbn [fst snd] in Ecx.
    apply andb_false_iff in Ecx as [Ec|Ex].
    + rewrite (Hu c Ec). cbn [app]. split; assumption.
    + apply negb_false_iff, Qeq_bool_iff in Ex.
      destruct (points_of scores c) as [y|]; cbn [app map fst snd];
        [|split; assumption].
      split; rewrite Qsum_cons; [rewrite IH1|rewrite IH2]; rewrite Ex; ring.
Qed.

(** Entries of the weights that name no category, and entries of weight
    zero, are ignored: without them the composite score and the total weight
    are the same. *)
Theorem composite_ignores_idle_entries (s : json) (w : list (string * Q))
  (preferences : option (list (string * string))) (r : composite) :
  calculate_composite_score s (Some w) preferences = Ok r ->
  exists r',
    calculate_composite_score s (Some (filter counts w)) preferences = Ok r'
    /\ composite_score r' = composite_score r
    /\ total_weight r' == total_weight r
    /\ category_scores r' = category_scores r.
Proof.
  intros Hr.
  destruct (sums_of_counting_entries (category_scores r) w
              (fun c => unknown_category_unscored s (Some w) preferences r c Hr))
    as [K1 K2].
  destruct (composite_from_sums s w (filter counts w) preferences r Hr K1 K2)
    as (r' & E & Hs & T & C).
  exists r'. auto.
Qed.

Lemma composite_ignores_idle_entries_witness :
  exists r,
    calculate_composite_score no_parent_reviews
      (Some (("reputation", 40) :: ("facilities", 0) :: by_proximity_list)) None = Ok r
    /\ filter counts (("reputation", 40) :: ("facilities", 0) :: by_proximity_list)
       = by_proximity_list
    /\ exists r',
         calculate_composite_score no_parent_reviews (Some by_proximity_list) None = Ok r'
         /\ composite_score r' = Some 90
         /\ composite_score r = Some 90.
Proof.
  eexists. split; [vm_compute; reflexivity|]. split; [reflexivity|].
  destruct (composite_ignores_idle_entries no_parent_reviews
              (("reputation", 40) :: ("facilities", 0) :: by_proximity_list) None _ eq_refl)
    as (r' & E & C & _).
  exists r'. split; [exact E|]. split; [exact C|reflexivity].
Defined.

(** * Further properties of the filters *)

Lemma lower_ascii_idempotent (c : ascii) : lower_ascii (lower_ascii c) = lower_ascii c.
Proof.
  destruct c as [[] [] [] [] [] [] [] []]; reflexivity.
Qed.

Lemma lower_idempotent (s : string) : lower (lower s) = lower s.
Proof.
  induction s as [|c s IH]; cbn [lower]; [reflexivity|].
  now rewrite lower_ascii_idempotent, IH.
Qed.

Lemma lower_eqb_empty (s : string) : String.eqb (lower s) "" = String.eqb s "".
Proof.
  destruct s; reflexivity.
Qed.

(** The city and the religious-affiliation filters do not look at the case
    of the value asked for: on any record, the lower-cased value gives the
    same verdict, or the same exception. *)
Theorem text_filters_ignore_case (s : json) (wanted : string) :
  _passes_filters s (only_city (lower wanted)) = _passes_filters s (only_city wanted)
  /\ _passes_filters s (only_religion (lower wanted))
     = _passes_filters s (only_religion wanted).
Proof.
  unfold _passes_filters, only_city, only_religion, type_filter_ok, religion_filter_ok,
    commute_filter_ok, city_filter_ok.
  cbn [school_type religious_affiliation max_commute_minutes city bind negb].
  rewrite lower_eqb_empty, lower_idempotent. split; reflexivity.
Qed.

(** ** The four filters one by one *)

Lemma single_filter_verdicts (s : json) (f : filters) (b1 b2 b3 b4 : bool) :
  type_filter_ok s f = Ok b1 ->
  religion_filter_ok s f = Ok b2 ->
  commute_filter_ok s f = Ok b3 ->
  city_filter_ok s f = Ok b4 ->
  _passes_filters s (type_part f) = Ok b1
  /\ _passes_filters s (religion_part f) = Ok b2
  /\ _passes_filters s (commute_part f) = Ok b3
  /\ _passes_filters s (city_part f) = Ok b4
  /\ _passes_filters s f = Ok (b1 && b2 && b3 && b4).
Proof.
  intros E1 E2 E3 E4.
  unfold _passes_filters.
  change (type_filter_ok s (type_part f)) with (type_filter_ok s f).
  change (religion_filter_ok s (religion_part f)) with (religion_filter_ok s f).
  change (commute_filter_ok s (commute_part f)) with (commute_filter_ok s f).
  change (city_filter_ok s (city_part f)) with (city_filter_ok s f).
  rewrite E1, E2, E3, E4.
  destruct b1, b2, b3, b4; repeat split.
Qed.

(** On a well-formed school the filters act as a conjunction: the school
    passes exactly when it passes each key of the filters taken alone. *)
Theorem filters_are_a_conjunction (s : json) (f : filters) :
  well_formed s = true ->
  exists b1 b2 b3 b4,
    _passes_filters s (type_part f) = Ok b1
    /\ _passes_filters s (religion_part f) = Ok b2
    /\ _passes_filters s (commute_part f) = Ok b3
    /\ _passes_filters s (city_part f) = Ok b4
    /\ _passes_filters s f = Ok (b1 && b2 && b3 && b4).
Proof.
  intros H.
  destruct (well_formed_sections s H) as (d & -> & Hb & _ & Hl & _).
  destruct (type_filter_total d f Hb) as [b1 E1].
  destruct (religion_filter_total d f Hb) as [b2 E2].
  destruct (commute_filter_total d f Hl) as [b3 E3].
  destruct (city_filter_total d f Hb) as [b4 E4].
  exists b1, b2, b3, b4. now apply single_filter_verdicts.
Qed.

Lemma filters_are_a_conjunction_witness :
  well_formed no_parent_reviews = true
  /\ _passes_filters no_parent_reviews
       (mkFilters (Some ["VWO"]) None (Some 5) (Some "amsterdam")) = Ok false
  /\ _passes_filters no_parent_reviews (only_commute 5) = Ok false
  /\ _passes_filters no_parent_reviews (only_city "amsterdam") = Ok true.
Proof.
  split; [reflexivity|].
  destruct (filters_are_a_conjunction no_parent_reviews
              (mkFilters (Some ["VWO"]) None (Some 5) (Some "amsterdam")) eq_refl)
    as (b1 & b2 & b3 & b4 & E1 & E2 & E3 & E4 & E).
  vm_compute in E1, E2, E3, E4.
  injection E1 as <-. injection E2 as <-. injection E3 as <-. injection E4 as <-.
  split; [exact E|]. split; reflexivity.
Defined.

(** ** The commute filter *)

Lemma Qle_bool_not_lt (a b : Q) : negb (Qlt_bool b a) = Qle_bool a b.
Proof.
  unfold Qlt_bool. apply negb_involutive.
Qed.

(** On a well-formed school the commute filter compares the bike duration,
    when one is recorded and is not zero, with the limit, which is inclusive;
    any other school passes. *)
Theorem commute_filter_threshold (s : json) (limit : Q) :
  well_formed s = true ->
  _passes_filters s (only_commute limit)
  = Ok match read_at nonzero s ["location"; "bike_accessibility"; "duration_minutes"] with
       | Some m => Qle_bool m limit
       | None => true
       end.
Proof.
  intros H.
  destruct (well_formed_sections s H) as (d & -> & _ & _ & Hl & _).
  rewrite read_at_leaf3 by reflexivity.
  unfold _passes_filters, only_commute, type_filter_ok, religion_filter_ok,
    commute_filter_ok, city_filter_ok.
  cbn [school_type religious_affiliation max_commute_minutes city bind negb].
  rewrite (get_child _ _ _ Hl). cbn [bind].
  pose proof (child_ok _ _ _ Hl eq_refl) as Hl'. unfold wf_location in Hl'.
  apply andb_prop in Hl' as [Hb _].
  rewrite (get_child _ _ _ Hb). cbn [bind]. rewrite get_leaf. cbn [bind].
  pose proof (child_ok _ _ _ Hb eq_refl) as Hb'.
  destruct (number_cases _ (leaf_number _ _ Hb')) as [[T N]|(q & E & T & N)];
    rewrite T, N; [reflexivity|].
  rewrite E. cbn [as_num bind]. rewrite Qle_bool_not_lt.
  now destruct (Qle_bool q limit).
Qed.

Lemma commute_filter_threshold_witness :
  well_formed (with_bike 20) = true
  /\ _passes_filters (with_bike 20) (only_commute 20) = Ok true
  /\ _passes_filters (with_bike 20) (only_commute (199 # 10)) = Ok false.
Proof.
  split; [reflexivity|].
  split; [exact (commute_filter_threshold (with_bike 20) 20 eq_refl)|].
  exact (commute_filter_threshold (with_bike 20) (199 # 10) eq_refl).
Defined.

(** A larger limit lets through every school that a smaller one lets
    through, on any record. *)
Theorem commute_filter_monotone (s : json) (limit limit' : Q) :
  _passes_filters s (only_commute limit) = Ok true ->
  limit <= limit' ->
  _passes_filters s (only_commute limit') = Ok true.
Proof.
  unfold _passes_filters, only_commute, type_filter_ok, religion_filter_ok,
    commute_filter_ok, city_filter_ok.
  cbn [school_type religious_affiliation max_commute_minutes city bind negb].
  intros H L.
  destruct (py_get s "location" (JDict [])) as [location|]; cbn [bind] in *;
    [|discriminate H].
  destruct (py_get location "bike_accessibility" (JDict [])) as [bike|];
    cbn [bind] in *; [|discriminate H].
  destruct (py_get1 bike "duration_minutes") as [mins|]; cbn [bind] in *;
    [|discriminate H].
  destruct (truthy mins); [|reflexivity].
  destruct (as_num mins) as [m|]; cbn [bind] in *; [|discriminate H].
  rewrite Qle_bool_not_lt in *.
  destruct (Qle_bool m limit) eqn:E; cbn [negb] in H; [|discriminate H].
  apply Qle_bool_iff in E.
  assert (E' : Qle_bool m limit' = true) by (apply Qle_bool_iff; lra).
  now rewrite E'.
Qed.

Lemma commute_filter_monotone_witness :
  _passes_filters (with_bike 20) (only_commute 25) = Ok true
  /\ 25 <= 40
  /\ _passes_filters (with_bike 20) (only_commute 40) = Ok true.
Proof.
  split; [reflexivity|]. split; [discriminate|].
  apply (commute_filter_monotone (with_bike 20) 25 40); [reflexivity|discriminate].
Defined.

(** ** The city, religion and type filters *)

Lemma text_at_leaf2 (d : dict) (k1 k2 : string) :
  optional (child d k1) k2 is_string = true ->
  py_get (JDict (child d k1)) k2 (JStr "") = Ok (JStr (text_at (JDict d) [k1; k2])).
Proof.
  intros H. unfold text_at. rewrite field_at_leaf2.
  unfold optional, py_get, leaf in *.
  destruct (assoc k2 (child d k1)) as [[]|]; cbn [is_string] in H;
    try discriminate H; reflexivity.
Qed.

(** On a well-formed school, the city filter asks for the same city, letters
    (the accented ones too) compared without their case, and the
    religious-affiliation filter for an affiliation that contains the value
    asked for; an empty value asks for nothing. *)
Theorem city_is_matched_whole_religion_in_part (s : json) (wanted : string) :
  well_formed s = true ->
  _passes_filters s (only_city wanted)
  = Ok (String.eqb wanted ""
        || String.eqb (lower (text_at s ["basic_info"; "city"])) (lower wanted))
  /\ _passes_filters s (only_religion wanted)
     = Ok (String.eqb wanted ""
           || is_substring (lower wanted)
                (lower (text_at s ["basic_info"; "religious_affiliation"]))).
Proof.
  intros H.
  destruct (well_formed_sections s H) as (d & -> & Hb & _).
  destruct (get_required_child _ _ _ (JDict []) Hb) as [G Hb'].
  unfold wf_basic_info in Hb'. repeat (apply andb_prop in Hb' as [Hb' ?]).
  unfold _passes_filters, only_city, only_religion, type_filter_ok, religion_filter_ok,
    commute_filter_ok, city_filter_ok.
  cbn [school_type religious_affiliation max_commute_minutes city bind negb].
  destruct (String.eqb wanted ""); cbn [orb bind negb]; [split; reflexivity|].
  rewrite G. cbn [bind].
  rewrite !text_at_leaf2 by assumption. cbn [bind py_lower].
  split;
    match goal with
    | |- context [if negb ?b then _ else _] => destruct b
    end; reflexivity.
Qed.

Lemma city_is_matched_whole_religion_in_part_witness :
  well_formed no_parent_reviews = true
  /\ well_formed (in_city ecole_upper) = true
  /\ _passes_filters no_parent_reviews (only_city "AMSTERDAM") = Ok true
  /\ _passes_filters no_parent_reviews (only_city "Amster") = Ok false
  /\ _passes_filters (in_city ecole_upper) (only_city ecole_lower) = Ok true.
Proof.
  split; [reflexivity|]. split; [reflexivity|].
  split; [|split].
  - exact (proj1 (city_is_matched_whole_religion_in_part no_parent_reviews "AMSTERDAM"
                    eq_refl)).
  - exact (proj1 (city_is_matched_whole_religion_in_part no_parent_reviews "Amster"
                    eq_refl)).
  - exact (proj1 (city_is_matched_whole_religion_in_part (in_city ecole_upper)
                    ecole_lower eq_refl)).
Defined.

Lemma py_any_in_names (l : list json) (ts : list string) :
  forallb is_string l = true ->
  py_any (fun t => py_in t (JList l)) ts
  = Ok (existsb
          (fun t =>
             existsb (fun n => String.eqb n t)
               (flat_map (fun v => match v with JStr n => [n] | _ => [] end) l))
          ts).
Proof.
  intros Hl.
  assert (E : forall t,
            existsb (json_is_str t) l
            = existsb (fun n => String.eqb n t)
                (flat_map (fun v => match v with JStr n => [n] | _ => [] end) l)).
  { intros t. induction l as [|v l IH]; cbn [existsb flat_map forallb] in *;
      [reflexivity|].
    apply andb_prop in Hl as [Hv Hl].
    destruct v; cbn [is_string] in Hv; try discriminate Hv.
    cbn [json_is_str app existsb]. now rewrite IH. }
  induction ts as [|t ts IH]; cbn [py_any py_in bind existsb]; [reflexivity|].
  rewrite E. destruct (existsb (fun n => String.eqb n t) _); [reflexivity|exact IH].
Qed.

(** On a well-formed school the type filter passes exactly when one of the
    types asked for is in the type list of the school, letter for letter (the
    case counts here); an empty list of types asks for nothing. *)
Theorem type_filter_matches_exactly (s : json) (types : list string) :
  well_formed s = true ->
  _passes_filters s (only_types types)
  = Ok match types with
       | [] => true
       | _ :: _ =>
           existsb (fun t => existsb (fun n => String.eqb n t) (school_types_of s)) types
       end.
Proof.
  intros H.
  destruct (well_formed_sections s H) as (d & -> & Hb & _).
  destruct (get_required_child _ _ _ (JDict []) Hb) as [G Hb'].
  unfold wf_basic_info in Hb'. repeat (apply andb_prop in Hb' as [Hb' ?]).
  unfold _passes_filters, only_types, type_filter_ok, religion_filter_ok,
    commute_filter_ok, city_filter_ok.
  cbn [school_type religious_affiliation max_commute_minutes city bind negb].
  destruct types as [|t ts]; [reflexivity|].
  rewrite G. cbn [bind].
  match goal with
  | X : optional _ "type" _ = true |- _ =>
      destruct (get_sequence _ _ _ X) as (l & -> & Hall & _ & _ & Hleaf)
  end.
  cbn [bind]. rewrite (py_any_in_names l (t :: ts) Hall). cbn [bind].
  unfold school_types_of. rewrite field_at_leaf2.
  destruct Hleaf as [->|[-> ->]]; cbv beta iota; cbn [flat_map];
    match goal with
    | |- context [if negb ?b then _ else _] => destruct b
    end; reflexivity.
Qed.

Lemma type_filter_matches_exactly_witness :
  well_formed no_parent_reviews = true
  /\ _passes_filters no_parent_reviews (only_types ["HAVO"; "VWO"]) = Ok true
  /\ _passes_filters no_parent_reviews (only_types ["vwo"]) = Ok false.
Proof.
  split; [reflexivity|].
  split.
  - exact (type_filter_matches_exactly no_parent_reviews ["HAVO"; "VWO"] eq_refl).
  - exact (type_filter_matches_exactly no_parent_reviews ["vwo"] eq_refl).
Defined.

(** * Further properties of the ranking *)

Section SortAndFilter.

Context {A : Type} (key : A -> Q).

Lemma insert_desc_front (x : A) (l : list A) :
  Forall (fun z => key z <= key x) l -> insert_desc key x l = x :: l.
Proof.
  intros F. destruct F as [|y l Hy _]; cbn [insert_desc]; [reflexivity|].
  assert (E : Qlt_bool (key x) (key y) = false) by (now apply Qlt_bool_false).
  now rewrite E.
Qed.

(** Sorting a list that is in decreasing order leaves it as it is. *)
Lemma sort_desc_sorted_id (l : list A) : descending key l -> sort_desc key l = l.
Proof.
  unfold descending. induction 1 as [|x l S IH F]; cbn [sort_desc]; [reflexivity|].
  rewrite IH. now apply insert_desc_front.
Qed.

Lemma filter_insert_desc_sorted (p : A -> bool) (x : A) (l : list A) :
  descending key l ->
  filter p (insert_desc key x l)
  = if p x then insert_desc key x (filter p l) else filter p l.
Proof.
  unfold descending. induction 1 as [|y l S IH F]; cbn [insert_desc filter].
  - now destruct (p x).
  - destruct (Qlt_bool (key x) (key y)) eqn:E; cbn [filter].
    + rewrite IH. destruct (p y), (p x); cbn [insert_desc]; rewrite ?E; reflexivity.
    + destruct (p x); [|reflexivity].
      apply Qlt_bool_false in E.
      assert (G : Forall (fun z => key z <= key x) (y :: l)).
      { constructor; [exact E|].
        eapply Forall_impl; [|exact F]. cbn beta. intros z Hz.
        now apply Qle_trans with (key y). }
      assert (G' : Forall (fun z => key z <= key x) (filter p (y :: l))).
      { rewrite Forall_forall in G |- *. intros z Hz.
        apply filter_In in Hz as [Hz _]. now apply G. }
      cbn [filter] in G'. symmetry. now apply insert_desc_front.
Qed.

(** Selecting from a sorted list and sorting the selection are the same. *)
Lemma sort_desc_filter (p : A -> bool) (l : list A) :
  filter p (sort_desc key l) = sort_desc key (filter p l).
Proof.
  induction l as [|x l IH]; cbn [sort_desc filter]; [reflexivity|].
  rewrite filter_insert_desc_sorted by apply sort_desc_sorted.
  rewrite IH. now destruct (p x).
Qed.

End SortAndFilter.

Lemma collect_results_filtered (schools : list json)
  (weights : option (list (string * Q))) (preferences : option (list (string * string)))
  (f : option filters) :
  Forall (fun s => well_formed s = true) schools ->
  exists unfiltered,
    collect_results schools weights preferences None = Ok unfiltered
    /\ collect_results schools weights preferences f
       = Ok (filter (fun x => passes f (school x)) unfiltered).
Proof.
  induction 1 as [|s schools Hs _ (rest & En & Ef)]; cbn [collect_results].
  - exists []. split; reflexivity.
  - cbn [filters_given bind negb].
    destruct (composite_total s weights preferences Hs) as [r Er].
    rewrite Er, En, Ef. cbn [bind].
    assert (K : exists keep,
               match filters_given f with
               | Some fs => _passes_filters s fs
               | None => Ok true
               end = Ok keep /\ passes f s = keep).
    { unfold passes. destruct (filters_given f) as [fs|]; [|eauto].
      destruct (passes_filters_total s fs Hs) as [b ->]. exists b. now destruct b. }
    destruct K as (keep & -> & Hk). cbn [bind].
    destruct (composite_score r) eqn:Ec.
    + exists (mkRanked s r :: rest). split; [reflexivity|].
      cbn [filter school]. rewrite Hk. now destruct keep.
    + exists rest. split; [reflexivity|]. now destruct keep.
Qed.

(** The filters select from the unfiltered ranking and do not reorder it:
    on well-formed schools, ranking with filters gives the unfiltered ranking
    without the schools that do not pass. *)
Theorem filters_select_from_the_ranking (schools : list json)
  (weights : option (list (string * Q))) (preferences : option (list (string * string)))
  (f : option filters) :
  Forall (fun s => well_formed s = true) schools ->
  exists unfiltered,
    rank_schools schools weights preferences None = Ok unfiltered
    /\ rank_schools schools weights preferences f
       = Ok (filter (fun x => passes f (school x)) unfiltered).
Proof.
  intros H.
  destruct (collect_results_filtered schools weights preferences f H)
    as (results & En & Ef).
  exists (sort_desc sort_key results). unfold rank_schools.
  rewrite En, Ef. cbn [bind]. split; [reflexivity|].
  now rewrite sort_desc_filter.
Qed.

Lemma filters_select_from_the_ranking_witness :
  Forall (fun s => well_formed s = true)
    [ commuter "a" (35 # 2); commuter "c" 10; commuter "b" (35 # 2) ]
  /\ exists out,
       rank_schools [ commuter "a" (35 # 2); commuter "c" 10; commuter "b" (35 # 2) ]
         by_proximity None (Some (only_commute 15)) = Ok out
       /\ map school out = [ commuter "c" 10 ].
Proof.
  assert (W : Forall (fun s => well_formed s = true)
                [ commuter "a" (35 # 2); commuter "c" 10; commuter "b" (35 # 2) ])
    by (repeat constructor).
  split; [exact W|].
  destruct (filters_select_from_the_ranking _ by_proximity None
              (Some (only_commute 15)) W) as (unfiltered & En & Ef).
  eexists. split; [exact Ef|].
  vm_compute in En. injection En as <-. reflexivity.
Defined.

(** What [rank_schools] keeps of a school: it passed, and the item carries
    its composite score, which is not null. *)
Lemma collect_results_entries (schools : list json)
  (weights : option (list (string * Q))) (preferences : option (list (string * string)))
  (f : option filters) (results : list ranked) :
  collect_results schools weights preferences f = Ok results ->
  Forall (fun x =>
            match filters_given f with
            | Some fs => _passes_filters (school x) fs
            | None => Ok true
            end = Ok true
            /\ calculate_composite_score (school x) weights preferences
               = Ok (score_data x)
            /\ composite_score (score_data x) <> None) results.
Proof.
  revert results. induction schools as [|s schools IH]; intros results;
    cbn [collect_results].
  - intros [= <-]. constructor.
  - intros H. bind_inv H. destruct a; cbn [negb] in H; [|now apply IH].
    bind_inv H. bind_inv H.
    destruct (composite_score a) eqn:Ec; injection H as <-; [|now apply IH].
    constructor; [|now apply IH]. cbn [school score_data].
    repeat split; auto. now rewrite Ec.
Qed.

Lemma collect_results_again (weights : option (list (string * Q)))
  (preferences : option (list (string * string))) (f : option filters) (l : list ranked) :
  Forall (fun x =>
            match filters_given f with
            | Some fs => _passes_filters (school x) fs
            | None => Ok true
            end = Ok true
            /\ calculate_composite_score (school x) weights preferences
               = Ok (score_data x)
            /\ composite_score (score_data x) <> None) l ->
  collect_results (map school l) weights preferences f = Ok l.
Proof.
  induction 1 as [|x l (K & C & N) _ IH]; cbn [map collect_results]; [reflexivity|].
  rewrite K. cbn [bind negb]. rewrite C, IH. cbn [bind].
  destruct (composite_score (score_data x)); [|contradiction].
  now destruct x.
Qed.

(** Ranking the schools of a ranking gives that ranking again. *)
Theorem ranking_a_ranking_changes_nothing (schools : list json)
  (weights : option (list (string * Q))) (preferences : option (list (string * string)))
  (f : option filters) (out : list ranked) :
  rank_schools schools weights preferences f = Ok out ->
  rank_schools (map school out) weights preferences f = Ok out.
Proof.
  unfold rank_schools. intros H. bind_inv H. injection H as <-.
  pose proof (collect_results_entries _ _ _ _ _ E) as F.
  rewrite (collect_results_again weights preferences f (sort_desc sort_key a)).
  - cbn [bind]. f_equal. apply sort_desc_sorted_id, sort_desc_sorted.
  - apply (Permutation_Forall (sort_desc_perm sort_key a) F).
Qed.

Lemma ranking_a_ranking_changes_nothing_witness :
  exists out,
    rank_schools [ commuter "a" (35 # 2); commuter "c" 10; far_away ] by_proximity None None
    = Ok out
    /\ map school out = [ commuter "c" 10; commuter "a" (35 # 2) ]
    /\ rank_schools [ commuter "c" 10; commuter "a" (35 # 2) ] by_proximity None None
       = Ok out.
Proof.
  eexists. split; [vm_compute; reflexivity|]. split; [reflexivity|].
  exact (ranking_a_ranking_changes_nothing
           [ commuter "a" (35 # 2); commuter "c" 10; far_away ] by_proximity None None _
           eq_refl).
Defined.

(** * Properties of the pages that call the scorer *)

(** ** Badges *)

Lemma badge_at_least_fair (x : Q) :
  50 <= x ->
  exists class,
    In class ["score-fair"; "score-good"; "score-excellent"]
    /\ get_score_badge_html (Some x) = badge class x.
Proof.
  intros H. unfold get_score_badge_html.
  destruct (Qle_bool 85 x); [exists "score-excellent"; cbn; auto|].
  destruct (Qle_bool 70 x); [exists "score-good"; cbn; auto|].
  assert (E : Qle_bool 50 x = true) by (now apply Qle_bool_iff).
  rewrite E. exists "score-fair". cbn; auto.
Qed.

(** The facilities, extracurriculars and special-programs scores of a
    well-formed school are shown with a fair, good or excellent badge, never
    with the poor one or with N/A. *)
Theorem neutral_categories_never_look_poor (s : json) :
  well_formed s = true ->
  Forall (fun scorer =>
            exists sd x class,
              scorer s = Ok sd
              /\ score sd = Some x
              /\ In class ["score-fair"; "score-good"; "score-excellent"]
              /\ get_score_badge_html (score sd) = badge class x)
    [ calculate_facilities_score; calculate_extracurriculars_score;
      calculate_special_programs_score ].
Proof.
  intros Hwf.
  destruct (facilities_points_returned s Hwf) as (sd1 & E1 & S1 & B1).
  destruct (extracurriculars_points_returned s Hwf) as (sd2 & E2 & S2 & _).
  destruct (special_programs_returned s Hwf) as (sd3 & E3 & S3 & _).
  repeat constructor.
  - destruct (badge_at_least_fair (inject_Z (facility_points s))) as (c & Hc & Hb).
    { now apply (inject_Z_bounds _ 50 100). }
    eexists sd1, _, c. rewrite S1. auto.
  - destruct (badge_at_least_fair
                (inject_Z (Z.min (50 + 5 * Z.of_nat (activity_count s)) 100)))
      as (c & Hc & Hb).
    { apply (inject_Z_bounds _ 50 100). lia. }
    eexists sd2, _, c. rewrite S2. auto.
  - destruct (badge_at_least_fair
                (inject_Z (Z.min (50 + 10 * Z.of_nat (List.length (program_names s))) 100)))
      as (c & Hc & Hb).
    { apply (inject_Z_bounds _ 50 100). lia. }
    eexists sd3, _, c. rewrite S3. auto.
Qed.

Lemma neutral_categories_never_look_poor_witness :
  well_formed bare_school = true
  /\ exists sd,
       calculate_facilities_score bare_school = Ok sd
       /\ get_score_badge_html (score sd) = badge "score-fair" 50.
Proof.
  split; [reflexivity|].
  pose proof (neutral_categories_never_look_poor bare_school eq_refl) as F.
  apply Forall_inv in F. destruct F as (sd & x & c & E & _).
  exists sd. split; [exact E|].
  vm_compute in E. injection E as <-. reflexivity.
Defined.

(** ** The comparison table *)

Lemma column_of_scored (cat : string) (weights : list (string * Q))
  (preferences : list (string * string)) (schools : list json) (rows : list ranked) :
  In cat comparison_categories ->
  score_all schools weights preferences = Ok rows ->
  comparison_column cat rows
  = Ok (map (fun row => points_of (category_scores (score_data row)) cat) rows)
  /\ map school rows = schools.
Proof.
  intros Hc. revert rows. unfold comparison_column.
  induction schools as [|s schools IH]; intros rows H; cbn [score_all] in H.
  - injection H as <-. split; reflexivity.
  - bind_inv H. bind_inv H. injection H as <-.
    destruct (IH _ eq_refl) as [IH1 IH2].
    cbn [mapM map school score_data]. rewrite IH1, IH2.
    destruct (composite_inv _ _ _ _ E) as (? & ? & ? & ? & ? & ? & ? & ? & _ & _ & _
      & _ & _ & _ & _ & _ & Hs & _).
    unfold points_of. rewrite Hs.
    cbn [comparison_categories In] in Hc.
    repeat (destruct Hc as [<-|Hc]; [split; reflexivity|]).
    contradiction.
Qed.

(** The comparison table can always be filled: once the schools are scored,
    under any weights, every one of its eight columns is read without a
    missing key, has one entry for each school, and holds the score, null or
    not, that the category scorer returned. *)
Theorem comparison_table_has_every_column (cat : string) (weights : list (string * Q))
  (preferences : list (string * string)) (schools : list json) (rows : list ranked) :
  In cat comparison_categories ->
  score_all schools weights preferences = Ok rows ->
  exists column,
    comparison_column cat rows = Ok column
    /\ List.length column = List.length schools
    /\ column = map (fun row => points_of (category_scores (score_data row)) cat) rows.
Proof.
  intros Hc H.
  destruct (column_of_scored cat weights preferences schools rows Hc H) as [E M].
  eexists. split; [exact E|]. split; [|reflexivity].
  now rewrite length_map, <- M, length_map.
Qed.

Lemma comparison_table_has_every_column_witness :
  In "parent_satisfaction" comparison_categories
  /\ exists rows,
       score_all [no_parent_reviews; bare_school] [("proximity", 1)] [] = Ok rows
       /\ comparison_column "parent_satisfaction" rows = Ok [None; None]
       /\ comparison_column "facilities" rows = Ok [Some 50; Some 50].
Proof.
  assert (I : In "parent_satisfaction" comparison_categories) by (cbn; auto).
  split; [exact I|].
  eexists. split; [vm_compute; reflexivity|].
  destruct (comparison_table_has_every_column "parent_satisfaction" [("proximity", 1)] []
              [no_parent_reviews; bare_school] _ I eq_refl) as (column & E & _ & C).
  split; [|reflexivity]. rewrite C in E. exact E.
Defined.

(** ** The favorites page *)

Lemma is_favorite_spec (favorites : list string) (s : json) :
  well_formed s = true -> is_favorite favorites s = Ok (favored favorites s).
Proof.
  destruct s as [| | | | |d]; cbn [well_formed object]; try discriminate.
  intros H. repeat (apply andb_prop in H as [H ?]).
  unfold required in H. unfold is_favorite, favored, py_getitem. cbn [path].
  destruct (assoc "id" d) as [[]|]; cbn [is_string] in H; try discriminate H.
  reflexivity.
Qed.

Lemma favorite_schools_spec (schools : list json) (favorites : list string) :
  Forall (fun s => well_formed s = true) schools ->
  favorite_schools schools favorites = Ok (filter (favored favorites) schools).
Proof.
  induction 1 as [|s schools Hs _ IH]; cbn [favorite_schools filter]; [reflexivity|].
  rewrite (is_favorite_spec favorites s Hs), IH. reflexivity.
Qed.

Lemma score_all_spec (schools : list json) (weights : list (string * Q))
  (preferences : list (string * string)) :
  Forall (fun s => well_formed s = true) schools ->
  exists rows,
    score_all schools weights preferences = Ok rows
    /\ map school rows = schools
    /\ Forall (fun x =>
                 calculate_composite_score (school x) (Some weights) (Some preferences)
                 = Ok (score_data x)) rows.
Proof.
  induction 1 as [|s schools Hs _ (rows & E & M & F)]; cbn [score_all].
  - exists []. repeat split. constructor.
  - destruct (composite_total s (Some weights) (Some preferences) Hs) as [r Er].
    rewrite Er, E. cbn [bind].
    exists (mkRanked s r :: rows). split; [reflexivity|].
    split; [cbn [map school]; now rewrite M|].
    constructor; assumption.
Qed.

Lemma descending_before {A : Type} (key : A -> Q) (x y : A) (l : list A) :
  descending key l -> before x y l -> key y <= key x.
Proof.
  intros S (l1 & l2 & l3 & ->). unfold descending in S.
  induction l1 as [|z l1 IH]; cbn [app] in S.
  - apply StronglySorted_inv in S as [_ F].
    rewrite Forall_forall in F. apply F, in_or_app. right. now left.
  - apply StronglySorted_inv in S as [S _]. now apply IH.
Qed.

Lemma favorite_key_of_null (x : ranked) :
  composite_score (score_data x) = None -> favorite_key x = 0.
Proof.
  unfold favorite_key. now intros ->.
Qed.

Lemma favorite_key_of_score (x : ranked) (c : Q) :
  composite_score (score_data x) = Some c -> favorite_key x == c.
Proof.
  unfold favorite_key. intros ->. cbn [truthy].
  destruct (Qeq_bool c 0) eqn:E; cbn [negb]; [|reflexivity].
  apply Qeq_bool_iff in E. now symmetry.
Qed.

(** The favorites page drops no school.  On well-formed schools it lists
    every favorite school, once for each time it is in the collection, with
    its composite score, null or not, by decreasing score; a school whose
    composite score is null counts as 0, so it comes after every school of
    positive score. *)
Theorem favorites_are_all_listed (schools : list json) (favorites : list string)
  (weights : list (string * Q)) (preferences : list (string * string)) :
  Forall (fun s => well_formed s = true) schools ->
  exists out,
    rank_favorites schools favorites weights preferences = Ok out
    /\ Permutation (map school out) (filter (favored favorites) schools)
    /\ Forall (fun x =>
                 calculate_composite_score (school x) (Some weights) (Some preferences)
                 = Ok (score_data x)) out
    /\ descending favorite_key out
    /\ (forall x y c,
          before x y out ->
          composite_score (score_data x) = None ->
          composite_score (score_data y) = Some c ->
          c <= 0).
Proof.
  intros H. unfold rank_favorites.
  rewrite (favorite_schools_spec schools favorites H). cbn [bind].
  assert (Hf : Forall (fun s => well_formed s = true) (filter (favored favorites) schools)).
  { rewrite Forall_forall in H |- *. intros s Hs.
    apply filter_In in Hs as [Hs _]. now apply H. }
  destruct (score_all_spec _ weights preferences Hf) as (rows & E & M & F).
  rewrite E. cbn [bind].
  exists (sort_desc favorite_key rows). split; [reflexivity|].
  pose proof (sort_desc_perm favorite_key rows) as P.
  split; [rewrite <- M; now apply Permutation_map, Permutation_sym|].
  split; [exact (Permutation_Forall P F)|].
  split; [apply sort_desc_sorted|].
  intros x y c B Nx Sy.
  pose proof (descending_before favorite_key x y _ (sort_desc_sorted _ _) B) as L.
  rewrite (favorite_key_of_null x Nx), (favorite_key_of_score y c Sy) in L.
  exact L.
Qed.

Lemma favorites_are_all_listed_witness :
  Forall (fun s => well_formed s = true)
    [ far_away; commuter "a" (35 # 2); commuter "c" 10 ]
  /\ exists out,
       rank_favorites [ far_away; commuter "a" (35 # 2); commuter "c" 10 ] ["s1"; "c"]
         [("proximity", 1)] [] = Ok out
       /\ map school out = [ commuter "c" 10; far_away ]
       /\ map (fun x => composite_score (score_data x)) out = [ Some 90; None ].
Proof.
  assert (W : Forall (fun s => well_formed s = true)
                [ far_away; commuter "a" (35 # 2); commuter "c" 10 ])
    by (repeat constructor).
  split; [exact W|].
  destruct (favorites_are_all_listed _ ["s1"; "c"] [("proximity", 1)] [] W)
    as (out & E & _).
  exists out. split; [exact E|].
  vm_compute in E. injection E as <-. split; reflexivity.
Defined.

(** * Records that are not well-formed *)

Lemma get_not_object (d : dict) (k : string) (v dflt : json) (k' : string) (dflt' : json) :
  assoc k d = Some v ->
  is_object v = false ->
  py_get (JDict d) k dflt = Ok v /\ py_get v k' dflt' = Raise AttributeError.
Proof.
  intros E H. unfold py_get at 1. rewrite E. split; [reflexivity|].
  destruct v; try reflexivity. discriminate H.
Qed.

(** The default of [school.get(section, {})] stands in for a missing
    section only.  When a section is there and is not an object ([null], for
    one), every scorer that reads it raises [AttributeError]. *)
Theorem section_that_is_no_object_raises (d : dict) (preferred_size : string)
  (section : string) (scorer : json -> result category_score) (v : json) :
  In (section, scorer) (section_readers preferred_size) ->
  assoc section d = Some v ->
  is_object v = false ->
  scorer (JDict d) = Raise AttributeError.
Proof.
  intros Hin E H.
  cbn [section_readers In] in Hin.
  repeat (destruct Hin as [[= <- <-]|Hin]); try contradiction;
    unfold calculate_academic_score, calculate_extracurriculars_score,
      calculate_special_programs_score, calculate_proximity_score,
      calculate_parent_satisfaction_score, calculate_student_satisfaction_score,
      calculate_facilities_score, calculate_school_size_score;
    match goal with
    | |- bind (py_get _ ?k ?dflt) (fun x => bind (py_get _ ?k' ?dflt') _) = _ =>
        destruct (get_not_object d k v dflt k' dflt' E H) as [-> G];
        cbn [bind]; rewrite G; reflexivity
    end.
Qed.

Lemma section_that_is_no_object_raises_witness :
  In ("location", calculate_proximity_score) (section_readers "medium")
  /\ assoc "location"
       [ ("id", JStr "s1"); ("basic_info", JDict [("name", JStr "School")]);
         ("location", JNull) ] = Some JNull
  /\ is_object JNull = false
  /\ calculate_proximity_score null_location = Raise AttributeError.
Proof.
  assert (I : In ("location", calculate_proximity_score) (section_readers "medium"))
    by (cbn; auto).
  split; [exact I|]. split; [reflexivity|]. split; [reflexivity|].
  exact (section_that_is_no_object_raises
           [ ("id", JStr "s1"); ("basic_info", JDict [("name", JStr "School")]);
             ("location", JNull) ]
           "medium" "location" calculate_proximity_score JNull I eq_refl eq_refl).
Defined.

(** ** One failing school stops the ranking *)

Lemma collect_results_raises (schools : list json) (s : json)
  (weights : option (list (string * Q))) (preferences : option (list (string * string)))
  (e : exn) :
  In s schools ->
  calculate_composite_score s weights preferences = Raise e ->
  exists e', collect_results schools weights preferences None = Raise e'.
Proof.
  intros Hin Hr. induction schools as [|s0 schools IH]; [contradiction|].
  cbn [collect_results filters_given bind negb].
  destruct (calculate_composite_score s0 weights preferences) as [r0|e0] eqn:E0;
    cbn [bind]; [|eauto].
  destruct Hin as [->|Hin]; [congruence|].
  destruct (IH Hin) as [e' ->]. cbn [bind]. eauto.
Qed.

(** [rank_schools] gives no partial ranking: without filters, when the
    composite score of any one school of the collection raises, the whole
    ranking raises. *)
Theorem one_failing_school_stops_the_ranking (schools : list json) (s : json)
  (weights : option (list (string * Q))) (preferences : option (list (string * string)))
  (e : exn) :
  In s schools ->
  calculate_composite_score s weights preferences = Raise e ->
  exists e', rank_schools schools weights preferences None = Raise e'.
Proof.
  intros Hin Hr. unfold rank_schools.
  destruct (collect_results_raises schools s weights preferences e Hin Hr) as [e' ->].
  exists e'. reflexivity.
Qed.

Lemma one_failing_school_stops_the_ranking_witness :
  In null_location [ commuter "a" 10; null_location; commuter "b" 20 ]
  /\ calculate_composite_score null_location None None = Raise AttributeError
  /\ rank_schools [ commuter "a" 10; null_location; commuter "b" 20 ] None None None
     = Raise AttributeError.
Proof.
  assert (I : In null_location [ commuter "a" 10; null_location; commuter "b" 20 ])
    by (cbn; auto).
  split; [exact I|]. split; [reflexivity|].
  destruct (one_failing_school_stops_the_ranking _ null_location None None
              AttributeError I eq_refl) as [e' E].
  rewrite E. vm_compute in E. now injection E as <-.
Defined.

(** ** When the composite score is null *)

(** The composite score is null in two cases only: when the weights of the
    scored categories do not add up to a positive total, and when the
    weighted average is exactly zero. *)
Theorem composite_null_exactly_when (s : json)
  (weights : option (list (string * Q))) (preferences : option (list (string * string)))
  (r : composite) :
  calculate_composite_score s weights preferences = Ok r ->
  (composite_score r = None <->
   contributing_weight (category_scores r) (weights_used r) <= 0
   \/ weighted_average (category_scores r) (weights_used r) == 0).
Proof.
  intros Hr.
  destruct (composite_average _ _ _ _ Hr) as [T C].
  split.
  - intros Hn.
    destruct (Qlt_le_dec 0 (contributing_weight (category_scores r) (weights_used r)))
      as [P|P]; [|now left].
    right.
    destruct (Qeq_dec (weighted_average (category_scores r) (weights_used r)) 0)
      as [Z|Z]; [exact Z|].
    rewrite (C P Z) in Hn. discriminate Hn.
  - intros H. destruct (composite_score r) as [c|] eqn:Ec; [|reflexivity].
    exfalso. destruct (composite_some _ _ _ _ _ Hr Ec) as [P ->].
    destruct H as [H|H]; [now apply Qlt_not_le in P|].
    destruct (composite_inv _ _ _ _ Hr) as (? & ? & ? & ? & ? & ? & ? & ? & _ & _ & _ & _
      & _ & _ & _ & _ & _ & Hu & Ht & Hc).
    rewrite Ec in Hc. cbn zeta in Hc.
    destruct (Qlt_bool 0 (total_weight r)); [|discriminate Hc].
    destruct (aggregate_spec (category_scores r) (chosen_weights weights) (0, 0))
      as [S1 _].
    cbn [fst] in S1. rewrite <- Hu in *.
    set (ws := fst (fold_left (add_category (category_scores r)) (weights_used r) (0, 0)))
      in *.
    assert (A : ws / total_weight r
                == weighted_average (category_scores r) (weights_used r)).
    { unfold weighted_average. rewrite S1, T. field.
      intros Z. rewrite Z in P. now apply Qlt_irrefl in P. }
    assert (Z : Qeq_bool (ws / total_weight r) 0 = true).
    { apply Qeq_bool_iff. now rewrite A. }
    rewrite Z in Hc. discriminate Hc.
Qed.

Lemma composite_null_exactly_when_witness :
  exists r,
    calculate_composite_score far_away (Some proximity_only) None = Ok r
    /\ composite_score r = None
    /\ weighted_average (category_scores r) (weights_used r) == 0.
Proof.
  eexists. split; [vm_compute; reflexivity|].
  split; [|reflexivity].
  apply (composite_null_exactly_when far_away (Some proximity_only) None _ eq_refl).
  right. reflexivity.
Defined.

(** * Proximity: the mode of travel *)

Lemma proximity_text (s : json) :
  well_formed s = true ->
  exists sd, calculate_proximity_score s = Ok sd /\ details sd = commute_text s.
Proof.
  intros W.
  destruct (well_formed_sections s W) as (d & -> & _ & _ & H & _).
  unfold calculate_proximity_score, commute_text, bike_minutes, transit_minutes.
  rewrite read_at_leaf3, read_at_leaf4 by reflexivity.
  rewrite (get_child _ _ _ H). cbn [bind].
  pose proof (child_ok _ _ _ H eq_refl) as Hl. unfold wf_location in Hl.
  apply andb_prop in Hl as [Hb Hp].
  rewrite (get_child _ _ _ Hb), (get_child _ _ _ Hp). cbn [bind].
  pose proof (child_ok _ _ _ Hb eq_refl) as Hb'.
  pose proof (child_ok _ _ _ Hp eq_refl) as Hp'. cbn beta in Hp'.
  rewrite (get_child _ _ _ Hp'). cbn [bind].
  pose proof (child_ok _ _ _ Hp' eq_refl) as Ht.
  rewrite !get_leaf. cbn [bind].
  destruct (number_cases _ (leaf_number _ _ Hb')) as [[Tb Nb]|(b & Eb & Tb & Nb)];
    rewrite Tb, Nb; cbn [negb andb].
  - destruct (number_cases _ (leaf_number _ _ Ht)) as [[Tt Nt]|(t & Et & Tt & Nt)];
      rewrite ?Tt, Nt; cbn [negb].
    + eexists. split; reflexivity.
    + rewrite Et. cbn [as_num bind]. eexists. split; reflexivity.
  - rewrite Eb. cbn [as_num bind]. eexists. split; reflexivity.
Qed.

Lemma proximity_points_integer (m : Q) (n : Z) :
  m == inject_Z n -> exists k, proximity_points m == inject_Z k.
Proof.
  intros E. unfold proximity_points, py_max.
  destruct (Qle_bool m 10).
  { exists (100 - n * 1)%Z. rewrite E.
    unfold Z.sub. rewrite ?inject_Z_plus, ?inject_Z_opp, ?inject_Z_mult,
      ?inject_Z_plus, ?inject_Z_opp. ring. }
  destruct (Qle_bool m 30).
  { exists (90 - (n - 10) * 2)%Z. rewrite E.
    unfold Z.sub. rewrite ?inject_Z_plus, ?inject_Z_opp, ?inject_Z_mult,
      ?inject_Z_plus, ?inject_Z_opp. ring. }
  destruct (Qlt_bool (50 - (m - 30) * 1) 0).
  { exists 0%Z. reflexivity. }
  exists (50 - (n - 30) * 1)%Z. rewrite E.
  unfold Z.sub. rewrite ?inject_Z_plus, ?inject_Z_opp, ?inject_Z_mult,
    ?inject_Z_plus, ?inject_Z_opp. ring.
Qed.

(** The proximity scorer goes by the bike ride whenever its duration is a
    number other than zero, whatever the transit ride, and by the transit
    ride otherwise: the text names the duration and the mode it went by; the
    score is null exactly when neither duration is there; a whole number of
    minutes gives the piecewise-linear value itself; and two records with
    the same duration to go by have the same score. *)
Theorem proximity_goes_by_bike_first (s : json) :
  well_formed s = true ->
  exists sd,
    calculate_proximity_score s = Ok sd
    /\ details sd = commute_text s
    /\ (score sd = None <-> primary_minutes nonzero s = None)
    /\ (forall (m : Q) (n : Z),
          primary_minutes nonzero s = Some m ->
          m == inject_Z n ->
          0 <= m ->
          exists x, score sd = Some x /\ x == proximity_points m)
    /\ (forall s' sd',
          well_formed s' = true ->
          primary_minutes nonzero s' = primary_minutes nonzero s ->
          calculate_proximity_score s' = Ok sd' ->
          score sd' = score sd).
Proof.
  intros W.
  destruct (proximity_text s W) as (sd & E & D).
  assert (S : forall t td,
            well_formed t = true -> calculate_proximity_score t = Ok td ->
            score td = proximity_by nonzero t).
  { intros t td Wt Et.
    destruct (well_formed_sections t Wt) as (d & -> & _ & _ & H & _).
    destruct (proximity_spec d H) as (td' & Et' & St & _).
    rewrite Et in Et'. injection Et' as <-. exact St. }
  exists sd. split; [exact E|]. split; [exact D|].
  rewrite (S s sd W E). unfold proximity_by.
  split; [|split].
  - destruct (primary_minutes nonzero s); cbn [option_map];
      split; intros X; try discriminate X; reflexivity.
  - intros m n Hm Hn _. rewrite Hm. cbn [option_map].
    destruct (proximity_points_integer m n Hn) as [k Hk].
    exists (inject_Z k). split; [|symmetry; exact Hk].
    f_equal. apply round1_integer.
    now rewrite <- proximity_points_spec.
  - intros s' sd' W' Hsame E'.
    rewrite (S s' sd' W' E'). unfold proximity_by. now rewrite Hsame.
Qed.

Lemma proximity_goes_by_bike_first_witness :
  well_formed bike_25_transit_12 = true
  /\ exists sd,
       calculate_proximity_score bike_25_transit_12 = Ok sd
       /\ details sd = [ Shown (JNum 25); Text " mins by "; Text "bike" ]
       /\ exists x, score sd = Some x /\ x == 60.
Proof.
  assert (W : well_formed bike_25_transit_12 = true) by reflexivity.
  split; [exact W|].
  destruct (proximity_goes_by_bike_first _ W) as (sd & E & D & _ & V & _).
  exists sd. split; [exact E|]. split; [exact D|].
  destruct (V 25 25%Z eq_refl) as (x & Sx & Ex); [reflexivity|discriminate|].
  exists x. split; [exact Sx|]. rewrite Ex. reflexivity.
Defined.

Lemma proximity_non_increasing_witness :
  well_formed (with_bike 10) = true
  /\ well_formed (with_bike 45) = true
  /\ exists sd1 sd2,
       calculate_proximity_score (with_bike 10) = Ok sd1 /\ score sd1 = Some 90
       /\ calculate_proximity_score (with_bike 45) = Ok sd2 /\ score sd2 = Some 35.
Proof.
  assert (W1 : well_formed (with_bike 10) = true) by reflexivity.
  assert (W2 : well_formed (with_bike 45) = true) by reflexivity.
  split; [exact W1|]. split; [exact W2|].
  assert (L : 10 <= 45) by (unfold Qle; cbn; lia).
  destruct (proximity_non_increasing (with_bike 10) (with_bike 45) 10 45
              W1 W2 eq_refl eq_refl L)
    as (sd1 & sd2 & x1 & x2 & E1 & S1 & E2 & S2 & _).
  exists sd1, sd2.
  vm_compute in E1. injection E1 as <-.
  vm_compute in E2. injection E2 as <-.
  repeat split.
Defined.

(** * Academic performance: the number of candidates *)

Lemma bonus_monotone (c1 c2 : Q) :
  c1 <= c2 -> Qmin (c1 / 500 * 5) 5 <= Qmin (c2 / 500 * 5) 5.
Proof.
  intros H. apply Q.min_le_compat_r.
  apply Qmult_le_compat_r; [|discriminate].
  apply Qmult_le_compat_r; [exact H|discriminate].
Qed.

Lemma bonus_saturated (c : Q) : 500 <= c -> Qmin (c / 500 * 5) 5 == 5.
Proof.
  intros H. apply Q.min_r.
  setoid_replace 5 with (500 / 500 * 5) at 1 by reflexivity.
  apply Qmult_le_compat_r; [|discriminate].
  apply Qmult_le_compat_r; [exact H|discriminate].
Qed.

(** With the same pass rates and five-year averages, a record with more
    candidates never has the lower academic score, and from 500 candidates on
    the number of candidates changes nothing. *)
Theorem more_candidates_never_lower_the_score (s1 s2 : json) :
  well_formed s1 = true -> well_formed s2 = true ->
  rates_and_averages s1 = rates_and_averages s2 ->
  candidate_total s1 <= candidate_total s2 ->
  exists sd1 sd2,
    calculate_academic_score s1 = Ok sd1
    /\ calculate_academic_score s2 = Ok sd2
    /\ score_le (score sd1) (score sd2)
    /\ (500 <= candidate_total s1 -> score sd1 = score sd2).
Proof.
  intros W1 W2 R C.
  destruct (well_formed_sections s1 W1) as (d1 & -> & _ & A1 & _).
  destruct (well_formed_sections s2 W2) as (d2 & -> & _ & A2 & _).
  destruct (academic_spec d1 A1) as (sd1 & E1 & S1 & _).
  destruct (academic_spec d2 A2) as (sd2 & E2 & S2 & _).
  exists sd1, sd2. split; [exact E1|]. split; [exact E2|].
  rewrite S1, S2. clear E1 E2 S1 S2.
  unfold rates_and_averages in R. cbn [map] in R.
  unfold candidate_total in C.
  unfold academic_by, spec_academic_score.
  injection R as R1 V1 R2 V2 R3 V3.
  rewrite R1, R2, R3, V1, V2, V3.
  set (es1 := exam_scores_of (JDict d1)) in *.
  set (es2 := exam_scores_of (JDict d2)) in *.
  set (c1 := Qsum _) in C. set (c2 := Qsum _) in C.
  fold c1 c2.
  set (rates := (map _ _ ++ map _ _ ++ map _ _)%list).
  destruct rates as [|r rates]; [split; [exact I|reflexivity]|].
  set (final := match _ with [] => _ | _ :: _ => _ end).
  split.
  - cbn [score_le]. apply round1_monotone.
    apply Q.min_le_compat_r. apply Qplus_le_r. now apply bonus_monotone.
  - intros H. f_equal. apply round1_comp.
    rewrite (bonus_saturated c1 H).
    rewrite (bonus_saturated c2) by (eapply Qle_trans; eassumption).
    reflexivity.
Qed.

Lemma more_candidates_never_lower_the_score_witness :
  well_formed (havo_80 100) = true
  /\ well_formed (havo_80 300) = true
  /\ rates_and_averages (havo_80 100) = rates_and_averages (havo_80 300)
  /\ candidate_total (havo_80 100) <= candidate_total (havo_80 300)
  /\ exists sd1 sd2,
       calculate_academic_score (havo_80 100) = Ok sd1
       /\ calculate_academic_score (havo_80 300) = Ok sd2
       /\ score sd1 = Some 81 /\ score sd2 = Some 83.
Proof.
  assert (W1 : well_formed (havo_80 100) = true) by reflexivity.
  assert (W2 : well_formed (havo_80 300) = true) by reflexivity.
  assert (R : rates_and_averages (havo_80 100) = rates_and_averages (havo_80 300))
    by reflexivity.
  assert (C : candidate_total (havo_80 100) <= candidate_total (havo_80 300))
    by (vm_compute; discriminate).
  split; [exact W1|]. split; [exact W2|]. split; [exact R|]. split; [exact C|].
  destruct (more_candidates_never_lower_the_score _ _ W1 W2 R C)
    as (sd1 & sd2 & E1 & E2 & _).
  exists sd1, sd2.
  vm_compute in E1. injection E1 as <-.
  vm_compute in E2. injection E2 as <-.
  repeat split.
Defined.

(** * Sparse records *)

Lemma rate_absent (exam_scores : dict) (level : string) :
  level_field rate (read_level recorded exam_scores level) = [] ->
  level_field rate (read_level nonzero exam_scores level) = [].
Proof.
  unfold read_level.
  destruct (assoc level exam_scores) as [[| | | | |e]|]; try reflexivity.
  cbn [level_field rate]. unfold read_field.
  destruct (assoc "pass_rate_2024_2025" e) as [v|]; [|reflexivity].
  destruct v; cbn [recorded nonzero seq_of]; try reflexivity.
  discriminate.
Qed.

Lemma pass_rates_absent (s : json) :
  pass_rates recorded s = [] -> pass_rates nonzero s = [].
Proof.
  unfold pass_rates. intros H.
  apply app_eq_nil in H as [H1 H]. apply app_eq_nil in H as [H2 H3].
  now rewrite (rate_absent _ _ H1), (rate_absent _ _ H2), (rate_absent _ _ H3).
Qed.

Lemma academic_null_iff (read : json -> option Q) (s : json) :
  academic_by read s = None <-> pass_rates read s = [].
Proof.
  unfold academic_by, spec_academic_score, pass_rates.
  destruct (level_field rate (read_level read (exam_scores_of s) "vmbo"));
    destruct (level_field rate (read_level read (exam_scores_of s) "havo"));
    destruct (level_field rate (read_level read (exam_scores_of s) "vwo"));
    cbn [map app]; split; intros H; try discriminate H; reflexivity.
Qed.

Lemma first_rating_absent (a : audience) (s : json) :
  first_rating recorded a s = None -> first_rating nonzero a s = None.
Proof.
  unfold first_rating, read_field.
  destruct (path s ["reviews_reputation"; reviews_key a]) as [[| | | |[|[] rest]|]|];
    try reflexivity.
  destruct (assoc "overall_rating" d); [apply nonzero_recorded|reflexivity].
Qed.

Lemma null_iff_absent {A B : Type} (f : A -> B) (o : option A) :
  option_map f o = None <-> o = None.
Proof.
  destruct o; cbn [option_map]; split; intros H; try discriminate H; reflexivity.
Qed.

(** C9.  On every well-formed record, however sparse, whose numbers are of
    moderate size, each of the eight category scorers and the aggregator
    return without raising.  A null score always comes with an explanatory
    text.  The academic score is null when no level has a pass rate, the
    proximity score when no duration is recorded, a satisfaction score when
    the review list is missing or empty or its first review has no rating,
    the size score when no enrollment is recorded; and each of them is null
    only when the datum is missing or zero, never 0 in place of a missing
    datum.  Facilities, extracurriculars and special programs are never null.
    In the aggregation a null category is skipped: it enters neither of the
    running sums, and the total weight is the weight of the scored
    categories. *)
Theorem sparse_records_never_raise (s : json) (preferred_size : string)
  (weights : option (list (string * Q))) (preferences : option (list (string * string))) :
  well_formed s = true ->
  moderate s = true ->
  moderate_weights weights = true ->
  (exists sd, calculate_academic_score s = Ok sd /\ explained sd
              /\ (pass_rates recorded s = [] -> score sd = None)
              /\ (score sd = None <-> pass_rates nonzero s = []))
  /\ (exists sd, calculate_proximity_score s = Ok sd /\ explained sd
                 /\ (primary_minutes recorded s = None -> score sd = None)
                 /\ (score sd = None <-> primary_minutes nonzero s = None))
  /\ (forall a, exists sd,
        satisfaction_score a s = Ok sd /\ explained sd
        /\ (first_rating recorded a s = None -> score sd = None)
        /\ (score sd = None <-> first_rating nonzero a s = None))
  /\ (exists sd x, calculate_facilities_score s = Ok sd /\ score sd = Some x)
  /\ (exists sd, calculate_school_size_score s preferred_size = Ok sd /\ explained sd
                 /\ (read_at recorded s ["basic_info"; "enrollment"; "total"] = None ->
                     score sd = None)
                 /\ (score sd = None <->
                     read_at nonzero s ["basic_info"; "enrollment"; "total"] = None))
  /\ (exists sd x, calculate_extracurriculars_score s = Ok sd /\ score sd = Some x)
  /\ (exists sd x, calculate_special_programs_score s = Ok sd /\ score sd = Some x)
  /\ (exists r,
        calculate_composite_score s weights preferences = Ok r
        /\ (forall category weight acc,
              points_of (category_scores r) category = None ->
              add_category (category_scores r) acc (category, weight) = acc)
        /\ total_weight r == contributing_weight (category_scores r) (weights_used r)).
Proof.
  intros H _ _.
  destruct (well_formed_sections s H) as (d & E & Hb & Ha & Hl & Hf & Hs & Hr).
  split.
  { subst s. destruct (academic_spec d Ha) as (sd & E & Hscore & Hex).
    exists sd. split; [exact E|]. split; [exact Hex|].
    rewrite Hscore. split; [|apply academic_null_iff].
    intros Hn. apply academic_null_iff. now apply pass_rates_absent. }
  split.
  { subst s. destruct (proximity_spec d Hl) as (sd & E & Hscore & Hex).
    exists sd. split; [exact E|]. split; [exact Hex|].
    rewrite Hscore. unfold proximity_by. split; [|apply null_iff_absent].
    intros Hn. apply null_iff_absent. now apply primary_minutes_absent. }
  split.
  { intros a. destruct (satisfaction_formula a s H) as (sd & Es & Hscore).
    subst s. destruct (satisfaction_ok a d Hr) as (sd' & Es' & Hex).
    rewrite Es in Es'. injection Es' as <-.
    exists sd. split; [exact Es|]. split; [exact Hex|].
    rewrite Hscore. split; [|apply null_iff_absent].
    intros Hn. apply null_iff_absent. now apply first_rating_absent. }
  subst s.
  split; [exact (facilities_ok d Hf)|].
  split.
  { destruct (size_spec d preferred_size Hb) as (sd & E & Hscore & Hex).
    exists sd. split; [exact E|]. split; [exact Hex|].
    rewrite Hscore. split; [|apply null_iff_absent].
    intros Hn. apply null_iff_absent. now apply read_at_nonzero_recorded. }
  split; [exact (extracurriculars_ok d Ha Hs)|].
  split; [exact (special_programs_ok d Ha)|].
  destruct (composite_total (JDict d) weights preferences H) as [r E].
  exists r. split; [exact E|]. split.
  - intros category weight acc Hn. now apply null_category_skipped.
  - apply (composite_average _ _ _ _ E).
Qed.

Lemma sparse_records_never_raise_witness :
  well_formed sparse_school = true
  /\ moderate sparse_school = true
  /\ moderate_weights None = true
  /\ (exists sd, calculate_academic_score sparse_school = Ok sd /\ score sd = None)
  /\ (forall a, exists sd, satisfaction_score a sparse_school = Ok sd /\ score sd = None)
  /\ exists r,
       calculate_composite_score sparse_school None None = Ok r
       /\ total_weight r == 20
       /\ composite_score r = Some 50.
Proof.
  assert (W : well_formed sparse_school = true) by reflexivity.
  assert (M : moderate sparse_school = true) by (vm_compute; reflexivity).
  assert (N : moderate_weights None = true) by (vm_compute; reflexivity).
  split; [exact W|]. split; [exact M|]. split; [exact N|].
  destruct (sparse_records_never_raise sparse_school "medium" None None W M N)
    as ((a & Ea & _ & Na & _) & _ & S & _ & _ & _ & _ & (r & Er & _ & T)).
  split; [exists a; split; [exact Ea|apply Na; reflexivity]|].
  split.
  { intros u. destruct (S u) as (sd & Es & _ & Ns & _).
    exists sd. split; [exact Es|]. apply Ns. destruct u; reflexivity. }
  exists r. split; [exact Er|].
  vm_compute in Er. injection Er as <-. split; reflexivity.
Defined.
